(** * The claw-chat WebChannel adapter of NanoClaw

    A shallow embedding of the two [WebChannel] classes of the repository
    and the properties of the adapter that the specification states.

    - [Web]    is [src/channels/web.ts]: the adapter that receives its
               base URL and secret through its options and offers the
               container-status and workspace-snapshot pushes.
    - [WebEnv] is the adapter of the add-claw-chat skill package (the file
               that carries the vitest suite): it reads its configuration
               with [readEnvFile] and re-reads the registry before the
               message loop.

    [Workspace] is [buildFileTree] of [workspace.ts]; its [FileEntry] trees
    are what [Web] pushes as workspace snapshots.

    Both adapters are asynchronous TypeScript.  A method is embedded as a
    computation in a state-and-exception monad: the state is the adapter
    instance together with the world outside it (host, network, clock,
    entropy, timers, and the trace of observable effects); an [await] is
    sequential composition; a rejected promise is a thrown error.  The state
    survives a throw, as the side effects of JavaScript do. *)

From Stdlib Require Import String Ascii List ZArith Lia Bool Arith.
From Stdlib Require Import Permutation Sorted.
Import ListNotations.
Local Open Scope string_scope.
#[local] Set Warnings "-register-all".
Local Open Scope Z_scope.

(** ** Strings

    A JavaScript string is a sequence of code units; a [string] here is the
    same sequence, one [ascii] for one code unit. *)

(** [s.slice(n)] for a non-negative literal [n]. *)
Fixpoint slice (n : nat) (s : string) : string :=
  match n, s with
  | O, _ => s
  | S _, EmptyString => EmptyString
  | S k, String _ rest => slice k rest
  end.

(** [s.startsWith(p)]. *)
Definition startsWith (p s : string) : bool := String.prefix p s.

(** [s.replace(/\/$/, '')]: one trailing slash removed. *)
Fixpoint stripTrailingSlash (s : string) : string :=
  match s with
  | EmptyString => EmptyString
  | String c EmptyString => if Ascii.eqb c "/" then EmptyString else s
  | String c rest => String c (stripTrailingSlash rest)
  end.

(** Truthiness of a string: the empty string is falsy. *)
Definition truthy (s : string) : bool :=
  match s with EmptyString => false | _ => true end.

(** [a || b] for a possibly undefined string [a]. *)
Definition orElse (a : option string) (b : string) : string :=
  match a with
  | Some s => if truthy s then s else b
  | None => b
  end.

(** A string that is there and not empty. *)
Definition hasText (a : option string) : bool :=
  match a with Some s => truthy s | None => false end.

(** [a ?? b] for a possibly undefined string [a]. *)
Definition coalesce (a : option string) (b : string) : string :=
  match a with Some s => s | None => b end.

(** ** JSON values, as handed to [JSON.stringify] *)

Inductive Json : Type :=
| JNull
| JBool (b : bool)
| JStr (s : string)
| JArr (items : list Json)
| JObj (fields : list (string * Json)).

Definition jstrings (l : list string) : Json := JArr (map JStr l).

Fixpoint assoc (k : string) (fs : list (string * Json)) : option Json :=
  match fs with
  | [] => None
  | (k', v) :: rest => if String.eqb k k' then Some v else assoc k rest
  end.

(** [body.k] of a request body. *)
Definition field (k : string) (j : Json) : option Json :=
  match j with JObj fs => assoc k fs | _ => None end.

(** ** Records exchanged with claw-chat and with the host *)

(** An element of [registrations] in the answer to [/api/internal/pending]. *)
Record Registration : Type := mkRegistration {
  reg_conversationId : string;
  reg_name : string;
  reg_folder : string;
  reg_requiresTrigger : option bool
}.

(** An element of [messages]; [senderName] may be missing. *)
Record PendingMessage : Type := mkPendingMessage {
  msg_id : string;
  msg_conversationId : string;
  msg_senderName : option string;
  msg_content : string;
  msg_createdAt : string
}.

(** The parsed answer; either array may be missing ([?? []] in the code). *)
Record PendingResponse : Type := mkPendingResponse {
  registrations : option (list Registration);
  messages : option (list PendingMessage)
}.

Record RegisteredGroup : Type := mkRegisteredGroup {
  name : string;
  folder : string;
  trigger : string;
  added_at : string;
  requiresTrigger : bool
}.

(** [is_bot_message] is absent from the record that [Web] builds. *)
Record NewMessage : Type := mkNewMessage {
  id : string;
  chat_jid : string;
  sender : string;
  sender_name : string;
  content : string;
  timestamp : string;
  is_from_me : bool;
  is_bot_message : option bool
}.

(** [FileEntry] of [workspace.ts]. *)
Inductive EntryType : Type := TFile | TDir.

Inductive FileEntry : Type :=
| Entry (entry_name : string) (entry_type : EntryType)
        (children : option (list FileEntry)).

Fixpoint fileEntryJson (e : FileEntry) : Json :=
  match e with
  | Entry n t c =>
      JObj (("name", JStr n)
            :: ("type", JStr match t with TFile => "file" | TDir => "dir" end)
            :: match c with
               | None => []
               | Some l => [("children", JArr (map fileEntryJson l))]
               end)
  end.

(** ** HTTP *)

Inductive Method : Type := GET | POST.

Record Request : Type := mkRequest {
  req_method : Method;
  req_url : string;
  req_headers : list (string * string);
  req_body : option Json
}.

(** The text of a response: empty, not JSON, or JSON of the declared type
    [PendingResponse] (the adapters cast the parsed text without a check;
    only the answer to [/api/internal/pending] is looked into).  A text that
    parses to another JSON value, such as [null] or a batch with an element
    of another type, has no constructor: the statements below speak of the
    three kinds of text listed here. *)
Inductive Body : Type :=
| BodyEmpty
| BodyInvalid
| BodyJson (data : PendingResponse).

Record Response : Type := mkResponse {
  status : Z;
  payload : Body
}.

(** [res.ok]. *)
Definition ok (r : Response) : bool := (200 <=? status r) && (status r <=? 299).

(** What [fetch] settles with: a rejection or a response. *)
Inductive FetchOutcome : Type :=
| NetworkFailure
| Responded (r : Response).

(** ** Errors and outcomes *)

Inductive Error : Type :=
| NetworkError
| HttpError (m : Method) (path : string) (code : Z)
| SyntaxError
| TypeError
| ConfigError (message : string).

Inductive Outcome (A : Type) : Type :=
| Returned (a : A)
| Thrown (e : Error).
Arguments Returned {A} a.
Arguments Thrown {A} e.

Definition returned {A} (o : Outcome A) : bool :=
  match o with Returned _ => true | Thrown _ => false end.

(** ** Observable effects *)

Inductive Level : Type := Info | Warn.

(** The delay of a timer: a literal, or [parseInt(s, 10)] kept symbolic. *)
Inductive Delay : Type :=
| Millis (ms : Z)
| ParseInt10 (s : string).

Record Timer : Type := mkTimer {
  timer_id : nat;
  timer_delay : Delay
}.

Inductive Event : Type :=
| EFetch (req : Request)
| ELog (lvl : Level) (message : string)
| ERegisterGroup (jid : string) (g : RegisteredGroup)
| EChatMetadata (jid : string) (time : string) (chatName : option string)
                (channel : string) (isGroup : bool)
| EMessage (jid : string) (m : NewMessage).

(** The requests among a run of events, in order. *)
Fixpoint requests (evs : list Event) : list Request :=
  match evs with
  | [] => []
  | EFetch r :: rest => r :: requests rest
  | _ :: rest => requests rest
  end.

(** The host callbacks among a run of events, in order. *)
Definition isCallback (ev : Event) : bool :=
  match ev with
  | ERegisterGroup _ _ | EChatMetadata _ _ _ _ _ | EMessage _ _ => true
  | _ => false
  end.

Definition callbacks (evs : list Event) : list Event := filter isCallback evs.

(** ** The host

    The host hands the adapter four functions ([WebChannelOpts]).  [H] is
    the host's state and [G] a reference to the object that
    [registeredGroups()] returns; [readGroup h g jid] is the property read
    [g[jid]] in the heap of [h], so that a host that mutates the object it
    handed out and a host that hands out copies are both instances.  A key
    of the form [web:...] is never found on [Object.prototype], so a read is
    truthy exactly when the host stored a group under it.  The callbacks
    are functions of the host's state: a callback that throws is not
    modelled. *)

Class Host (H G : Type) : Type := {
  onMessage : string -> NewMessage -> H -> H;
  onChatMetadata : string -> string -> option string -> string -> bool -> H -> H;
  registerGroup : string -> RegisteredGroup -> H -> H;
  registeredGroups : H -> G;
  readGroup : H -> G -> string -> option RegisteredGroup
}.

Definition present {A} (o : option A) : bool :=
  match o with Some _ => true | None => false end.

(** ** The world outside the adapter

    The network and the entropy source are oracles, asked in order.  Every
    method reads the clock within one synchronous stretch (before its first
    [await], or between the fetch and the acknowledgement of a poll cycle);
    the clock stands still during it and is moved by the world between
    calls.  Two reads within one stretch (a registration in [web.ts] reads
    the clock for [onChatMetadata] and again for [added_at]) therefore see
    one instant here, where a real clock can tick in between; the
    properties below do not relate the values of two reads. *)

#[projections(primitive)]
Record World (H : Type) : Type := mkWorld {
  host : H;
  trace : list Event;                       (* oldest first *)
  network : nat -> Request -> FetchOutcome; (* what the n-th fetch settles with *)
  fetched : nat;
  now : Z;                                  (* the clock, ms since the epoch *)
  entropy : nat -> Z;                       (* the n-th draw of 128 random bits *)
  drawn : nat;
  armed : list Timer;                       (* timers waiting in the event loop *)
  nextTimer : nat
}.
Arguments mkWorld {H}.
Arguments host {H}.
Arguments trace {H}.
Arguments network {H}.
Arguments fetched {H}.
Arguments now {H}.
Arguments entropy {H}.
Arguments drawn {H}.
Arguments armed {H}.
Arguments nextTimer {H}.

(** An adapter instance [self] in a world. *)
#[projections(primitive)]
Record Sys (I H : Type) : Type := mkSys {
  self : I;
  world : World H
}.
Arguments mkSys {I H}.
Arguments self {I H}.
Arguments world {I H}.

(** ** Platform functions used by the adapter

    [crypto.randomUUID] and [Date.prototype.toISOString] belong to Node and
    ECMAScript, not to the repository; they are given here as the functions
    their specifications define, so that the bodies the adapter sends can
    be computed. *)

Module Platform.

Definition hexDigit (z : Z) : ascii :=
  match String.get (Z.to_nat (Z.land z 15)) "0123456789abcdef" with
  | Some c => c
  | None => "0"%char
  end.

Definition hexByte (b : Z) : string :=
  String (hexDigit (Z.shiftr b 4)) (String (hexDigit b) "").

(** Byte [i] of the 128 random bits [e]. *)
Definition byteOf (e : Z) (i : Z) : Z := Z.land (Z.shiftr e (8 * i)) 255.

(** A version-4 UUID (RFC 4122) over the random bits [e]. *)
Definition uuidV4 (e : Z) : string :=
  let b := byteOf e in
  let version := Z.lor (Z.land (b 6) 15) 64 in
  let variant := Z.lor (Z.land (b 8) 63) 128 in
  hexByte (b 0) ++ hexByte (b 1) ++ hexByte (b 2) ++ hexByte (b 3) ++ "-"
  ++ hexByte (b 4) ++ hexByte (b 5) ++ "-"
  ++ hexByte version ++ hexByte (b 7) ++ "-"
  ++ hexByte variant ++ hexByte (b 9) ++ "-"
  ++ hexByte (b 10) ++ hexByte (b 11) ++ hexByte (b 12)
  ++ hexByte (b 13) ++ hexByte (b 14) ++ hexByte (b 15).

Definition digit (z : Z) : ascii := ascii_of_nat (48 + Z.to_nat (z mod 10)).

Definition pad2 (z : Z) : string :=
  String (digit (z / 10)) (String (digit z) "").

Definition pad3 (z : Z) : string := String (digit (z / 100)) (pad2 z).

Definition pad4 (z : Z) : string := String (digit (z / 1000)) (pad3 z).

Definition pad6 (z : Z) : string :=
  String (digit (z / 100000)) (String (digit (z / 10000)) (pad4 z)).

Definition msPerDay : Z := 86400000.

(** Year of the era, month and day for a day [doe] of a 400-year era that
    starts on March 1st. *)
Definition civilOfEra (doe : Z) : Z * Z * Z :=
  let yoe := (doe - doe / 1460 + doe / 36524 - doe / 146096) / 365 in
  let doy := doe - (365 * yoe + yoe / 4 - yoe / 100) in
  let mp := (5 * doy + 2) / 153 in
  let d := doy - (153 * mp + 2) / 5 + 1 in
  let m := if mp <? 10 then mp + 3 else mp - 9 in
  (yoe + (if m <=? 2 then 1 else 0), m, d).

(** Year, month and day of the proleptic Gregorian calendar for a day
    number counted from 1970-01-01. *)
Definition civil (day : Z) : Z * Z * Z :=
  let z := day + 719468 in
  let '(y, m, d) := civilOfEra (z mod 146097) in
  (y + z / 146097 * 400, m, d).

(** A month from 1 to 12 and a day from 1 to 31. *)
Definition dateInRange (doe : Z) : bool :=
  let '(_, m, d) := civilOfEra doe in
  (1 <=? m) && (m <=? 12) && (1 <=? d) && (d <=? 31).

(** [p] holds of the [n] integers from [z] on. *)
Fixpoint allFrom (n : nat) (z : Z) (p : Z -> bool) : bool :=
  match n with
  | O => true
  | S k => p z && allFrom k (z + 1) p
  end.

(** Four digits for the years 0 to 9999, a sign and six digits otherwise. *)
Definition isoYear (y : Z) : string :=
  if (0 <=? y) && (y <=? 9999) then pad4 y
  else String (if y <? 0 then "-"%char else "+"%char) (pad6 (Z.abs y)).

(** [new Date(t).toISOString()] for a time value [t]. *)
Definition toISOString (t : Z) : string :=
  let '(y, m, d) := civil (t / msPerDay) in
  let tod := t mod msPerDay in
  isoYear y ++ "-" ++ pad2 m ++ "-" ++ pad2 d ++ "T"
  ++ pad2 (tod / 3600000) ++ ":" ++ pad2 (tod / 60000 mod 60) ++ ":"
  ++ pad2 (tod / 1000 mod 60) ++ "." ++ pad3 (tod mod 1000) ++ "Z".

Definition isDigit (c : ascii) : bool :=
  let n := nat_of_ascii c in (48 <=? n)%nat && (n <=? 57)%nat.

Fixpoint allDigits (s : string) : bool :=
  match s with
  | EmptyString => true
  | String c rest => isDigit c && allDigits rest
  end.

(** The value of a string of decimal digits. *)
Fixpoint digitsValue (acc : Z) (s : string) : Z :=
  match s with
  | EmptyString => acc
  | String c rest => digitsValue (10 * acc + Z.of_nat (nat_of_ascii c - 48)) rest
  end.

Definition numberIn (lo hi : Z) (s : string) : bool :=
  allDigits s && (lo <=? digitsValue 0 s) && (digitsValue 0 s <=? hi).

(** The part of a timestamp after the year:
    [-MM-DDTHH:mm:ss.sssZ] with every field in its range. *)
Definition isIsoTail (s : string) : bool :=
  (String.length s =? 20)%nat
  && String.eqb (substring 0 1 s) "-" && numberIn 1 12 (substring 1 2 s)
  && String.eqb (substring 3 1 s) "-" && numberIn 1 31 (substring 4 2 s)
  && String.eqb (substring 6 1 s) "T" && numberIn 0 23 (substring 7 2 s)
  && String.eqb (substring 9 1 s) ":" && numberIn 0 59 (substring 10 2 s)
  && String.eqb (substring 12 1 s) ":" && numberIn 0 59 (substring 13 2 s)
  && String.eqb (substring 15 1 s) "." && numberIn 0 999 (substring 16 3 s)
  && String.eqb (substring 19 1 s) "Z".

(** A well-formed ISO 8601 timestamp in the two shapes of ECMAScript:
    [YYYY-MM-DDTHH:mm:ss.sssZ] and the expanded [+-YYYYYY-...]. *)
Definition isIsoTimestamp (s : string) : bool :=
  match String.length s with
  | 24%nat => allDigits (substring 0 4 s) && isIsoTail (substring 4 20 s)
  | 27%nat =>
      (String.eqb (substring 0 1 s) "+" || String.eqb (substring 0 1 s) "-")
      && allDigits (substring 1 6 s) && isIsoTail (substring 7 20 s)
  | _ => false
  end.

End Platform.

Arguments Platform.toISOString t : simpl never.
Arguments Platform.uuidV4 e : simpl never.

(** ** The monad of adapter methods *)

Definition M (I H A : Type) : Type := Sys I H -> Outcome A * Sys I H.

Section Monad.
Context {I H : Type}.

Definition ret {A} (a : A) : M I H A := fun s => (Returned a, s).

Definition bind {A B} (m : M I H A) (k : A -> M I H B) : M I H B :=
  fun s =>
    match m s with
    | (Returned a, s') => k a s'
    | (Thrown e, s') => (Thrown e, s')
    end.

Definition throw {A} (e : Error) : M I H A := fun s => (Thrown e, s).

(** [try { m } catch (e) { h e }]. *)
Definition tryCatch {A} (m : M I H A) (h : Error -> M I H A) : M I H A :=
  fun s =>
    match m s with
    | (Returned a, s') => (Returned a, s')
    | (Thrown e, s') => h e s'
    end.

(** [try { m } finally { f }]; also [m.finally(() => f)]. *)
Definition finally_ {A} (m : M I H A) (f : M I H unit) : M I H A :=
  fun s =>
    let '(o, s') := m s in
    match f s' with
    | (Returned _, s'') => (o, s'')
    | (Thrown e, s'') => (Thrown e, s'')
    end.

(** A [for ... of] loop that threads the arrays it pushes to. *)
Fixpoint forOf {X A} (body : X -> A -> M I H A) (l : list X) (acc : A)
  : M I H A :=
  match l with
  | [] => ret acc
  | x :: rest => bind (body x acc) (fun acc' => forOf body rest acc')
  end.

Definition getSelf : M I H I := fun s => (Returned (self s), s).

Definition setSelf (i : I) : M I H unit :=
  fun s => (Returned tt, mkSys i (world s)).

(** A primitive that only touches the world. *)
Definition inWorld {A} (f : World H -> Outcome A * World H) : M I H A :=
  fun s => let '(o, w) := f (world s) in (o, mkSys (self s) w).

End Monad.

Declare Scope adapter_scope.
Delimit Scope adapter_scope with adapter.
Notation "x <- m ;; k" := (bind m (fun x => k))
  (at level 61, m at next level, right associativity) : adapter_scope.
Notation "m ;; k" := (bind m (fun _ => k))
  (at level 61, right associativity) : adapter_scope.
Local Open Scope adapter_scope.

(** ** Primitives *)

Section Primitives.
Context {I H : Type}.

Definition pushEvent (ev : Event) (w : World H) : World H :=
  mkWorld (host w) (trace w ++ [ev]) (network w) (fetched w) (now w)
          (entropy w) (drawn w) (armed w) (nextTimer w).

Definition setHost (h : H) (w : World H) : World H :=
  mkWorld h (trace w) (network w) (fetched w) (now w)
          (entropy w) (drawn w) (armed w) (nextTimer w).

Definition emit (ev : Event) : M I H unit :=
  inWorld (fun w => (Returned tt, pushEvent ev w)).

Definition logger_info (msg : string) : M I H unit := emit (ELog Info msg).
Definition logger_warn (msg : string) : M I H unit := emit (ELog Warn msg).

(** [await fetch(url, init)]: the request leaves, the network settles it. *)
Definition fetch (req : Request) : M I H Response :=
  inWorld (fun w =>
    let w' := mkWorld (host w) (trace w ++ [EFetch req]) (network w)
                      (S (fetched w)) (now w) (entropy w) (drawn w)
                      (armed w) (nextTimer w) in
    match network w (fetched w) req with
    | NetworkFailure => (Thrown NetworkError, w')
    | Responded r => (Returned r, w')
    end).

(** [randomUUID()]: a UUID over the next draw of the entropy source. *)
Definition randomUUID : M I H string :=
  inWorld (fun w =>
    (Returned (Platform.uuidV4 (entropy w (drawn w))),
     mkWorld (host w) (trace w) (network w) (fetched w) (now w)
             (entropy w) (S (drawn w)) (armed w) (nextTimer w))).

(** [new Date().toISOString()]. *)
Definition nowISO : M I H string :=
  inWorld (fun w => (Returned (Platform.toISOString (now w)), w)).

(** [setTimeout(callback, delay)]; the handle is a fresh timer. *)
Definition setTimeout (d : Delay) : M I H nat :=
  inWorld (fun w =>
    (Returned (nextTimer w),
     mkWorld (host w) (trace w) (network w) (fetched w) (now w)
             (entropy w) (drawn w)
             (armed w ++ [mkTimer (nextTimer w) d]) (S (nextTimer w)))).

Definition clearTimeout (t : nat) : M I H unit :=
  inWorld (fun w =>
    (Returned tt,
     mkWorld (host w) (trace w) (network w) (fetched w) (now w)
             (entropy w) (drawn w)
             (filter (fun x => negb (Nat.eqb (timer_id x) t)) (armed w))
             (nextTimer w))).

Context {G : Type} {hostOps : Host H G}.

(** [this.opts.registeredGroups()]. *)
Definition opts_registeredGroups : M I H G :=
  inWorld (fun w => (Returned (registeredGroups (host w)), w)).

(** The property read [groups[jid]]. *)
Definition getGroup (groups : G) (jid : string) : M I H (option RegisteredGroup) :=
  inWorld (fun w => (Returned (readGroup (host w) groups jid), w)).

Definition opts_registerGroup (jid : string) (g : RegisteredGroup) : M I H unit :=
  inWorld (fun w =>
    (Returned tt, setHost (registerGroup jid g (host w))
                          (pushEvent (ERegisterGroup jid g) w))).

Definition opts_onChatMetadata (jid time : string) (chatName : option string)
           (channel : string) (isGroup : bool) : M I H unit :=
  inWorld (fun w =>
    (Returned tt,
     setHost (onChatMetadata jid time chatName channel isGroup (host w))
             (pushEvent (EChatMetadata jid time chatName channel isGroup) w))).

Definition opts_onMessage (jid : string) (m : NewMessage) : M I H unit :=
  inWorld (fun w =>
    (Returned tt, setHost (onMessage jid m (host w))
                          (pushEvent (EMessage jid m) w))).

End Primitives.

(** A timer leaves the event loop when it fires; [false] when it was
    cleared before. *)
Definition takeTimer {I H : Type} (t : nat) : M I H bool :=
  inWorld (fun w =>
    (Returned (existsb (fun x => Nat.eqb (timer_id x) t) (armed w)),
     mkWorld (host w) (trace w) (network w) (fetched w) (now w)
             (entropy w) (drawn w)
             (filter (fun x => negb (Nat.eqb (timer_id x) t)) (armed w))
             (nextTimer w))).

(** [xs ?? []]. *)
Definition orEmpty {A} (xs : option (list A)) : list A :=
  match xs with Some l => l | None => [] end.

(** [xs.length > 0]. *)
Definition nonEmpty {A} (xs : list A) : bool :=
  match xs with [] => false | _ => true end.

(** ** [src/channels/web.ts] *)

Module Web.

Record WebChannelOpts : Type := mkOpts {
  url : string;
  secret : string
}.

Record WebChannel : Type := mkWebChannel {
  opts : WebChannelOpts;
  polling : bool;
  pollTimer : option nat
}.

(** ['running' | 'idle' | 'error']. *)
Inductive ContainerStatus : Type := Running | Idle | Failed.

Definition statusText (s : ContainerStatus) : string :=
  match s with Running => "running" | Idle => "idle" | Failed => "error" end.

(** [constructor(private opts: WebChannelOpts) {}]. *)
Definition constructor (o : WebChannelOpts) : Outcome WebChannel :=
  Returned (mkWebChannel o false None).

Definition ownsJid (jid : string) : bool := startsWith "web:" jid.

Definition isConnected (this : WebChannel) : bool := polling this.

(** What [get] hands to [fetch]. *)
Definition getRequest (this : WebChannel) (path : string) : Request :=
  mkRequest GET (url (opts this) ++ path)
            [("Authorization", "Bearer " ++ secret (opts this))] None.

(** What [post] hands to [fetch]. *)
Definition postRequest (this : WebChannel) (path : string) (body : Json)
  : Request :=
  mkRequest POST (url (opts this) ++ path)
            [("Content-Type", "application/json");
             ("Authorization", "Bearer " ++ secret (opts this))]
            (Some body).

(** How [get] settles for what [fetch] settled with. *)
Definition getOutcome (path : string) (o : FetchOutcome) : Outcome PendingResponse :=
  match o with
  | NetworkFailure => Thrown NetworkError
  | Responded r =>
      if ok r then
        match payload r with
        | BodyJson data => Returned data
        | BodyEmpty | BodyInvalid => Thrown SyntaxError
        end
      else Thrown (HttpError GET path (status r))
  end.

(** How [post] settles for what [fetch] settled with. *)
Definition postOutcome (path : string) (o : FetchOutcome) : Outcome unit :=
  match o with
  | NetworkFailure => Thrown NetworkError
  | Responded r =>
      if ok r then Returned tt else Thrown (HttpError POST path (status r))
  end.

Section Methods.
Context {H G : Type} {hostOps : Host H G}.

Definition get (path : string) : M WebChannel H PendingResponse :=
  this <- getSelf ;;
  res <- fetch (getRequest this path) ;;
  if negb (ok res) then throw (HttpError GET path (status res))
  else match payload res with
       | BodyJson data => ret data
       | BodyEmpty | BodyInvalid => throw SyntaxError
       end.

Definition post (path : string) (body : Json) : M WebChannel H unit :=
  this <- getSelf ;;
  res <- fetch (postRequest this path body) ;;
  if negb (ok res) then throw (HttpError POST path (status res)) else ret tt.

Definition schedulePoll : M WebChannel H unit :=
  this <- getSelf ;;
  if negb (polling this) then ret tt
  else
    t <- setTimeout (Millis 2000) ;;
    setSelf (mkWebChannel (opts this) (polling this) (Some t)).

Definition connect : M WebChannel H unit :=
  this <- getSelf ;;
  setSelf (mkWebChannel (opts this) true (pollTimer this)) ;;
  schedulePoll ;;
  logger_info "WebChannel started polling".

Definition disconnect : M WebChannel H unit :=
  this <- getSelf ;;
  setSelf (mkWebChannel (opts this) false (pollTimer this)) ;;
  match pollTimer this with
  | Some t =>
      clearTimeout t ;;
      setSelf (mkWebChannel (opts this) false None)
  | None => ret tt
  end.

Definition sendMessage (jid text : string) : M WebChannel H unit :=
  let conversationId := slice 4 jid in
  id <- randomUUID ;;
  createdAt <- nowISO ;;
  post "/api/internal/deliver"
       (JObj [("id", JStr id);
              ("conversationId", JStr conversationId);
              ("content", JStr text);
              ("createdAt", JStr createdAt)]).

Definition setTyping (jid : string) (isTyping : bool) : M WebChannel H unit :=
  let conversationId := slice 4 jid in
  tryCatch
    (post "/api/internal/typing"
          (JObj [("conversationId", JStr conversationId);
                 ("isTyping", JBool isTyping)]))
    (fun err => logger_warn "WebChannel: failed to set typing").

Definition pushContainerStatus (jid : string) (status : ContainerStatus)
           (error : option string) : M WebChannel H unit :=
  if negb (startsWith "web:" jid) then ret tt
  else
    let conversationId := slice 4 jid in
    tryCatch
      (post "/api/internal/container-status"
            (JObj ([("conversationId", JStr conversationId);
                    ("status", JStr (statusText status))]
                   ++ match error with
                      | Some e => if truthy e then [("error", JStr e)] else []
                      | None => []
                      end)%list))
      (fun err => logger_warn "WebChannel: failed to push container status").

Definition pushWorkspaceSnapshot (jid : string) (tree : list FileEntry)
  : M WebChannel H unit :=
  if negb (startsWith "web:" jid) then ret tt
  else
    let conversationId := slice 4 jid in
    tryCatch
      (post "/api/internal/workspace-snapshot"
            (JObj [("conversationId", JStr conversationId);
                   ("tree", JArr (map fileEntryJson tree))]))
      (fun err => logger_warn "WebChannel: failed to push workspace snapshot").

(** The body of [for (const reg of data.registrations ?? [])]. *)
Definition registrationStep (reg : Registration) (newConversationIds : list string)
  : M WebChannel H (list string) :=
  let jid := "web:" ++ reg_conversationId reg in
  groups <- opts_registeredGroups ;;
  known <- getGroup groups jid ;;
  (if negb (present known) then
     t1 <- nowISO ;;
     opts_onChatMetadata jid t1 (Some (reg_name reg)) "web" false ;;
     t2 <- nowISO ;;
     opts_registerGroup jid
       (mkRegisteredGroup (reg_name reg) (reg_folder reg) "" t2 false) ;;
     logger_info "WebChannel: registered conversation"
   else ret tt) ;;
  ret (newConversationIds ++ [reg_conversationId reg])%list.

Definition newMessage (msg : PendingMessage) : NewMessage :=
  let jid := "web:" ++ msg_conversationId msg in
  mkNewMessage (msg_id msg) jid ("user@" ++ jid)
               (coalesce (msg_senderName msg) "User")
               (msg_content msg) (msg_createdAt msg) false None.

(** The body of [for (const msg of data.messages ?? [])]. *)
Definition messageStep (msg : PendingMessage) (newMessageIds : list string)
  : M WebChannel H (list string) :=
  let jid := "web:" ++ msg_conversationId msg in
  opts_onMessage jid (newMessage msg) ;;
  ret (newMessageIds ++ [msg_id msg])%list.

Definition ackBody (newConversationIds newMessageIds : list string) : Json :=
  JObj [("conversationIds", jstrings newConversationIds);
        ("messageIds", jstrings newMessageIds)].

Definition poll : M WebChannel H unit :=
  finally_
    (tryCatch
       (data <- get "/api/internal/pending" ;;
        newConversationIds <- forOf registrationStep (orEmpty (registrations data)) [] ;;
        newMessageIds <- forOf messageStep (orEmpty (messages data)) [] ;;
        if nonEmpty newConversationIds || nonEmpty newMessageIds
        then post "/api/internal/ack" (ackBody newConversationIds newMessageIds)
        else ret tt)
       (fun err => logger_warn "WebChannel: poll error"))
    schedulePoll.

(** The callback handed to [setTimeout]: [() => void this.poll()]. *)
Definition timerCallback : M WebChannel H unit := poll.

(** Timer [t] comes due. *)
Definition fireTimer (t : nat) : M WebChannel H unit :=
  due <- takeTimer t ;;
  if due then timerCallback else ret tt.

(** What the host and the event loop can do with the adapter.  [CTimer t]
    is a timer that comes due with its whole cycle; [CCycle] is a cycle that
    a timer started earlier and that runs to its end now, between two calls
    of the host.  [poll] is private and has no call of its own. *)
Inductive Call : Type :=
| CConnect
| CDisconnect
| CSendMessage (jid text : string)
| CSetTyping (jid : string) (isTyping : bool)
| CPushContainerStatus (jid : string) (status : ContainerStatus)
                       (error : option string)
| CPushWorkspaceSnapshot (jid : string) (tree : list FileEntry)
| CCycle
| CTimer (t : nat).

Definition perform (c : Call) : M WebChannel H unit :=
  match c with
  | CConnect => connect
  | CDisconnect => disconnect
  | CSendMessage jid text => sendMessage jid text
  | CSetTyping jid isTyping => setTyping jid isTyping
  | CPushContainerStatus jid status error => pushContainerStatus jid status error
  | CPushWorkspaceSnapshot jid tree => pushWorkspaceSnapshot jid tree
  | CCycle => timerCallback
  | CTimer t => fireTimer t
  end.

(** A sequence of calls, each run to its end whatever its outcome. *)
Definition performAll (cs : list Call) (s : Sys WebChannel H) : Sys WebChannel H :=
  fold_left (fun s c => snd (perform c s)) cs s.

End Methods.

End Web.

(** ** The adapter of the add-claw-chat skill package *)

Module WebEnv.

(** The keys that [readEnvFile] is asked for; also the part of
    [process.env] that the constructor reads. *)
Record Env : Type := mkEnv {
  WEBUI_URL : option string;
  WEBUI_INTERNAL_SECRET : option string;
  WEBUI_POLL_INTERVAL_MS : option string
}.

Record WebChannel : Type := mkWebChannel {
  connected : bool;
  pollTimer : option nat;
  baseUrl : string;
  secret : string;
  pollIntervalMs : Delay
}.

(** [constructor(opts)]; [env] is what [readEnvFile] returned and
    [processEnv] is [process.env]. *)
Definition constructor (env processEnv : Env) : Outcome WebChannel :=
  let baseUrl :=
    stripTrailingSlash
      (orElse (WEBUI_URL env)
              (orElse (WEBUI_URL processEnv) "http://localhost:3000")) in
  let secret :=
    orElse (WEBUI_INTERNAL_SECRET env)
           (orElse (WEBUI_INTERNAL_SECRET processEnv) "") in
  let pollIntervalMs :=
    ParseInt10 (orElse (WEBUI_POLL_INTERVAL_MS env)
                       (orElse (WEBUI_POLL_INTERVAL_MS processEnv) "2000")) in
  if negb (truthy secret)
  then Thrown (ConfigError "WEBUI_INTERNAL_SECRET must be set in .env")
  else Returned (mkWebChannel false None baseUrl secret pollIntervalMs).

Definition ownsJid (jid : string) : bool := startsWith "web:" jid.

Definition isConnected (this : WebChannel) : bool := connected this.

Definition setConnected (b : bool) (this : WebChannel) : WebChannel :=
  mkWebChannel b (pollTimer this) (baseUrl this) (secret this)
               (pollIntervalMs this).

Definition setPollTimer (t : option nat) (this : WebChannel) : WebChannel :=
  mkWebChannel (connected this) t (baseUrl this) (secret this)
               (pollIntervalMs this).

(** What [request] hands to [fetch]. *)
Definition requestOf (this : WebChannel) (method : Method) (path : string)
           (body : option Json) : Request :=
  mkRequest method (baseUrl this ++ path)
            [("Content-Type", "application/json");
             ("Authorization", "Bearer " ++ secret this)]
            body.

(** How [request] settles for what [fetch] settled with. *)
Definition requestOutcome (method : Method) (path : string) (o : FetchOutcome)
  : Outcome (option PendingResponse) :=
  match o with
  | NetworkFailure => Thrown NetworkError
  | Responded r =>
      if ok r then
        match payload r with
        | BodyEmpty => Returned None
        | BodyInvalid => Thrown SyntaxError
        | BodyJson data => Returned (Some data)
        end
      else Thrown (HttpError method path (status r))
  end.

Section Methods.
Context {H G : Type} {hostOps : Host H G}.

(** [request] returns the parsed text of the answer, [null] for an empty
    one. *)
Definition request (method : Method) (path : string) (body : option Json)
  : M WebChannel H (option PendingResponse) :=
  this <- getSelf ;;
  res <- fetch (requestOf this method path body) ;;
  if negb (ok res) then throw (HttpError method path (status res))
  else match payload res with
       | BodyEmpty => ret None
       | BodyInvalid => throw SyntaxError
       | BodyJson data => ret (Some data)
       end.

Definition schedulePoll : M WebChannel H unit :=
  this <- getSelf ;;
  if negb (connected this) then ret tt
  else
    t <- setTimeout (pollIntervalMs this) ;;
    this' <- getSelf ;;
    setSelf (setPollTimer (Some t) this').

(** [connect] awaits the health probe before it sets the flag and arms the
    timer.  It runs to its end here; [WebEnv_connectProbe] and
    [WebEnv_connectResume] below are its two halves, for a call that falls
    in between. *)
Definition connect : M WebChannel H unit :=
  tryCatch
    (request GET "/api/health" None ;;
     logger_info "WebChannel connected to claw-chat")
    (fun err =>
       logger_warn "claw-chat not reachable at startup, will retry on next poll") ;;
  this <- getSelf ;;
  setSelf (setConnected true this) ;;
  schedulePoll.

Definition sendMessage (jid text : string) : M WebChannel H unit :=
  let conversationId := slice 4 jid in
  id <- randomUUID ;;
  createdAt <- nowISO ;;
  tryCatch
    (request POST "/api/internal/deliver"
             (Some (JObj [("id", JStr id);
                          ("conversationId", JStr conversationId);
                          ("content", JStr text);
                          ("createdAt", JStr createdAt)])) ;;
     logger_info "WebChannel message delivered")
    (fun err => logger_warn "WebChannel failed to deliver message to claw-chat").

Definition disconnect : M WebChannel H unit :=
  this <- getSelf ;;
  setSelf (setConnected false this) ;;
  match pollTimer this with
  | Some t =>
      clearTimeout t ;;
      this' <- getSelf ;;
      setSelf (setPollTimer None this')
  | None => ret tt
  end ;;
  logger_info "WebChannel disconnected".

Definition setTyping (jid : string) (isTyping : bool) : M WebChannel H unit :=
  let conversationId := slice 4 jid in
  tryCatch
    (request POST "/api/internal/typing"
             (Some (JObj [("conversationId", JStr conversationId);
                          ("isTyping", JBool isTyping)])) ;;
     ret tt)
    (fun err => ret tt).

(** The body of [for (const reg of data.registrations ?? [])];
    [registeredGroups] is the object read before the loop. *)
Definition registrationStep (registeredGroups : G) (reg : Registration)
           (ackedConversationIds : list string) : M WebChannel H (list string) :=
  let jid := "web:" ++ reg_conversationId reg in
  known <- getGroup registeredGroups jid ;;
  (if negb (present known) then
     t <- nowISO ;;
     opts_registerGroup jid
       (mkRegisteredGroup (reg_name reg) (reg_folder reg) (reg_folder reg) t false) ;;
     logger_info "WebChannel registered conversation"
   else ret tt) ;;
  ret (ackedConversationIds ++ [reg_conversationId reg])%list.

Definition newMessage (msg : PendingMessage) : NewMessage :=
  let jid := "web:" ++ msg_conversationId msg in
  mkNewMessage (msg_id msg) jid (msg_conversationId msg)
               (orElse (msg_senderName msg) "You")
               (msg_content msg) (msg_createdAt msg) false (Some false).

(** The body of [for (const msg of data.messages ?? [])];
    [currentGroups] is the object read after the registration loop. *)
Definition messageStep (currentGroups : G) (msg : PendingMessage)
           (ackedMessageIds : list string) : M WebChannel H (list string) :=
  let jid := "web:" ++ msg_conversationId msg in
  known <- getGroup currentGroups jid ;;
  if negb (present known) then
    logger_warn "WebChannel: message for unregistered conversation, skipping" ;;
    ret ackedMessageIds
  else
    let timestamp := msg_createdAt msg in
    opts_onChatMetadata jid timestamp None "web" false ;;
    opts_onMessage jid (newMessage msg) ;;
    ret (ackedMessageIds ++ [msg_id msg])%list.

Definition ackBody (ackedMessageIds ackedConversationIds : list string) : Json :=
  JObj [("messageIds", jstrings ackedMessageIds);
        ("conversationIds", jstrings ackedConversationIds)].

(** [data.registrations] and [data.messages] throw on a [null] answer. *)
Definition member {A} (data : option PendingResponse)
           (f : PendingResponse -> option (list A)) : M WebChannel H (list A) :=
  match data with
  | None => throw TypeError
  | Some d => ret (orEmpty (f d))
  end.

(** What follows the fetch in [poll], for the answer [data]. *)
Definition processBatch (data : option PendingResponse) : M WebChannel H unit :=
  registeredGroups <- opts_registeredGroups ;;
  regs <- member data registrations ;;
  ackedConversationIds <- forOf (registrationStep registeredGroups) regs [] ;;
  currentGroups <- opts_registeredGroups ;;
  msgs <- member data messages ;;
  ackedMessageIds <- forOf (messageStep currentGroups) msgs [] ;;
  if nonEmpty ackedMessageIds || nonEmpty ackedConversationIds
  then
    tryCatch
      (request POST "/api/internal/ack"
               (Some (ackBody ackedMessageIds ackedConversationIds)) ;;
       ret tt)
      (fun err =>
         logger_warn "WebChannel ack failed — items may be redelivered on next poll")
  else ret tt.

Definition poll : M WebChannel H unit :=
  answer <- tryCatch
              (data <- request GET "/api/internal/pending" None ;;
               ret (Some data))
              (fun err =>
                 logger_warn "WebChannel /pending poll failed, retrying next cycle" ;;
                 ret None) ;;
  match answer with
  | None => ret tt
  | Some data => processBatch data
  end.

(** The callback handed to [setTimeout]:
    [this.poll().catch(...).finally(() => this.schedulePoll())]. *)
Definition timerCallback : M WebChannel H unit :=
  finally_
    (tryCatch poll (fun err => logger_warn "WebChannel poll error"))
    schedulePoll.

(** Timer [t] comes due. *)
Definition fireTimer (t : nat) : M WebChannel H unit :=
  due <- takeTimer t ;;
  if due then timerCallback else ret tt.

(** What the host and the event loop can do with the adapter.  [CPoll] is
    the direct call of [poll] that the test-suite makes; [CTimer t] is a
    timer that comes due with its whole cycle; [CCycle] is a cycle that a
    timer started earlier and that runs to its end now, between two calls of
    the host. *)
Inductive Call : Type :=
| CConnect
| CDisconnect
| CSendMessage (jid text : string)
| CSetTyping (jid : string) (isTyping : bool)
| CPoll
| CCycle
| CTimer (t : nat).

Definition perform (c : Call) : M WebChannel H unit :=
  match c with
  | CConnect => connect
  | CDisconnect => disconnect
  | CSendMessage jid text => sendMessage jid text
  | CSetTyping jid isTyping => setTyping jid isTyping
  | CPoll => poll
  | CCycle => timerCallback
  | CTimer t => fireTimer t
  end.

(** A sequence of calls, each run to its end whatever its outcome. *)
Definition performAll (cs : list Call) (s : Sys WebChannel H) : Sys WebChannel H :=
  fold_left (fun s c => snd (perform c s)) cs s.

End Methods.

End WebEnv.

(** ** Concrete hosts and networks

    Used to run the adapter on concrete batches. *)

(** A registry object: the own properties of a [Record<string, RegisteredGroup>]
    in insertion order. *)
Definition Registry : Type := list (string * RegisteredGroup).

Fixpoint lookupGroup (jid : string) (r : Registry) : option RegisteredGroup :=
  match r with
  | [] => None
  | (k, g) :: rest => if String.eqb jid k then Some g else lookupGroup jid rest
  end.

(** [r[jid] = g]. *)
Fixpoint storeGroup (jid : string) (g : RegisteredGroup) (r : Registry) : Registry :=
  match r with
  | [] => [(jid, g)]
  | (k, g') :: rest =>
      if String.eqb jid k then (k, g) :: rest else (k, g') :: storeGroup jid g rest
  end.

(** The host of the test-suite: [registeredGroups] is
    [vi.fn().mockReturnValue(r)] and the three callbacks are [vi.fn()]. *)
Definition MockHost : Host Registry unit :=
  {| onMessage := fun _ _ h => h;
     onChatMetadata := fun _ _ _ _ _ h => h;
     registerGroup := fun _ _ h => h;
     registeredGroups := fun _ => tt;
     readGroup := fun h _ jid => lookupGroup jid h |}.

(** A host that keeps its groups in one object, hands that object out and
    stores into it on [registerGroup]. *)
Definition LiveHost : Host Registry unit :=
  {| onMessage := fun _ _ h => h;
     onChatMetadata := fun _ _ _ _ _ h => h;
     registerGroup := storeGroup;
     registeredGroups := fun _ => tt;
     readGroup := fun h _ jid => lookupGroup jid h |}.

(** A host whose accessor hands out a copy of its groups. *)
Definition CopyingHost : Host Registry Registry :=
  {| onMessage := fun _ _ h => h;
     onChatMetadata := fun _ _ _ _ _ h => h;
     registerGroup := storeGroup;
     registeredGroups := fun h => h;
     readGroup := fun _ g jid => lookupGroup jid g |}.

Fixpoint lookupRoute (u : string) (routes : list (string * FetchOutcome))
  : option FetchOutcome :=
  match routes with
  | [] => None
  | (k, o) :: rest => if String.eqb u k then Some o else lookupRoute u rest
  end.

(** [makeFetchMock] of the test-suite: an answer per URL, and status 200 with
    an empty text for every other URL. *)
Definition mockNetwork (routes : list (string * FetchOutcome))
  : nat -> Request -> FetchOutcome :=
  fun _ req =>
    match lookupRoute (req_url req) routes with
    | Some o => o
    | None => Responded (mkResponse 200 BodyEmpty)
    end.

(** A world with nothing in flight: no trace, no timer; the clock stands at
    2026-02-27T10:00:00.000Z. *)
Definition quietWorld {H} (h : H) (net : nat -> Request -> FetchOutcome) : World H :=
  mkWorld h [] net 0 1772186400000 (fun n => Z.of_nat n) 0 [] 0.

Definition answer (code : Z) (b : Body) : FetchOutcome :=
  Responded (mkResponse code b).

Definition batch (regs : list Registration) (msgs : list PendingMessage) : Body :=
  BodyJson (mkPendingResponse (Some regs) (Some msgs)).

(** The answer of the network to the fetch of [/api/internal/pending], when
    it is a 2xx answer that carries a batch. *)
Definition batchOf (o : FetchOutcome) : option PendingResponse :=
  match o with
  | Responded r =>
      if ok r then
        match payload r with BodyJson d => Some d | _ => None end
      else None
  | NetworkFailure => None
  end.

(** A fetch that fails: the network rejects it or answers outside 2xx. *)
Definition fetchFails (o : FetchOutcome) : bool :=
  match o with
  | NetworkFailure => true
  | Responded r => negb (ok r)
  end.

(** The ids of the messages handed to [onMessage] in a run of events. *)
Fixpoint forwardedIds (evs : list Event) : list string :=
  match evs with
  | [] => []
  | EMessage _ m :: rest => id m :: forwardedIds rest
  | _ :: rest => forwardedIds rest
  end.

(** The system after the host moved to [h] and the events [evs] were
    observed; nothing else changed. *)
Definition observed {I H} (h : H) (evs : list Event) (s : Sys I H) : Sys I H :=
  mkSys (self s)
        (mkWorld h (trace (world s) ++ evs) (network (world s))
                 (fetched (world s)) (now (world s)) (entropy (world s))
                 (drawn (world s)) (armed (world s)) (nextTimer (world s))).

(** The system after the request [req] left. *)
Definition sent {I H} (req : Request) (s : Sys I H) : Sys I H :=
  mkSys (self s)
        (mkWorld (host (world s)) (trace (world s) ++ [EFetch req])
                 (network (world s)) (S (fetched (world s))) (now (world s))
                 (entropy (world s)) (drawn (world s)) (armed (world s))
                 (nextTimer (world s))).

(** What the network settles the next fetch with, if it is of [req]. *)
Definition nextAnswer {I H} (s : Sys I H) (req : Request) : FetchOutcome :=
  network (world s) (fetched (world s)) req.

(** The system after one draw from the entropy source. *)
Definition drew {I H} (s : Sys I H) : Sys I H :=
  mkSys (self s)
        (mkWorld (host (world s)) (trace (world s)) (network (world s))
                 (fetched (world s)) (now (world s)) (entropy (world s))
                 (S (drawn (world s))) (armed (world s)) (nextTimer (world s))).

(** The UUID that the next call of [randomUUID] returns. *)
Definition nextUUID {I H} (s : Sys I H) : string :=
  Platform.uuidV4 (entropy (world s) (drawn (world s))).

(** The timestamp that [new Date().toISOString()] returns. *)
Definition timeISO {I H} (s : Sys I H) : string :=
  Platform.toISOString (now (world s)).

(** The body of a delivery. *)
Definition delivery (id conversationId content createdAt : string) : Json :=
  JObj [("id", JStr id);
        ("conversationId", JStr conversationId);
        ("content", JStr content);
        ("createdAt", JStr createdAt)].


(** The adapter and the timers are those of [s]. *)
Definition sameTimers {I H} (s s' : Sys I H) : Prop :=
  self s' = self s
  /\ armed (world s') = armed (world s)
  /\ nextTimer (world s') = nextTimer (world s).

(** ** States that the statements name *)

Module WebStates.
Section States.
Context {H G : Type} {hostOps : Host H G}.
Implicit Types s : Sys Web.WebChannel H.

Definition pending s : Request := Web.getRequest (self s) "/api/internal/pending".

Definition ack s (cids mids : list string) : Request :=
  Web.postRequest (self s) "/api/internal/ack" (Web.ackBody cids mids).

(** Is [jid] a key of the object that [registeredGroups()] returns now? *)
Definition known (jid : string) s : bool :=
  present (readGroup (host (world s)) (registeredGroups (host (world s))) jid).

Definition groupOf (reg : Registration) (t : string) : RegisteredGroup :=
  mkRegisteredGroup (reg_name reg) (reg_folder reg) "" t false.

Definition registrationEvents (reg : Registration) (t : string) : list Event :=
  let jid := "web:" ++ reg_conversationId reg in
  [EChatMetadata jid t (Some (reg_name reg)) "web" false;
   ERegisterGroup jid (groupOf reg t);
   ELog Info "WebChannel: registered conversation"].

(** After the two callbacks and the log line of a new registration. *)
Definition registering (reg : Registration) s : Sys Web.WebChannel H :=
  let jid := "web:" ++ reg_conversationId reg in
  let t := timeISO s in
  observed
    (registerGroup jid (groupOf reg t)
       (onChatMetadata jid t (Some (reg_name reg)) "web" false (host (world s))))
    (registrationEvents reg t) s.

(** After [onMessage] was handed [msg]. *)
Definition forwarding (msg : PendingMessage) s : Sys Web.WebChannel H :=
  let jid := "web:" ++ msg_conversationId msg in
  observed (onMessage jid (Web.newMessage msg) (host (world s)))
           [EMessage jid (Web.newMessage msg)] s.

(** After [schedulePoll] armed a timer. *)
Definition scheduled s : Sys Web.WebChannel H :=
  let w := world s in
  mkSys (Web.mkWebChannel (Web.opts (self s)) (Web.polling (self s))
                          (Some (nextTimer w)))
        (mkWorld (host w) (trace w) (network w) (fetched w) (now w)
                 (entropy w) (drawn w)
                 (armed w ++ [mkTimer (nextTimer w) (Millis 2000)])
                 (S (nextTimer w))).

(** The state the registration loop starts in, and the one it ends in. *)
Definition fetchedState s : Sys Web.WebChannel H := sent (pending s) s.

Definition afterRegistrations (regs : list Registration) s : Sys Web.WebChannel H :=
  snd (forOf Web.registrationStep regs [] (fetchedState s)).

(** The state after the registrations [regs] and then the messages [msgs]
    of a batch went through their loops. *)
Definition afterMessages (regs : list Registration) (msgs : list PendingMessage) s
  : Sys Web.WebChannel H :=
  snd (forOf Web.messageStep msgs [] (afterRegistrations regs s)).

End States.
End WebStates.

Module WebEnvStates.
Section States.
Context {H G : Type} {hostOps : Host H G}.
Implicit Types s : Sys WebEnv.WebChannel H.

Definition pending s : Request :=
  WebEnv.requestOf (self s) GET "/api/internal/pending" None.

Definition ack s (cids mids : list string) : Request :=
  WebEnv.requestOf (self s) POST "/api/internal/ack"
                   (Some (WebEnv.ackBody mids cids)).

(** Is [jid] a key of the object [groups], read now? *)
Definition known (groups : G) (jid : string) s : bool :=
  present (readGroup (host (world s)) groups jid).

Definition groupOf (reg : Registration) (t : string) : RegisteredGroup :=
  mkRegisteredGroup (reg_name reg) (reg_folder reg) (reg_folder reg) t false.

Definition registrationEvents (reg : Registration) (t : string) : list Event :=
  let jid := "web:" ++ reg_conversationId reg in
  [ERegisterGroup jid (groupOf reg t);
   ELog Info "WebChannel registered conversation"].

(** After the callback and the log line of a new registration. *)
Definition registering (reg : Registration) s : Sys WebEnv.WebChannel H :=
  let jid := "web:" ++ reg_conversationId reg in
  let t := timeISO s in
  observed (registerGroup jid (groupOf reg t) (host (world s)))
           (registrationEvents reg t) s.

Definition forwardEvents (msg : PendingMessage) : list Event :=
  let jid := "web:" ++ msg_conversationId msg in
  [EChatMetadata jid (msg_createdAt msg) None "web" false;
   EMessage jid (WebEnv.newMessage msg)].

(** After [onChatMetadata] and [onMessage] were handed [msg]. *)
Definition forwarding (msg : PendingMessage) s : Sys WebEnv.WebChannel H :=
  let jid := "web:" ++ msg_conversationId msg in
  observed
    (onMessage jid (WebEnv.newMessage msg)
       (onChatMetadata jid (msg_createdAt msg) None "web" false (host (world s))))
    (forwardEvents msg) s.

Definition skipEvents : list Event :=
  [ELog Warn "WebChannel: message for unregistered conversation, skipping"].

(** After the log line for a message that is skipped. *)
Definition skipping s : Sys WebEnv.WebChannel H :=
  observed (host (world s)) skipEvents s.

(** After [schedulePoll] armed a timer. *)
Definition scheduled s : Sys WebEnv.WebChannel H :=
  let w := world s in
  mkSys (WebEnv.setPollTimer (Some (nextTimer w)) (self s))
        (mkWorld (host w) (trace w) (network w) (fetched w) (now w)
                 (entropy w) (drawn w)
                 (armed w ++ [mkTimer (nextTimer w) (WebEnv.pollIntervalMs (self s))])
                 (S (nextTimer w))).

(** The state the registration loop starts in, the object it reads, and
    the state it ends in. *)
Definition fetchedState s : Sys WebEnv.WebChannel H := sent (pending s) s.

Definition firstView s : G := registeredGroups (host (world s)).

Definition afterRegistrations (regs : list Registration) s : Sys WebEnv.WebChannel H :=
  snd (forOf (WebEnv.registrationStep (firstView s)) regs [] (fetchedState s)).

(** The object that the message loop reads. *)
Definition secondView (regs : list Registration) s : G :=
  registeredGroups (host (world (afterRegistrations regs s))).

(** The state after the registrations [regs] and then the messages [msgs]
    of a batch went through their loops. *)
Definition afterMessages (regs : list Registration) (msgs : list PendingMessage) s
  : Sys WebEnv.WebChannel H :=
  snd (forOf (WebEnv.messageStep (secondView regs s)) msgs []
             (afterRegistrations regs s)).

End States.
End WebEnvStates.

(** The end of a poll cycle of [Web]: the acknowledgement, if any, and the
    log line when it fails. *)
Definition Web_acknowledged {H} (cids mids : list string) (s : Sys Web.WebChannel H)
  : Sys Web.WebChannel H :=
  if nonEmpty cids || nonEmpty mids then
    let req := WebStates.ack s cids mids in
    match Web.postOutcome "/api/internal/ack" (nextAnswer s req) with
    | Returned _ => sent req s
    | Thrown _ =>
        observed (host (world s)) [ELog Warn "WebChannel: poll error"] (sent req s)
    end
  else s.

(** The end of a poll cycle of [WebEnv]. *)
Definition WebEnv_acknowledged {H} (cids mids : list string)
           (s : Sys WebEnv.WebChannel H) : Sys WebEnv.WebChannel H :=
  if nonEmpty mids || nonEmpty cids then
    let req := WebEnvStates.ack s cids mids in
    match WebEnv.requestOutcome POST "/api/internal/ack" (nextAnswer s req) with
    | Returned _ => sent req s
    | Thrown _ =>
        observed (host (world s))
          [ELog Warn "WebChannel ack failed — items may be redelivered on next poll"]
          (sent req s)
    end
  else s.

(** ** Concrete adapters, batches and worlds

    The values of the test-suite, used for the concrete runs below. *)

Definition base : string := "http://localhost:3000".

Definition webChannel : Web.WebChannel :=
  Web.mkWebChannel (Web.mkOpts base "test-secret-abc") false None.

Definition envFile : WebEnv.Env :=
  WebEnv.mkEnv (Some base) (Some "test-secret-abc") (Some "50").

Definition noEnv : WebEnv.Env := WebEnv.mkEnv None None None.

Definition envChannel : WebEnv.WebChannel :=
  WebEnv.mkWebChannel false None base "test-secret-abc" (ParseInt10 "50").


Definition mainRegistration : Registration :=
  mkRegistration "conv-abc" "Main" "web-conv-abc" None.

Definition strayMessage : PendingMessage :=
  mkPendingMessage "msg-1" "unknown-conv" (Some "You") "Hello"
                   "2026-02-27T10:00:00.000Z".

(** claw-chat answers 503 to [/api/internal/pending]. *)
Definition downNetwork : nat -> Request -> FetchOutcome :=
  mockNetwork [(base ++ "/api/internal/pending", answer 503 BodyEmpty)].

(** claw-chat answers 500 to [/api/internal/deliver]. *)
Definition brokenDeliverNetwork : nat -> Request -> FetchOutcome :=
  mockNetwork [(base ++ "/api/internal/deliver", answer 500 BodyEmpty)].

(** The pending batch is one registration of [conv-abc]. *)
Definition registrationNetwork : nat -> Request -> FetchOutcome :=
  mockNetwork [(base ++ "/api/internal/pending",
                answer 200 (batch [mainRegistration] []));
               (base ++ "/api/internal/ack", answer 204 BodyEmpty)].

(** The pending batch is one message of a conversation nobody registered. *)
Definition strayNetwork : nat -> Request -> FetchOutcome :=
  mockNetwork [(base ++ "/api/internal/pending",
                answer 200 (batch [] [strayMessage]));
               (base ++ "/api/internal/ack", answer 204 BodyEmpty)].

Definition emptyRegistry : Registry := [].


(** The two adapters, freshly constructed, in a quiet world. *)
Definition webAt (r : Registry) (net : nat -> Request -> FetchOutcome)
  : Sys Web.WebChannel Registry :=
  mkSys webChannel (quietWorld r net).

Definition envAt (r : Registry) (net : nat -> Request -> FetchOutcome)
  : Sys WebEnv.WebChannel Registry :=
  mkSys envChannel (quietWorld r net).


Definition strayBatch : PendingResponse :=
  mkPendingResponse (Some []) (Some [strayMessage]).

(** Every timer in the event loop is the one the adapter holds in
    [pollTimer]. *)
Definition Web_tracked {H} (s : Sys Web.WebChannel H) : Prop :=
  forall x, In x (armed (world s)) -> Web.pollTimer (self s) = Some (timer_id x).

Definition WebEnv_tracked {H} (s : Sys WebEnv.WebChannel H) : Prop :=
  forall x, In x (armed (world s)) -> WebEnv.pollTimer (self s) = Some (timer_id x).

(** What a call other than [connect] leaves of an adapter that is not
    polling: it is still not polling, it tracks no timer if it tracked none,
    no timer was created and none was added to the event loop. *)
Definition Web_quieter {H} (s s' : Sys Web.WebChannel H) : Prop :=
  Web.polling (self s') = false
  /\ (Web.pollTimer (self s) = None -> Web.pollTimer (self s') = None)
  /\ nextTimer (world s') = nextTimer (world s)
  /\ incl (armed (world s')) (armed (world s)).

Definition WebEnv_quieter {H} (s s' : Sys WebEnv.WebChannel H) : Prop :=
  WebEnv.connected (self s') = false
  /\ (WebEnv.pollTimer (self s) = None -> WebEnv.pollTimer (self s') = None)
  /\ nextTimer (world s') = nextTimer (world s)
  /\ incl (armed (world s')) (armed (world s)).

(** At most one timer is in the event loop, and it is the one the adapter
    holds: the discipline of an adapter that is connected once at a time. *)
Definition Web_singleTimer {H} (s : Sys Web.WebChannel H) : Prop :=
  armed (world s) = []
  \/ exists t d, armed (world s) = [mkTimer t d] /\ Web.pollTimer (self s) = Some t.

Definition WebEnv_singleTimer {H} (s : Sys WebEnv.WebChannel H) : Prop :=
  armed (world s) = []
  \/ exists t d, armed (world s) = [mkTimer t d] /\ WebEnv.pollTimer (self s) = Some t.

(** A call that keeps that discipline in a state where it holds: [connect],
    and the end of a cycle, while no timer is pending. *)
Definition Web_orderly {H} (c : Web.Call) (s : Sys Web.WebChannel H) : Prop :=
  match c with
  | Web.CConnect | Web.CCycle => armed (world s) = []
  | _ => True
  end.

Definition WebEnv_orderly {H} (c : WebEnv.Call) (s : Sys WebEnv.WebChannel H) : Prop :=
  match c with
  | WebEnv.CConnect | WebEnv.CCycle => armed (world s) = []
  | _ => True
  end.

(** ** Calls and cycles under way

    A timer that comes due starts a cycle that ends later, and [connect] of
    [WebEnv] awaits its health probe: calls of the host can fall in
    between. *)

(** The two halves of [connect] of [WebEnv]: the [try] statement with the
    probe, and what follows it once the probe has settled. *)
Definition WebEnv_connectProbe {H} : M WebEnv.WebChannel H unit :=
  tryCatch
    (WebEnv.request GET "/api/health" None ;;
     logger_info "WebChannel connected to claw-chat")
    (fun err =>
       logger_warn "claw-chat not reachable at startup, will retry on next poll").

Definition WebEnv_connectResume {H} : M WebEnv.WebChannel H unit :=
  this <- getSelf ;;
  setSelf (WebEnv.setConnected true this) ;;
  WebEnv.schedulePoll.

(** Timer [t] comes due and its cycle begins; the cycle ends at a later
    moment, as [CCycle]. *)
Definition cycleBegins {I H} (t : nat) (s : Sys I H) : Sys I H :=
  snd (takeTimer t s).

(** A moment in the life of an adapter: a call run to its end, [CCycle]
    being the end of a cycle under way, or a timer that comes due.  A run
    carries the number of cycles under way. *)
Inductive Web_Moment : Type :=
| WNow (c : Web.Call)
| WDue (t : nat).

Inductive WebEnv_Moment : Type :=
| ENow (c : WebEnv.Call)
| EDue (t : nat).

Section Moments.
Context {H G : Type} {hostOps : Host H G}.

Definition Web_moment (m : Web_Moment) (ns : nat * Sys Web.WebChannel H)
  : nat * Sys Web.WebChannel H :=
  match m with
  | WDue t =>
      match takeTimer t (snd ns) with
      | (Returned true, s') => (S (fst ns), s')
      | (_, s') => (fst ns, s')
      end
  | WNow Web.CCycle => (Nat.pred (fst ns), snd (Web.timerCallback (snd ns)))
  | WNow c => (fst ns, snd (Web.perform c (snd ns)))
  end.

Definition Web_moments (ms : list Web_Moment) (ns : nat * Sys Web.WebChannel H)
  : nat * Sys Web.WebChannel H :=
  fold_left (fun ns m => Web_moment m ns) ms ns.

(** [connect] is called only while no timer is pending and no cycle is
    under way; a cycle that ends was under way. *)
Definition Web_inTurn (m : Web_Moment) (ns : nat * Sys Web.WebChannel H) : Prop :=
  match m with
  | WNow Web.CConnect => armed (world (snd ns)) = [] /\ fst ns = 0%nat
  | WNow Web.CCycle => fst ns <> 0%nat
  | _ => True
  end.

Fixpoint Web_disciplined (ms : list Web_Moment) (ns : nat * Sys Web.WebChannel H)
  : Prop :=
  match ms with
  | [] => True
  | m :: rest => Web_inTurn m ns /\ Web_disciplined rest (Web_moment m ns)
  end.

Definition WebEnv_moment (m : WebEnv_Moment) (ns : nat * Sys WebEnv.WebChannel H)
  : nat * Sys WebEnv.WebChannel H :=
  match m with
  | EDue t =>
      match takeTimer t (snd ns) with
      | (Returned true, s') => (S (fst ns), s')
      | (_, s') => (fst ns, s')
      end
  | ENow WebEnv.CCycle => (Nat.pred (fst ns), snd (WebEnv.timerCallback (snd ns)))
  | ENow c => (fst ns, snd (WebEnv.perform c (snd ns)))
  end.

Definition WebEnv_moments (ms : list WebEnv_Moment)
           (ns : nat * Sys WebEnv.WebChannel H) : nat * Sys WebEnv.WebChannel H :=
  fold_left (fun ns m => WebEnv_moment m ns) ms ns.

(** The same discipline; a [connect] has run to its end before the next
    moment. *)
Definition WebEnv_inTurn (m : WebEnv_Moment) (ns : nat * Sys WebEnv.WebChannel H)
  : Prop :=
  match m with
  | ENow WebEnv.CConnect => armed (world (snd ns)) = [] /\ fst ns = 0%nat
  | ENow WebEnv.CCycle => fst ns <> 0%nat
  | _ => True
  end.

Fixpoint WebEnv_disciplined (ms : list WebEnv_Moment)
         (ns : nat * Sys WebEnv.WebChannel H) : Prop :=
  match ms with
  | [] => True
  | m :: rest => WebEnv_inTurn m ns /\ WebEnv_disciplined rest (WebEnv_moment m ns)
  end.

End Moments.

(** At most one timer is pending or one cycle is under way, never both, and
    a pending timer is the one the adapter holds. *)
Definition Web_oneLoop {H} (ns : nat * Sys Web.WebChannel H) : Prop :=
  (fst ns = 0%nat /\ Web_singleTimer (snd ns))
  \/ (fst ns = 1%nat /\ armed (world (snd ns)) = []).

Definition WebEnv_oneLoop {H} (ns : nat * Sys WebEnv.WebChannel H) : Prop :=
  (fst ns = 0%nat /\ WebEnv_singleTimer (snd ns))
  \/ (fst ns = 1%nat /\ armed (world (snd ns)) = []).

(** A reconnection in the middle of a cycle.  The adapter is connected and
    timer 0 has come due: its cycle is under way. *)
Definition Web_midCycle : Sys Web.WebChannel Registry :=
  cycleBegins 0 (snd (Web.connect (webAt emptyRegistry strayNetwork))).

Definition WebEnv_midCycle : Sys WebEnv.WebChannel Registry :=
  cycleBegins 0 (snd (WebEnv.connect (envAt emptyRegistry strayNetwork))).

(** While that cycle is under way the host disconnects and connects again;
    then the cycle ends. *)
Definition Web_twoLoops : Sys Web.WebChannel Registry :=
  Web.performAll (hostOps := MockHost)
    [Web.CDisconnect; Web.CConnect; Web.CCycle] Web_midCycle.

Definition WebEnv_twoLoops : Sys WebEnv.WebChannel Registry :=
  WebEnv.performAll (hostOps := MockHost)
    [WebEnv.CDisconnect; WebEnv.CConnect; WebEnv.CCycle] WebEnv_midCycle.

(** [disconnect] runs while [connect] of [WebEnv] awaits its health probe,
    and [connect] then resumes. *)
Definition WebEnv_disconnectedMidConnect : Sys WebEnv.WebChannel Registry :=
  snd (WebEnv_connectResume
         (snd (WebEnv.disconnect
                 (snd (WebEnv_connectProbe (envAt emptyRegistry strayNetwork)))))).

(** ** States and events that the further properties name *)

(** Is [jid] a key of the object that [registeredGroups()] returns in the
    host state [h]? *)
Definition knownNow {H G} {hostOps : Host H G} (h : H) (jid : string) : bool :=
  present (readGroup h (registeredGroups h) jid).

(** The jids handed to [registerGroup] in a run of events, in order. *)
Fixpoint registeredJids (evs : list Event) : list string :=
  match evs with
  | [] => []
  | ERegisterGroup jid _ :: rest => jid :: registeredJids rest
  | _ :: rest => registeredJids rest
  end.

(** The message ids that the message loop of [WebEnv.poll] collects for the
    batch of [regs] and [msgs]. *)
Definition WebEnv_ackedMessageIds {H G} {hostOps : Host H G}
           (regs : list Registration) (msgs : list PendingMessage)
           (s : Sys WebEnv.WebChannel H) : list string :=
  match fst (forOf (WebEnv.messageStep (WebEnvStates.secondView regs s)) msgs []
                   (WebEnvStates.afterRegistrations regs s)) with
  | Returned ids => ids
  | Thrown _ => []
  end.

(** A 2xx answer with an empty text. *)
Definition emptyAnswer (o : FetchOutcome) : bool :=
  match o with
  | Responded r => ok r && match payload r with BodyEmpty => true | _ => false end
  | NetworkFailure => false
  end.

(** A 2xx answer whose text is not JSON. *)
Definition unparsable (o : FetchOutcome) : bool :=
  match o with
  | Responded r => ok r && match payload r with BodyInvalid => true | _ => false end
  | NetworkFailure => false
  end.

(** The endpoints of claw-chat that each adapter names. *)
Definition Web_endpoints : list (Method * string) :=
  [(GET, "/api/internal/pending");
   (POST, "/api/internal/ack");
   (POST, "/api/internal/deliver");
   (POST, "/api/internal/typing");
   (POST, "/api/internal/container-status");
   (POST, "/api/internal/workspace-snapshot")].

Definition WebEnv_endpoints : list (Method * string) :=
  [(GET, "/api/health");
   (GET, "/api/internal/pending");
   (POST, "/api/internal/ack");
   (POST, "/api/internal/deliver");
   (POST, "/api/internal/typing")].

(** A request to one of [endpoints] under [base] that carries [secret] as
    bearer token; a GET carries no body. *)
Definition addressed (base secret : string) (endpoints : list (Method * string))
           (r : Request) : Prop :=
  In ("Authorization", "Bearer " ++ secret) (req_headers r)
  /\ (exists path, In (req_method r, path) endpoints /\ req_url r = base ++ path)
  /\ (req_method r = GET -> req_body r = None).

(** A callback for a jid of this channel: a group registered without
    trigger requirement, chat metadata of the channel [web] for a chat that
    is not a group, a message of that chat that is not from the assistant. *)
Definition ownCallback (ev : Event) : bool :=
  match ev with
  | ERegisterGroup jid g => startsWith "web:" jid && negb (requiresTrigger g)
  | EChatMetadata jid _ _ channel isGroup =>
      startsWith "web:" jid && String.eqb channel "web" && negb isGroup
  | EMessage jid m =>
      startsWith "web:" jid && String.eqb (chat_jid m) jid && negb (is_from_me m)
  | EFetch _ | ELog _ _ => false
  end.

(** What an adapter with this configuration may leave in the trace. *)
Definition expected (base secret : string) (endpoints : list (Method * string))
           (ev : Event) : Prop :=
  match ev with
  | EFetch r => addressed base secret endpoints r
  | ELog _ _ => True
  | _ => ownCallback ev = true
  end.

Definition Web_expected {H} (s : Sys Web.WebChannel H) : Event -> Prop :=
  expected (Web.url (Web.opts (self s))) (Web.secret (Web.opts (self s)))
           Web_endpoints.

Definition WebEnv_expected {H} (s : Sys WebEnv.WebChannel H) : Event -> Prop :=
  expected (WebEnv.baseUrl (self s)) (WebEnv.secret (self s)) WebEnv_endpoints.

(** The configuration of [s'] is that of [s]. *)
Definition WebEnv_sameConfig {H} (s s' : Sys WebEnv.WebChannel H) : Prop :=
  WebEnv.baseUrl (self s') = WebEnv.baseUrl (self s)
  /\ WebEnv.secret (self s') = WebEnv.secret (self s)
  /\ WebEnv.pollIntervalMs (self s') = WebEnv.pollIntervalMs (self s).

(** Does [s] end with a slash? *)
Fixpoint endsWithSlash (s : string) : bool :=
  match s with
  | EmptyString => false
  | String c EmptyString => Ascii.eqb c "/"
  | String _ rest => endsWithSlash rest
  end.

(** [v] is the value of a setting that is looked up in [first], then in
    [second], and otherwise is [default]; an empty value counts as unset. *)
Definition resolvesTo (first second : option string) (default v : string) : Prop :=
  (hasText first = true -> first = Some v)
  /\ (hasText first = false -> hasText second = true -> second = Some v)
  /\ (hasText first = false -> hasText second = false -> v = default).

(** ** Further batches and networks *)

(** A message of the conversation [conv-abc]. *)
Definition mainMessage : PendingMessage :=
  mkPendingMessage "msg-2" "conv-abc" None "Hi" "2026-02-27T10:00:01.000Z".

(** The pending batch announces [conv-abc] and carries a message of it. *)
Definition firstContactBatch : PendingResponse :=
  mkPendingResponse (Some [mainRegistration]) (Some [mainMessage]).

Definition firstContactNetwork : nat -> Request -> FetchOutcome :=
  mockNetwork [(base ++ "/api/internal/pending",
                answer 200 (BodyJson firstContactBatch));
               (base ++ "/api/internal/ack", answer 204 BodyEmpty)].

(** claw-chat hands out the batch of [firstContactNetwork] and answers 500
    to the acknowledgement. *)
Definition lostAckNetwork : nat -> Request -> FetchOutcome :=
  mockNetwork [(base ++ "/api/internal/pending",
                answer 200 (BodyJson firstContactBatch));
               (base ++ "/api/internal/ack", answer 500 BodyEmpty)].

(** The pending batch announces [conv-abc] twice. *)
Definition twiceNetwork : nat -> Request -> FetchOutcome :=
  mockNetwork [(base ++ "/api/internal/pending",
                answer 200 (batch [mainRegistration; mainRegistration] []))].

(** claw-chat answers 200 to [/api/internal/pending] with a text that is
    not JSON, or with no text. *)
Definition garbledNetwork : nat -> Request -> FetchOutcome :=
  mockNetwork [(base ++ "/api/internal/pending", answer 200 BodyInvalid)].

Definition silentNetwork : nat -> Request -> FetchOutcome :=
  mockNetwork [(base ++ "/api/internal/pending", answer 200 BodyEmpty)].

(** ** [workspace.ts] *)

Module Workspace.

(** What the code asks of a [fs.Dirent]: its name, [isDirectory()] and
    [isFile()].  An entry that is neither, such as a symbolic link or a
    socket, is [IsOther]. *)
Inductive DirentKind : Type := IsFile | IsDirectory | IsOther.

Record Dirent : Type := mkDirent {
  dirent_name : string;
  dirent_kind : DirentKind
}.

(** The platform under [buildFileTree]:
    [fs.readdirSync(dir, { withFileTypes: true })], [None] when it throws;
    [path.join]; and [String.prototype.localeCompare] in the default locale,
    whose sign orders two names. *)
Record Node : Type := mkNode {
  readdirSync : string -> option (list Dirent);
  path_join : string -> string -> string;
  localeCompare : string -> string -> Z
}.

Definition EXCLUDED : list string :=
  ["logs"; ".git"; "node_modules"; "__pycache__"; ".claude"; "conversations"].

(** [set.has(x)]. *)
Definition has (set : list string) (x : string) : bool :=
  existsb (String.eqb x) set.

Definition MAX_DEPTH : Z := 4.

(** [entries.sort(compare)].  The sort of ECMAScript is stable; for a
    consistent comparator its result is the one of insertion sort, where an
    element goes before the first one it does not compare greater than. *)
Fixpoint insertSorted {A} (compare : A -> A -> Z) (x : A) (sorted : list A)
  : list A :=
  match sorted with
  | [] => [x]
  | y :: rest =>
      if compare x y <=? 0 then x :: y :: rest
      else y :: insertSorted compare x rest
  end.

Definition sort {A} (compare : A -> A -> Z) (entries : list A) : list A :=
  fold_right (insertSorted compare) [] entries.

Definition nameOf (e : FileEntry) : string :=
  match e with Entry n _ _ => n end.

Definition typeOf (e : FileEntry) : EntryType :=
  match e with Entry _ t _ => t end.

Definition childrenOf (e : FileEntry) : option (list FileEntry) :=
  match e with Entry _ _ c => c end.

(** The test before [continue]. *)
Definition skipped (entryName : string) : bool :=
  startsWith "." entryName || has EXCLUDED entryName.

Section BuildFileTree.
Variable node : Node.

(** [(a, b) => a.name.localeCompare(b.name)]. *)
Definition byName (a b : Dirent) : Z :=
  localeCompare node (dirent_name a) (dirent_name b).

(** One turn of the loop over the sorted entries; [subtree] builds the
    children of a directory. *)
Definition visit (subtree : string -> list FileEntry) (dir : string)
           (result : list FileEntry) (entry : Dirent) : list FileEntry :=
  if skipped (dirent_name entry) then result
  else
    match dirent_kind entry with
    | IsDirectory =>
        (result ++ [Entry (dirent_name entry) TDir
                          (Some (subtree (path_join node dir (dirent_name entry))))])%list
    | IsFile => (result ++ [Entry (dirent_name entry) TFile None])%list
    | IsOther => result
    end.

(** What one turn of the loop pushes. *)
Definition pushed (subtree : string -> list FileEntry) (dir : string)
           (entry : Dirent) : list FileEntry :=
  visit subtree dir [] entry.

(** [buildFileTree] with [levels] levels left below [MAX_DEPTH]. *)
Fixpoint buildLevels (levels : nat) (dir : string) : list FileEntry :=
  match levels with
  | O => []
  | S below =>
      match readdirSync node dir with
      | None => []
      | Some entries =>
          fold_left (visit (buildLevels below) dir) (sort byName entries) []
      end
  end.

(** [buildFileTree(dir, depth)], for an integer [depth]; [depth] is [0]
    when the caller leaves it out. *)
Definition buildFileTree (dir : string) (depth : Z) : list FileEntry :=
  buildLevels (Z.to_nat (MAX_DEPTH - depth)) dir.

End BuildFileTree.

(** The number of levels of a tree. *)
Fixpoint height (e : FileEntry) : nat :=
  match e with
  | Entry _ _ c =>
      S (match c with
         | Some l => list_max (map height l)
         | None => 0
         end)
  end.

Definition levelsOf (tree : list FileEntry) : nat := list_max (map height tree).

(** An entry with all the entries below it. *)
Fixpoint withDescendants (e : FileEntry) : list FileEntry :=
  match e with
  | Entry _ _ c =>
      e :: match c with
           | Some l => flat_map withDescendants l
           | None => []
           end
  end.

Definition entriesOf (tree : list FileEntry) : list FileEntry :=
  flat_map withDescendants tree.

(** A file carries no [children], a directory carries an array. *)
Fixpoint wellShaped (e : FileEntry) : bool :=
  match e with
  | Entry _ TFile None => true
  | Entry _ TDir (Some l) => forallb wellShaped l
  | _ => false
  end.

(** A tree cut below its first [levels] levels. *)
Fixpoint cutEntry (below : nat) (e : FileEntry) {struct e} : FileEntry :=
  match e with
  | Entry n t c =>
      Entry n t
        match c with
        | None => None
        | Some l =>
            Some match below with
                 | O => []
                 | S k => map (cutEntry k) l
                 end
        end
  end.

Definition cut (levels : nat) (tree : list FileEntry) : list FileEntry :=
  match levels with
  | O => []
  | S below => map (cutEntry below) tree
  end.

(** The entries of a directory that [buildFileTree] lists. *)
Definition listed (entry : Dirent) : bool :=
  negb (skipped (dirent_name entry))
  && match dirent_kind entry with IsOther => false | _ => true end.

Definition typeOfDirent (entry : Dirent) : EntryType :=
  match dirent_kind entry with IsDirectory => TDir | _ => TFile end.

End Workspace.

(** A workspace on disk, for the concrete runs: a disk whose paths are
    already normal, and a group folder.  [localeCompare] of Node collates
    by locale; the order by code units stands in for it in these runs only,
    as one total and transitive order: the properties of [buildFileTree]
    hold for any such order. *)
Fixpoint codeUnitCompare (a b : string) : Z :=
  match a, b with
  | EmptyString, EmptyString => 0
  | EmptyString, String _ _ => -1
  | String _ _, EmptyString => 1
  | String x a', String y b' =>
      let d := Z.of_nat (nat_of_ascii x) - Z.of_nat (nat_of_ascii y) in
      if d =? 0 then codeUnitCompare a' b' else d
  end.

Definition Disk : Type := list (string * list Workspace.Dirent).

Fixpoint listing (dir : string) (disk : Disk) : option (list Workspace.Dirent) :=
  match disk with
  | [] => None
  | (d, entries) :: rest => if String.eqb dir d then Some entries else listing dir rest
  end.

Definition nodeOver (disk : Disk) : Workspace.Node :=
  Workspace.mkNode (fun dir => listing dir disk)
                   (fun dir entryName => dir ++ "/" ++ entryName)
                   codeUnitCompare.

Definition groupEntries : list Workspace.Dirent :=
  [Workspace.mkDirent "notes.md" Workspace.IsFile;
   Workspace.mkDirent ".git" Workspace.IsDirectory;
   Workspace.mkDirent "src" Workspace.IsDirectory;
   Workspace.mkDirent "logs" Workspace.IsDirectory;
   Workspace.mkDirent "latest" Workspace.IsOther;
   Workspace.mkDirent "CLAUDE.md" Workspace.IsFile;
   Workspace.mkDirent "private" Workspace.IsDirectory].

(** [private] cannot be read; [latest] is a symbolic link. *)
Definition groupDisk : Disk :=
  [("/groups/web-1", groupEntries);
   ("/groups/web-1/src",
    [Workspace.mkDirent "main.ts" Workspace.IsFile;
     Workspace.mkDirent "a" Workspace.IsDirectory;
     Workspace.mkDirent ".env" Workspace.IsFile]);
   ("/groups/web-1/src/a",
    [Workspace.mkDirent "b" Workspace.IsDirectory]);
   ("/groups/web-1/src/a/b",
    [Workspace.mkDirent "c" Workspace.IsDirectory;
     Workspace.mkDirent "deep.txt" Workspace.IsFile]);
   ("/groups/web-1/src/a/b/c",
    [Workspace.mkDirent "too-deep.txt" Workspace.IsFile])].

Definition groupNode : Workspace.Node := nodeOver groupDisk.

Definition groupTree : list FileEntry :=
  [Entry "CLAUDE.md" TFile None;
   Entry "notes.md" TFile None;
   Entry "private" TDir (Some []);
   Entry "src" TDir
     (Some [Entry "a" TDir
              (Some [Entry "b" TDir
                       (Some [Entry "c" TDir (Some []);
                              Entry "deep.txt" TFile None])]);
            Entry "main.ts" TFile None])].

(** * Properties *)

Local Open Scope list_scope.

(** ** The platform functions *)

Section PlatformFacts.
Import Platform.
Local Open Scope string_scope.
Local Open Scope Z_scope.

Lemma digit_cases (z : Z) :
  exists k, (k < 10)%nat /\ digit z = ascii_of_nat (48 + k) /\ z mod 10 = Z.of_nat k.
Proof.
  exists (Z.to_nat (z mod 10)).
  assert (0 <= z mod 10 < 10) by (apply Z.mod_pos_bound; lia).
  repeat split; [lia | lia].
Qed.

Lemma isDigit_digit (z : Z) : isDigit (digit z) = true.
Proof.
  destruct (digit_cases z) as (k & Hk & -> & _).
  do 10 (destruct k as [|k]; [reflexivity|]). lia.
Qed.

Lemma value_digit (z : Z) : Z.of_nat (nat_of_ascii (digit z) - 48) = z mod 10.
Proof.
  destruct (digit_cases z) as (k & Hk & -> & ->).
  do 10 (destruct k as [|k]; [reflexivity|]). lia.
Qed.

Lemma numberIn_pad2 (lo hi z : Z) :
  0 <= lo -> lo <= z <= hi -> hi < 100 -> numberIn lo hi (pad2 z) = true.
Proof.
  intros Hlo Hz Hhi. unfold numberIn, pad2. cbn [allDigits digitsValue].
  rewrite !isDigit_digit, !value_digit. cbn [andb].
  replace (10 * (10 * 0 + (z / 10) mod 10) + z mod 10) with z.
  - apply andb_true_intro; split; apply Z.leb_le; lia.
  - rewrite (Z.mod_small (z / 10) 10).
    + pose proof (Z.div_mod z 10). lia.
    + split; [apply Z.div_pos; lia | apply Z.div_lt_upper_bound; lia].
Qed.

Lemma numberIn_pad3 (z : Z) : 0 <= z < 1000 -> numberIn 0 999 (pad3 z) = true.
Proof.
  intros Hz. unfold numberIn, pad3, pad2. cbn [allDigits digitsValue].
  rewrite !isDigit_digit, !value_digit. cbn [andb].
  replace (10 * (10 * (10 * 0 + (z / 100) mod 10) + (z / 10) mod 10) + z mod 10)
    with z.
  - apply andb_true_intro; split; apply Z.leb_le; lia.
  - rewrite (Z.mod_small (z / 100) 10).
    + pose proof (Z.div_mod z 10). pose proof (Z.div_mod (z / 10) 10).
      rewrite Z.div_div in * by lia. change (10 * 10) with 100 in *. lia.
    + split; [apply Z.div_pos; lia | apply Z.div_lt_upper_bound; lia].
Qed.

Lemma allFrom_spec (p : Z -> bool) (n : nat) :
  forall z, allFrom n z p = true ->
  forall x, z <= x < z + Z.of_nat n -> p x = true.
Proof.
  induction n as [|n IH]; intros z Hall x Hx.
  - simpl in Hx. lia.
  - cbn [allFrom] in Hall. apply andb_prop in Hall as [Hz Hrest].
    destruct (Z.eq_dec x z) as [->|Hne]; [assumption|].
    apply (IH (z + 1) Hrest). lia.
Qed.

Lemma every_era_day_in_range : allFrom (Z.to_nat 146097) 0 dateInRange = true.
Proof. vm_compute. reflexivity. Qed.

Lemma civil_in_range (day : Z) :
  let '(_, m, d) := civil day in 1 <= m <= 12 /\ 1 <= d <= 31.
Proof.
  unfold civil.
  assert (Hdoe : 0 <= (day + 719468) mod 146097 < 0 + Z.of_nat (Z.to_nat 146097))
    by (rewrite Z2Nat.id by lia; apply Z.mod_pos_bound; lia).
  pose proof (allFrom_spec dateInRange _ _ every_era_day_in_range _ Hdoe) as Hok.
  unfold dateInRange in Hok.
  destruct (civilOfEra ((day + 719468) mod 146097)) as [[y m] d].
  apply andb_prop in Hok as [Hok Hd2]. apply andb_prop in Hok as [Hok Hd1].
  apply andb_prop in Hok as [Hm1 Hm2].
  apply Z.leb_le in Hm1, Hm2, Hd1, Hd2. lia.
Qed.

Lemma isIsoTail_format (m d tod ms : Z) :
  1 <= m <= 12 -> 1 <= d <= 31 -> 0 <= tod < msPerDay ->
  isIsoTail ("-" ++ pad2 m ++ "-" ++ pad2 d ++ "T"
             ++ pad2 (tod / 3600000) ++ ":" ++ pad2 (tod / 60000 mod 60) ++ ":"
             ++ pad2 (tod / 1000 mod 60) ++ "." ++ pad3 (tod mod 1000) ++ "Z")
  = true.
Proof.
  intros Hm Hd Htod. unfold msPerDay in Htod.
  assert (Hh : 0 <= tod / 3600000 <= 23)
    by (split; [apply Z.div_pos; lia | apply Z.lt_succ_r, Z.div_lt_upper_bound; lia]).
  assert (Hmi : 0 <= tod / 60000 mod 60 <= 59)
    by (pose proof (Z.mod_pos_bound (tod / 60000) 60); lia).
  assert (Hs : 0 <= tod / 1000 mod 60 <= 59)
    by (pose proof (Z.mod_pos_bound (tod / 1000) 60); lia).
  assert (Hms : 0 <= tod mod 1000 < 1000) by (apply Z.mod_pos_bound; lia).
  pose proof (numberIn_pad2 1 12 m) as Em.
  pose proof (numberIn_pad2 1 31 d) as Ed.
  pose proof (numberIn_pad2 0 23 _ ltac:(lia) Hh ltac:(lia)) as Eh.
  pose proof (numberIn_pad2 0 59 _ ltac:(lia) Hmi ltac:(lia)) as Emi.
  pose proof (numberIn_pad2 0 59 _ ltac:(lia) Hs ltac:(lia)) as Es.
  pose proof (numberIn_pad3 _ Hms) as Ems.
  specialize (Em ltac:(lia) Hm ltac:(lia)). specialize (Ed ltac:(lia) Hd ltac:(lia)).
  unfold pad3, pad2 in *. unfold isIsoTail.
  cbn [append String.length substring Nat.eqb String.eqb Ascii.eqb Bool.eqb andb].
  rewrite Em, Ed, Eh, Emi, Es, Ems. reflexivity.
Qed.

Lemma allDigits_pad4 (y : Z) : allDigits (pad4 y) = true.
Proof.
  unfold pad4, pad3, pad2. cbn [allDigits]. rewrite !isDigit_digit. reflexivity.
Qed.

Lemma allDigits_pad6 (y : Z) : allDigits (pad6 y) = true.
Proof.
  unfold pad6. cbn [allDigits]. rewrite !isDigit_digit, allDigits_pad4. reflexivity.
Qed.

Lemma substring_none (s : string) : substring 0 0 s = "".
Proof. destruct s; reflexivity. Qed.

Lemma substring_whole (s : string) : substring 0 (String.length s) s = s.
Proof.
  induction s as [|c r IH]; [reflexivity|].
  cbn [String.length substring]. now rewrite IH.
Qed.

Lemma toISOString_wellformed (t : Z) : isIsoTimestamp (toISOString t) = true.
Proof.
  unfold toISOString.
  pose proof (civil_in_range (t / msPerDay)) as Hc.
  destruct (civil (t / msPerDay)) as [[y m] d]. destruct Hc as [Hm Hd].
  assert (Htod : 0 <= t mod msPerDay < msPerDay)
    by (apply Z.mod_pos_bound; reflexivity).
  pose proof (isIsoTail_format m d _ (t mod msPerDay) Hm Hd Htod) as Htail.
  set (tail := "-" ++ pad2 m ++ _) in *. clearbody tail.
  assert (Hlen : String.length tail = 20%nat).
  { unfold isIsoTail in Htail. repeat (apply andb_prop in Htail as [Htail _]).
    now apply Nat.eqb_eq. }
  unfold isoYear. destruct ((0 <=? y) && (y <=? 9999)).
  - pose proof (allDigits_pad4 y) as Hy. unfold pad4, pad3, pad2 in *.
    unfold isIsoTimestamp.
    cbn [append String.length]. rewrite Hlen.
    cbn [substring]. rewrite substring_none, Hy, <- Hlen, substring_whole.
    assumption.
  - pose proof (allDigits_pad6 (Z.abs y)) as Hy. unfold pad6, pad4, pad3, pad2 in *.
    unfold isIsoTimestamp.
    cbn [append String.length]. rewrite Hlen.
    cbn [substring]. rewrite !substring_none, Hy, <- Hlen, substring_whole, Htail.
    destruct (y <? 0); reflexivity.
Qed.

End PlatformFacts.

(** ** Strings, traces and the monad *)

Section Strings.
Local Open Scope string_scope.

Lemma startsWith_iff (p s : string) :
  startsWith p s = true <-> exists rest, s = p ++ rest.
Proof.
  unfold startsWith. revert s.
  induction p as [|c p IH]; intros s.
  - split; [intros _; now exists s | intros _; destruct s; reflexivity].
  - destruct s as [|d s]; cbn [String.prefix append].
    + split; [discriminate | intros [rest Hrest]; discriminate].
    + destruct (ascii_dec c d) as [Heq|Hne].
      * rewrite IH. split; intros [rest Hrest]; exists rest; congruence.
      * split; [discriminate | intros [rest Hrest]; congruence].
Qed.

Lemma slice_prefix (p rest : string) : slice (String.length p) (p ++ rest) = rest.
Proof. induction p as [|c p IH]; [destruct rest; reflexivity | exact IH]. Qed.

End Strings.

Lemma requests_app (a b : list Event) : requests (a ++ b) = requests a ++ requests b.
Proof.
  induction a as [|ev a IH]; [reflexivity|].
  destruct ev; cbn [requests app]; now rewrite IH.
Qed.

Lemma forwardedIds_app (a b : list Event) :
  forwardedIds (a ++ b) = (forwardedIds a ++ forwardedIds b)%list.
Proof.
  induction a as [|ev a IH]; [reflexivity|].
  destruct ev; cbn [forwardedIds app]; now rewrite IH.
Qed.

Section Loops.
Context {I H : Type}.

Lemma observed_nothing (s : Sys I H) : observed (host (world s)) [] s = s.
Proof.
  destruct s as [i [h tr net nf t e nd ar nt]]. unfold observed. cbn.
  now rewrite app_nil_r.
Qed.

Lemma observed_observed (h1 h2 : H) (e1 e2 : list Event) (s : Sys I H) :
  observed h2 e2 (observed h1 e1 s) = observed h2 (e1 ++ e2) s.
Proof. unfold observed. cbn. now rewrite app_assoc. Qed.

Lemma forOf_app {X A} (body : X -> A -> M I H A) (l1 l2 : list X) :
  forall acc s,
    forOf body (l1 ++ l2) acc s =
    match forOf body l1 acc s with
    | (Returned a, s') => forOf body l2 a s'
    | (Thrown e, s') => (Thrown e, s')
    end.
Proof.
  induction l1 as [|x l1 IH]; intros acc s; [reflexivity|].
  cbn [forOf app].
  change (bind (body x acc) ?k s)
    with (match body x acc s with
          | (Returned a, s') => k a s'
          | (Thrown e, s') => (Thrown e, s')
          end).
  destruct (body x acc s) as [[a|e] s']; [apply IH | reflexivity].
Qed.

Lemma fetch_run (req : Request) (s : Sys I H) :
  fetch req s =
  (match nextAnswer s req with
   | NetworkFailure => Thrown NetworkError
   | Responded r => Returned r
   end, sent req s).
Proof.
  unfold fetch, inWorld, nextAnswer, sent.
  destruct (network (world s) (fetched (world s)) req); reflexivity.
Qed.

End Loops.

(** ** [Web]: how its methods run *)

Section WebRuns.
Context {H : Type}.
Implicit Types s : Sys Web.WebChannel H.

Lemma Web_post_run path body s :
  Web.post path body s =
  (Web.postOutcome path (nextAnswer s (Web.postRequest (self s) path body)),
   sent (Web.postRequest (self s) path body) s).
Proof.
  unfold Web.post, bind, getSelf. rewrite fetch_run. unfold Web.postOutcome.
  destruct (nextAnswer s _) as [|r]; [reflexivity|].
  destruct (ok r); reflexivity.
Qed.

Lemma Web_get_run path s :
  Web.get path s =
  (Web.getOutcome path (nextAnswer s (Web.getRequest (self s) path)),
   sent (Web.getRequest (self s) path) s).
Proof.
  unfold Web.get, bind, getSelf. rewrite fetch_run. unfold Web.getOutcome.
  destruct (nextAnswer s _) as [|r]; [reflexivity|].
  destruct (ok r); [destruct (payload r)|]; reflexivity.
Qed.

Lemma Web_sendMessage_run jid text s :
  Web.sendMessage jid text s =
  Web.post "/api/internal/deliver"
    (JObj [("id", JStr (nextUUID s));
           ("conversationId", JStr (slice 4 jid));
           ("content", JStr text);
           ("createdAt", JStr (timeISO s))]) (drew s).
Proof. reflexivity. Qed.

End WebRuns.

Lemma getOutcome_batchOf path o d :
  Web.getOutcome path o = Returned d <-> batchOf o = Some d.
Proof.
  unfold Web.getOutcome, batchOf. destruct o as [|r]; [split; discriminate|].
  destruct (ok r); [|split; discriminate].
  destruct (payload r); split; intros E; try discriminate; congruence.
Qed.

Lemma getOutcome_fails path o :
  fetchFails o = true -> exists e, Web.getOutcome path o = Thrown e.
Proof.
  unfold Web.getOutcome, fetchFails. destruct o as [|r]; [eauto|].
  destruct (ok r); [discriminate | eauto].
Qed.

Section WebPoll.
Context {H G : Type} {hostOps : Host H G}.
Implicit Types s : Sys Web.WebChannel H.
Import WebStates.

Lemma Web_schedulePoll_run s :
  Web.schedulePoll s =
  (Returned tt, if Web.polling (self s) then scheduled s else s).
Proof.
  unfold Web.schedulePoll, bind, getSelf, scheduled.
  destruct (Web.polling (self s)); reflexivity.
Qed.

Lemma Web_registrationStep_run reg acc s :
  Web.registrationStep reg acc s =
  (Returned (acc ++ [reg_conversationId reg])%list,
   if known ("web:" ++ reg_conversationId reg) s then s else registering reg s).
Proof.
  unfold Web.registrationStep, known, registering, bind, opts_registeredGroups,
    getGroup, inWorld. cbn.
  destruct (readGroup _ _ _); cbn; [reflexivity|].
  unfold observed, setHost, pushEvent, timeISO, registrationEvents. cbn.
  now rewrite <- !app_assoc.
Qed.

Lemma Web_messageStep_run msg acc s :
  Web.messageStep msg acc s =
  (Returned (acc ++ [msg_id msg])%list, forwarding msg s).
Proof. reflexivity. Qed.

Lemma Web_registrations_run regs :
  forall acc s, exists h evs,
    forOf Web.registrationStep regs acc s =
    (Returned (acc ++ map reg_conversationId regs)%list, observed h evs s)
    /\ requests evs = [] /\ forwardedIds evs = [].
Proof.
  induction regs as [|reg regs IH]; intros acc s.
  - exists (host (world s)), []. cbn. rewrite app_nil_r, observed_nothing. auto.
  - cbn [forOf map]. unfold bind. rewrite Web_registrationStep_run.
    destruct (known _ s).
    + destruct (IH (acc ++ [reg_conversationId reg])%list s) as (h & evs & E & R & F).
      exists h, evs. rewrite E, <- app_assoc. auto.
    + destruct (IH (acc ++ [reg_conversationId reg])%list (registering reg s))
        as (h & evs & E & R & F).
      unfold registering in *. rewrite observed_observed in E.
      eexists _, _. rewrite E, <- app_assoc. split; [reflexivity|].
      rewrite requests_app, forwardedIds_app, R, F. auto.
Qed.

Lemma Web_messages_run msgs :
  forall acc s, exists h evs,
    forOf Web.messageStep msgs acc s =
    (Returned (acc ++ map msg_id msgs)%list, observed h evs s)
    /\ requests evs = [] /\ forwardedIds evs = map msg_id msgs.
Proof.
  induction msgs as [|msg msgs IH]; intros acc s.
  - exists (host (world s)), []. cbn. rewrite app_nil_r, observed_nothing. auto.
  - cbn [forOf map]. unfold bind. rewrite Web_messageStep_run.
    destruct (IH (acc ++ [msg_id msg])%list (forwarding msg s))
      as (h & evs & E & R & F).
    unfold forwarding in *. rewrite observed_observed in E.
    eexists _, _. rewrite E, <- app_assoc. split; [reflexivity|].
    rewrite requests_app, forwardedIds_app, R, F. auto.
Qed.

Lemma Web_poll_failed s e :
  Web.getOutcome "/api/internal/pending" (nextAnswer s (pending s)) = Thrown e ->
  Web.poll s =
  (Returned tt,
   snd (Web.schedulePoll
          (observed (host (world s)) [ELog Warn "WebChannel: poll error"]
                    (fetchedState s)))).
Proof.
  intros E. unfold Web.poll, finally_, tryCatch, bind.
  rewrite Web_get_run. fold (pending s). rewrite E.
  unfold logger_warn, emit, inWorld. cbn -[Web.schedulePoll].
  rewrite !Web_schedulePoll_run. reflexivity.
Qed.

Lemma Web_poll_fetched s d :
  batchOf (nextAnswer s (pending s)) = Some d ->
  let regs := orEmpty (registrations d) in
  let msgs := orEmpty (messages d) in
  Web.poll s =
  (Returned tt,
   snd (Web.schedulePoll
          (Web_acknowledged (map reg_conversationId regs) (map msg_id msgs)
             (snd (forOf Web.messageStep msgs [] (afterRegistrations regs s)))))).
Proof.
  intros E regs msgs. apply (getOutcome_batchOf "/api/internal/pending") in E.
  unfold Web.poll, finally_, tryCatch, bind, afterRegistrations, fetchedState.
  rewrite Web_get_run. fold (pending s). rewrite E. fold regs msgs.
  destruct (Web_registrations_run regs [] (sent (pending s) s)) as (h1 & e1 & E1 & _).
  rewrite E1. cbn [snd app].
  destruct (Web_messages_run msgs [] (observed h1 e1 (sent (pending s) s)))
    as (h2 & e2 & E2 & _).
  rewrite E2. cbn [snd app]. unfold Web_acknowledged.
  destruct (nonEmpty _ || nonEmpty _).
  - rewrite Web_post_run. unfold ack. cbn [self observed sent].
    destruct (Web.postOutcome _ _) as [[]|e0]; cbn -[Web.schedulePoll];
      rewrite !Web_schedulePoll_run; reflexivity.
  - cbn -[Web.schedulePoll]. rewrite !Web_schedulePoll_run. reflexivity.
Qed.

End WebPoll.

Lemma getOutcome_no_batch path o :
  batchOf o = None -> exists e, Web.getOutcome path o = Thrown e.
Proof.
  unfold Web.getOutcome, batchOf. destruct o as [|r]; [eauto|].
  destruct (ok r); [|eauto]. destruct (payload r); eauto. discriminate.
Qed.

Section WebTrace.
Context {H G : Type} {hostOps : Host H G}.
Implicit Types s : Sys Web.WebChannel H.
Import WebStates.

Lemma Web_schedulePoll_keeps s :
  trace (world (snd (Web.schedulePoll s))) = trace (world s)
  /\ host (world (snd (Web.schedulePoll s))) = host (world s).
Proof.
  rewrite Web_schedulePoll_run. cbn [snd].
  destruct (Web.polling (self s)); split; reflexivity.
Qed.

Lemma Web_acknowledged_trace cids mids s :
  exists evs,
    trace (world (Web_acknowledged cids mids s)) = trace (world s) ++ evs
    /\ requests evs = (if nonEmpty cids || nonEmpty mids then [ack s cids mids] else [])
    /\ forwardedIds evs = []
    /\ host (world (Web_acknowledged cids mids s)) = host (world s).
Proof.
  unfold Web_acknowledged. destruct (nonEmpty cids || nonEmpty mids).
  - destruct (Web.postOutcome _ _).
    + exists [EFetch (ack s cids mids)]. repeat split.
    + exists [EFetch (ack s cids mids); ELog Warn "WebChannel: poll error"].
      cbn. rewrite <- app_assoc. repeat split.
  - exists []. cbn. rewrite app_nil_r. repeat split.
Qed.


(** A failed fetch in [Web]: the cycle ends after the warning. *)
Lemma Web_poll_after_failed_fetch s :
  fetchFails (nextAnswer s (pending s)) = true ->
  fst (Web.poll s) = Returned tt
  /\ host (world (snd (Web.poll s))) = host (world s)
  /\ trace (world (snd (Web.poll s))) =
     trace (world s) ++ [EFetch (pending s); ELog Warn "WebChannel: poll error"].
Proof.
  intros F. destruct (getOutcome_fails "/api/internal/pending" _ F) as [e Ee].
  rewrite (Web_poll_failed s e Ee). cbn [fst snd].
  destruct (Web_schedulePoll_keeps
              (observed (host (world s)) [ELog Warn "WebChannel: poll error"]
                 (fetchedState s))) as [-> ->].
  cbn. rewrite <- app_assoc. auto.
Qed.

End WebTrace.

Section WebSplit.
Context {H G : Type} {hostOps : Host H G}.
Implicit Types s : Sys Web.WebChannel H.
Import WebStates.

Lemma nonEmpty_middle {A} (pre : list A) (x : A) (post : list A) :
  nonEmpty (pre ++ x :: post) = true.
Proof. destruct pre; reflexivity. Qed.


(** Every message of a batch of [Web] is handed to [onMessage]. *)
Lemma Web_message_always_forwarded s d pre m post :
  batchOf (nextAnswer s (pending s)) = Some d ->
  orEmpty (messages d) = pre ++ m :: post ->
  let regs := orEmpty (registrations d) in
  let before := afterMessages regs pre s in
  let mids := map msg_id pre in
  forOf Web.messageStep pre [] (afterRegistrations regs s) = (Returned mids, before)
  /\ Web.messageStep m mids before
     = (Returned (mids ++ [msg_id m]), forwarding m before)
  /\ exists rest,
       trace (world (snd (Web.poll s)))
       = trace (world before)
         ++ [EMessage ("web:" ++ msg_conversationId m)%string (Web.newMessage m)]
         ++ rest
       /\ requests rest
          = [ack s (map reg_conversationId regs)
                 (mids ++ msg_id m :: map msg_id post)].
Proof.
  intros E Hmsgs regs before mids.
  destruct (Web_messages_run pre [] (afterRegistrations regs s)) as (h1 & e1 & E1 & _).
  assert (Hb : before = observed h1 e1 (afterRegistrations regs s))
    by (unfold before, afterMessages; now rewrite E1).
  split; [rewrite E1, Hb; reflexivity|].
  split; [reflexivity|].
  rewrite (Web_poll_fetched s d E). cbn [snd]. rewrite Hmsgs. fold regs.
  rewrite forOf_app, E1. cbn [forOf app].
  unfold bind at 1. rewrite Web_messageStep_run. rewrite <- Hb.
  destruct (Web_messages_run post (map msg_id pre ++ [msg_id m]) (forwarding m before))
    as (h3 & e3 & E3 & R3 & _).
  rewrite E3. cbn [snd].
  set (sM := observed h3 e3 _).
  destruct (Web_acknowledged_trace (map reg_conversationId regs)
              (map msg_id (pre ++ m :: post)) sM) as (e5 & E5 & R5 & _).
  destruct (Web_schedulePoll_keeps
              (Web_acknowledged (map reg_conversationId regs)
                 (map msg_id (pre ++ m :: post)) sM)) as [-> _].
  rewrite E5. subst sM. unfold forwarding. cbn [trace world observed].
  exists (e3 ++ e5). split.
  - now rewrite <- !app_assoc.
  - rewrite !requests_app, R3, R5. cbn [app].
    rewrite map_app. cbn [map]. rewrite nonEmpty_middle, orb_true_r.
    rewrite Hb. unfold afterRegistrations.
    destruct (Web_registrations_run regs [] (fetchedState s)) as (h0 & e0 & -> & _).
    reflexivity.
Qed.

End WebSplit.

(** ** [WebEnv]: how its methods run *)

Lemma requestOutcome_batchOf path o d :
  WebEnv.requestOutcome GET path o = Returned (Some d) <-> batchOf o = Some d.
Proof.
  unfold WebEnv.requestOutcome, batchOf. destruct o as [|r]; [split; discriminate|].
  destruct (ok r); [|split; discriminate].
  destruct (payload r); split; intros E; try discriminate; congruence.
Qed.

Lemma requestOutcome_fails m path o :
  fetchFails o = true -> exists e, WebEnv.requestOutcome m path o = Thrown e.
Proof.
  unfold WebEnv.requestOutcome, fetchFails. destruct o as [|r]; [eauto|].
  destruct (ok r); [discriminate | eauto].
Qed.

Lemma requestOutcome_no_batch path o :
  batchOf o = None ->
  WebEnv.requestOutcome GET path o = Returned None
  \/ exists e, WebEnv.requestOutcome GET path o = Thrown e.
Proof.
  unfold WebEnv.requestOutcome, batchOf. destruct o as [|r]; [eauto|].
  destruct (ok r); [|eauto]. destruct (payload r); eauto. discriminate.
Qed.

Section WebEnvRuns.
Context {H G : Type} {hostOps : Host H G}.
Implicit Types s : Sys WebEnv.WebChannel H.
Import WebEnvStates.

Lemma WebEnv_request_run method path body s :
  WebEnv.request method path body s =
  (WebEnv.requestOutcome method path
     (nextAnswer s (WebEnv.requestOf (self s) method path body)),
   sent (WebEnv.requestOf (self s) method path body) s).
Proof.
  unfold WebEnv.request, bind, getSelf. rewrite fetch_run.
  unfold WebEnv.requestOutcome.
  destruct (nextAnswer s _) as [|r]; [reflexivity|].
  destruct (ok r); [destruct (payload r)|]; reflexivity.
Qed.

Lemma WebEnv_schedulePoll_run s :
  WebEnv.schedulePoll s =
  (Returned tt, if WebEnv.connected (self s) then scheduled s else s).
Proof.
  unfold WebEnv.schedulePoll, bind, getSelf, scheduled.
  destruct (WebEnv.connected (self s)); reflexivity.
Qed.

Lemma WebEnv_registrationStep_run g reg acc s :
  WebEnv.registrationStep g reg acc s =
  (Returned (acc ++ [reg_conversationId reg]),
   if known g ("web:" ++ reg_conversationId reg)%string s
   then s else registering reg s).
Proof.
  unfold WebEnv.registrationStep, known, registering, bind, getGroup, inWorld. cbn.
  destruct (readGroup _ _ _); cbn; [reflexivity|].
  unfold observed, setHost, pushEvent, timeISO, registrationEvents. cbn.
  now rewrite <- !app_assoc.
Qed.

Lemma WebEnv_messageStep_run g msg acc s :
  WebEnv.messageStep g msg acc s =
  if known g ("web:" ++ msg_conversationId msg)%string s
  then (Returned (acc ++ [msg_id msg]), forwarding msg s)
  else (Returned acc, skipping s).
Proof.
  unfold WebEnv.messageStep, known, forwarding, skipping, bind, getGroup, inWorld. cbn.
  destruct (readGroup _ _ _); cbn; [|reflexivity].
  unfold observed, setHost, pushEvent, forwardEvents. cbn.
  now rewrite <- !app_assoc.
Qed.

Lemma WebEnv_registrations_run g regs :
  forall acc s, exists h evs,
    forOf (WebEnv.registrationStep g) regs acc s =
    (Returned (acc ++ map reg_conversationId regs), observed h evs s)
    /\ requests evs = [] /\ forwardedIds evs = [].
Proof.
  induction regs as [|reg regs IH]; intros acc s.
  - exists (host (world s)), []. cbn. rewrite app_nil_r, observed_nothing. auto.
  - cbn [forOf map]. unfold bind. rewrite WebEnv_registrationStep_run.
    destruct (known g _ s).
    + destruct (IH (acc ++ [reg_conversationId reg]) s) as (h & evs & E & R & F).
      exists h, evs. rewrite E, <- app_assoc. auto.
    + destruct (IH (acc ++ [reg_conversationId reg]) (registering reg s))
        as (h & evs & E & R & F).
      unfold registering in *. rewrite observed_observed in E.
      eexists _, _. rewrite E, <- app_assoc. split; [reflexivity|].
      rewrite requests_app, forwardedIds_app, R, F. auto.
Qed.

Lemma WebEnv_messages_run g msgs :
  forall acc s, exists h evs,
    forOf (WebEnv.messageStep g) msgs acc s =
    (Returned (acc ++ forwardedIds evs), observed h evs s)
    /\ requests evs = [].
Proof.
  induction msgs as [|msg msgs IH]; intros acc s.
  - exists (host (world s)), []. cbn. rewrite app_nil_r, observed_nothing. auto.
  - cbn [forOf]. unfold bind. rewrite WebEnv_messageStep_run.
    destruct (known g _ s).
    + destruct (IH (acc ++ [msg_id msg]) (forwarding msg s)) as (h & evs & E & R).
      unfold forwarding in *. rewrite observed_observed in E.
      exists h, (forwardEvents msg ++ evs). rewrite E. split.
      * rewrite forwardedIds_app, <- app_assoc. reflexivity.
      * rewrite requests_app, R. reflexivity.
    + destruct (IH acc (skipping s)) as (h & evs & E & R).
      unfold skipping in *. rewrite observed_observed in E.
      exists h, (skipEvents ++ evs). rewrite E. split.
      * rewrite forwardedIds_app. reflexivity.
      * rewrite requests_app, R. reflexivity.
Qed.

Lemma WebEnv_poll_failed s e :
  WebEnv.requestOutcome GET "/api/internal/pending" (nextAnswer s (pending s))
  = Thrown e ->
  WebEnv.poll s =
  (Returned tt,
   observed (host (world s))
     [ELog Warn "WebChannel /pending poll failed, retrying next cycle"]
     (fetchedState s)).
Proof.
  intros E. unfold WebEnv.poll, tryCatch, bind.
  rewrite WebEnv_request_run. fold (pending s). rewrite E. reflexivity.
Qed.

Lemma WebEnv_poll_null s :
  WebEnv.requestOutcome GET "/api/internal/pending" (nextAnswer s (pending s))
  = Returned None ->
  WebEnv.poll s = (Thrown TypeError, fetchedState s).
Proof.
  intros E. unfold WebEnv.poll, tryCatch, bind.
  rewrite WebEnv_request_run. fold (pending s). rewrite E. reflexivity.
Qed.

Lemma WebEnv_poll_fetched s d :
  batchOf (nextAnswer s (pending s)) = Some d ->
  let regs := orEmpty (registrations d) in
  let msgs := orEmpty (messages d) in
  exists h evs,
    forOf (WebEnv.messageStep (secondView regs s)) msgs [] (afterRegistrations regs s)
    = (Returned (forwardedIds evs), observed h evs (afterRegistrations regs s))
    /\ requests evs = []
    /\ WebEnv.poll s =
       (Returned tt,
        WebEnv_acknowledged (map reg_conversationId regs) (forwardedIds evs)
          (observed h evs (afterRegistrations regs s))).
Proof.
  intros E regs msgs. apply (requestOutcome_batchOf "/api/internal/pending") in E.
  destruct (WebEnv_messages_run (secondView regs s) msgs []
              (afterRegistrations regs s)) as (h2 & e2 & E2 & R2).
  exists h2, e2. split; [exact E2|]. split; [exact R2|].
  unfold WebEnv.poll, tryCatch, bind.
  rewrite WebEnv_request_run. fold (pending s). rewrite E.
  unfold WebEnv.processBatch, bind, opts_registeredGroups, inWorld, WebEnv.member, ret.
  cbn [fst snd]. fold regs msgs.
  unfold secondView, afterRegistrations, fetchedState, firstView in *.
  destruct (WebEnv_registrations_run (registeredGroups (host (world s))) regs []
              (sent (pending s) s)) as (h1 & e1 & E1 & _).
  rewrite E1 in E2. cbn [snd app host world observed] in E2.
  change (forOf (WebEnv.registrationStep ?g) regs [] ?x)
    with (forOf (WebEnv.registrationStep (registeredGroups (host (world s))))
                regs [] (sent (pending s) s)).
  rewrite E1. cbn [app].
  change (forOf (WebEnv.messageStep ?g) msgs [] ?x)
    with (forOf (WebEnv.messageStep (registeredGroups h1)) msgs []
                (observed h1 e1 (sent (pending s) s))).
  rewrite E2. cbn [snd]. unfold WebEnv_acknowledged, tryCatch, bind.
  destruct (nonEmpty _ || nonEmpty _); [|reflexivity].
  rewrite WebEnv_request_run. unfold ack. cbn [self observed sent].
  destruct (WebEnv.requestOutcome POST _ _); reflexivity.
Qed.

End WebEnvRuns.

Section WebEnvTrace.
Context {H G : Type} {hostOps : Host H G}.
Implicit Types s : Sys WebEnv.WebChannel H.
Import WebEnvStates.

Lemma WebEnv_acknowledged_trace cids mids s :
  exists evs,
    trace (world (WebEnv_acknowledged cids mids s)) = trace (world s) ++ evs
    /\ requests evs = (if nonEmpty cids || nonEmpty mids then [ack s cids mids] else [])
    /\ forwardedIds evs = []
    /\ host (world (WebEnv_acknowledged cids mids s)) = host (world s).
Proof.
  unfold WebEnv_acknowledged. rewrite (orb_comm (nonEmpty cids)).
  destruct (nonEmpty mids || nonEmpty cids).
  - destruct (WebEnv.requestOutcome _ _ _).
    + exists [EFetch (ack s cids mids)]. repeat split.
    + eexists [EFetch (ack s cids mids); ELog Warn _].
      cbn. rewrite <- app_assoc. repeat split.
  - exists []. cbn. rewrite app_nil_r. repeat split.
Qed.


Lemma WebEnv_poll_after_failed_fetch s :
  fetchFails (nextAnswer s (pending s)) = true ->
  fst (WebEnv.poll s) = Returned tt
  /\ host (world (snd (WebEnv.poll s))) = host (world s)
  /\ trace (world (snd (WebEnv.poll s))) =
     trace (world s)
     ++ [EFetch (pending s);
         ELog Warn "WebChannel /pending poll failed, retrying next cycle"].
Proof.
  intros F. destruct (requestOutcome_fails GET "/api/internal/pending" _ F) as [e Ee].
  rewrite (WebEnv_poll_failed s e Ee). cbn. rewrite <- app_assoc. auto.
Qed.

End WebEnvTrace.

Section WebEnvSplit.
Context {H G : Type} {hostOps : Host H G}.
Implicit Types s : Sys WebEnv.WebChannel H.
Import WebEnvStates.


(** A message of [WebEnv] is handed to the host iff the view read after the
    registrations holds its jid when the loop reaches it. *)
Lemma WebEnv_message_forwarded_iff_known s d pre m post :
  batchOf (nextAnswer s (pending s)) = Some d ->
  orEmpty (messages d) = pre ++ m :: post ->
  let regs := orEmpty (registrations d) in
  let view := secondView regs s in
  let before := afterMessages regs pre s in
  let jid := ("web:" ++ msg_conversationId m)%string in
  exists acked rest,
    forOf (WebEnv.messageStep view) pre [] (afterRegistrations regs s)
    = (Returned acked, before)
    /\ WebEnv.messageStep view m acked before
       = (if known view jid before
          then (Returned (acked ++ [msg_id m]), forwarding m before)
          else (Returned acked, skipping before))
    /\ trace (world (snd (WebEnv.poll s)))
       = trace (world before)
         ++ (if known view jid before then forwardEvents m else skipEvents)
         ++ rest.
Proof.
  intros E Hmsgs regs view before jid.
  destruct (WebEnv_messages_run view pre [] (afterRegistrations regs s))
    as (h1 & e1 & E1 & _).
  assert (Hb : before = observed h1 e1 (afterRegistrations regs s))
    by (unfold before, afterMessages; fold regs view; now rewrite E1).
  assert (Hpre : forOf (WebEnv.messageStep view) pre [] (afterRegistrations regs s)
                 = (Returned (forwardedIds e1), before))
    by (rewrite Hb; exact E1).
  exists (forwardedIds e1).
  destruct (WebEnv_poll_fetched s d E) as (h4 & e4 & E4 & _ & ->).
  cbn [snd]. fold regs view in E4 |- *. rewrite Hmsgs in E4.
  rewrite forOf_app, E1 in E4. cbn [forOf app] in E4.
  unfold bind at 1 in E4. rewrite <- Hb in E4.
  rewrite WebEnv_messageStep_run in E4 |- *. fold jid in E4 |- *.
  set (sM := observed h4 e4 _).
  destruct (WebEnv_acknowledged_trace (map reg_conversationId regs)
              (forwardedIds e4) sM) as (e5 & E5 & _).
  destruct (known view jid before).
  - destruct (WebEnv_messages_run view post (forwardedIds e1 ++ [msg_id m])
                (forwarding m before)) as (h3 & e3 & E3 & _).
    rewrite E3 in E4. apply (f_equal snd) in E4. cbn [snd] in E4.
    exists (e3 ++ e5). split; [exact Hpre|]. split; [reflexivity|].
    rewrite E5. subst sM. rewrite <- E4. unfold forwarding.
    cbn [trace world observed]. now rewrite <- !app_assoc.
  - destruct (WebEnv_messages_run view post (forwardedIds e1) (skipping before))
      as (h3 & e3 & E3 & _).
    rewrite E3 in E4. apply (f_equal snd) in E4. cbn [snd] in E4.
    exists (e3 ++ e5). split; [exact Hpre|]. split; [reflexivity|].
    rewrite E5. subst sM. rewrite <- E4. unfold skipping.
    cbn [trace world observed]. now rewrite <- !app_assoc.
Qed.

End WebEnvSplit.

(** ** Timers and the life cycle *)

Section Timers.
Context {I H : Type}.
Implicit Types s : Sys I H.

Lemma sameTimers_refl s : sameTimers s s.
Proof. repeat split. Qed.

Lemma sameTimers_trans s1 s2 s3 :
  sameTimers s1 s2 -> sameTimers s2 s3 -> sameTimers s1 s3.
Proof.
  intros (A1 & B1 & C1) (A2 & B2 & C2). repeat split; congruence.
Qed.

Lemma sameTimers_sent req s : sameTimers s (sent req s).
Proof. repeat split. Qed.

Lemma sameTimers_drew s : sameTimers s (drew s).
Proof. repeat split. Qed.

Lemma filter_incl {A} (f : A -> bool) (l : list A) : incl (filter f l) l.
Proof. intros x Hx. now apply filter_In in Hx. Qed.

Lemma filter_none {A} (f : A -> bool) (l : list A) :
  (forall x, In x l -> f x = false) -> filter f l = [].
Proof.
  induction l as [|a l IH]; intros Hf; [reflexivity|].
  cbn [filter]. rewrite (Hf a) by now left.
  apply IH. intros x Hx. apply Hf. now right.
Qed.

Lemma cleared_when_tracked (t : nat) (l : list Timer) :
  (forall x, In x l -> Some t = Some (timer_id x)) ->
  filter (fun x => negb (Nat.eqb (timer_id x) t)) l = [].
Proof.
  intros Ht. apply filter_none. intros x Hx.
  specialize (Ht x Hx). injection Ht as ->. now rewrite Nat.eqb_refl.
Qed.

Lemma untracked_is_empty (l : list Timer) :
  (forall x, In x l -> None = Some (timer_id x)) -> l = [].
Proof.
  destruct l as [|a l]; [reflexivity|].
  intros Hl. specialize (Hl a (or_introl eq_refl)). discriminate.
Qed.

Lemma cleared_not_armed (t : nat) (l : list Timer) :
  ~ In t (map timer_id (filter (fun x => negb (Nat.eqb (timer_id x) t)) l)).
Proof.
  intros Hin. apply in_map_iff in Hin as (x & Hx & Hf).
  apply filter_In in Hf as [_ Hf]. subst t.
  now rewrite Nat.eqb_refl in Hf.
Qed.

End Timers.

Section WebLife.
Context {H G : Type} {hostOps : Host H G}.
Implicit Types s : Sys Web.WebChannel H.
Import WebStates.

Lemma Web_post_timers path body s : sameTimers s (snd (Web.post path body s)).
Proof. rewrite Web_post_run. apply sameTimers_sent. Qed.

Lemma Web_sendMessage_timers jid text s :
  sameTimers s (snd (Web.sendMessage jid text s)).
Proof.
  rewrite Web_sendMessage_run.
  eapply sameTimers_trans; [apply sameTimers_drew | apply Web_post_timers].
Qed.

Lemma Web_caught_post_timers path body msg s :
  fst (tryCatch (Web.post path body) (fun _ => logger_warn msg) s) = Returned tt
  /\ sameTimers s (snd (tryCatch (Web.post path body) (fun _ => logger_warn msg) s)).
Proof.
  unfold tryCatch. rewrite Web_post_run.
  destruct (Web.postOutcome _ _) as [[]|e]; split; try reflexivity.
  - apply sameTimers_sent.
  - repeat split.
Qed.

Lemma Web_setTyping_timers jid b s :
  sameTimers s (snd (Web.setTyping jid b s)).
Proof. apply Web_caught_post_timers. Qed.

Lemma Web_pushContainerStatus_timers jid st err s :
  sameTimers s (snd (Web.pushContainerStatus jid st err s)).
Proof.
  unfold Web.pushContainerStatus. destruct (negb _); [apply sameTimers_refl|].
  apply Web_caught_post_timers.
Qed.

Lemma Web_pushWorkspaceSnapshot_timers jid tree s :
  sameTimers s (snd (Web.pushWorkspaceSnapshot jid tree s)).
Proof.
  unfold Web.pushWorkspaceSnapshot. destruct (negb _); [apply sameTimers_refl|].
  apply Web_caught_post_timers.
Qed.

Lemma Web_acknowledged_timers cids mids s : sameTimers s (Web_acknowledged cids mids s).
Proof.
  unfold Web_acknowledged. destruct (_ || _); [|apply sameTimers_refl].
  destruct (Web.postOutcome _ _); repeat split.
Qed.

(** A cycle ends with [schedulePoll] in a state with the timers it began with. *)
Lemma Web_poll_timers s :
  exists s', sameTimers s s' /\ Web.poll s = (Returned tt, snd (Web.schedulePoll s')).
Proof.
  destruct (batchOf (nextAnswer s (pending s))) as [d|] eqn:E.
  - rewrite (Web_poll_fetched s d E). eexists. split; [|reflexivity].
    eapply sameTimers_trans; [|apply Web_acknowledged_timers].
    unfold afterRegistrations, fetchedState.
    destruct (Web_registrations_run (orEmpty (registrations d)) [] (sent (pending s) s))
      as (h1 & e1 & -> & _). cbn [snd].
    destruct (Web_messages_run (orEmpty (messages d)) []
                (observed h1 e1 (sent (pending s) s))) as (h2 & e2 & -> & _).
    repeat split.
  - destruct (getOutcome_no_batch "/api/internal/pending" _ E) as [e Ee].
    rewrite (Web_poll_failed s e Ee). eexists. split; [|reflexivity].
    repeat split.
Qed.

Lemma Web_poll_stopped s :
  Web.polling (self s) = false ->
  fst (Web.poll s) = Returned tt /\ sameTimers s (snd (Web.poll s)).
Proof.
  intros P. destruct (Web_poll_timers s) as (s' & T & ->). cbn [fst snd].
  split; [reflexivity|]. rewrite Web_schedulePoll_run. cbn [snd].
  destruct T as (Es & Ea & En). rewrite Es, P. repeat split; assumption.
Qed.

(** After [disconnect]. *)
Lemma Web_disconnect_run s :
  fst (Web.disconnect s) = Returned tt
  /\ Web.polling (self (snd (Web.disconnect s))) = false
  /\ Web.pollTimer (self (snd (Web.disconnect s))) = None
  /\ nextTimer (world (snd (Web.disconnect s))) = nextTimer (world s)
  /\ incl (armed (world (snd (Web.disconnect s)))) (armed (world s))
  /\ (forall t, Web.pollTimer (self s) = Some t ->
        ~ In t (map timer_id (armed (world (snd (Web.disconnect s)))))).
Proof.
  unfold Web.disconnect, bind, getSelf, setSelf. cbn.
  destruct (Web.pollTimer (self s)) as [t|] eqn:E; cbn.
  - repeat split; try reflexivity.
    + apply filter_incl.
    + intros t' [= <-]. apply cleared_not_armed.
  - repeat split; try reflexivity; [apply incl_refl | discriminate].
Qed.

Lemma Web_disconnect_tracked s :
  Web_tracked s -> armed (world (snd (Web.disconnect s))) = [].
Proof.
  unfold Web_tracked, Web.disconnect, bind, getSelf, setSelf. cbn.
  destruct (Web.pollTimer (self s)) as [t|]; cbn; intros T.
  - now apply cleared_when_tracked.
  - now apply untracked_is_empty.
Qed.

Lemma Web_quieter_same s s' :
  Web.polling (self s) = false -> sameTimers s s' -> Web_quieter s s'.
Proof.
  intros P (Es & Ea & En). unfold Web_quieter. rewrite Es, Ea, En.
  repeat split; auto using incl_refl.
Qed.

Lemma Web_perform_stopped c s :
  c <> Web.CConnect -> Web.polling (self s) = false ->
  Web_quieter s (snd (Web.perform c s)).
Proof.
  intros Hc P. destruct c; cbn [Web.perform]; try congruence.
  - destruct (Web_disconnect_run s) as (_ & A & B & C & D & _).
    repeat split; auto.
  - apply Web_quieter_same; [assumption | apply Web_sendMessage_timers].
  - apply Web_quieter_same; [assumption | apply Web_setTyping_timers].
  - apply Web_quieter_same; [assumption | apply Web_pushContainerStatus_timers].
  - apply Web_quieter_same; [assumption | apply Web_pushWorkspaceSnapshot_timers].
  - apply Web_quieter_same; [assumption | now apply Web_poll_stopped].
  - unfold Web.fireTimer, bind, takeTimer, inWorld. cbn -[Web.timerCallback].
    destruct (existsb _ _).
    + unfold Web.timerCallback.
      match goal with |- Web_quieter s (snd (Web.poll ?x)) => set (s1 := x) end.
      destruct (Web_poll_stopped s1 P) as (_ & Es & Ea & En).
      unfold Web_quieter. rewrite Es, Ea, En. subst s1. cbn.
      repeat split; auto. apply filter_incl.
    + cbn. repeat split; auto. apply filter_incl.
Qed.

Lemma Web_performAll_stopped cs :
  forall s, Forall (fun c => c <> Web.CConnect) cs ->
    Web.polling (self s) = false ->
    Web_quieter s (Web.performAll cs s).
Proof.
  induction cs as [|c cs IH]; intros s Hcs P.
  - cbn. repeat split; auto using incl_refl.
  - inversion Hcs as [|? ? Hc Hrest]; subst.
    destruct (Web_perform_stopped c s Hc P) as (P1 & T1 & N1 & A1).
    destruct (IH (snd (Web.perform c s)) Hrest P1) as (P2 & T2 & N2 & A2).
    unfold Web.performAll in *. cbn [fold_left].
    repeat split; auto; try congruence.
    eapply incl_tran; eassumption.
Qed.

End WebLife.

Section WebEnvLife.
Context {H G : Type} {hostOps : Host H G}.
Implicit Types s : Sys WebEnv.WebChannel H.
Import WebEnvStates.

Lemma WebEnv_sendMessage_run jid text s :
  WebEnv.sendMessage jid text s =
  let req := WebEnv.requestOf (self s) POST "/api/internal/deliver"
               (Some (delivery (nextUUID s) (slice 4 jid) text (timeISO s))) in
  (Returned tt,
   observed (host (world s))
     [match WebEnv.requestOutcome POST "/api/internal/deliver"
              (nextAnswer (drew s) req) with
      | Returned _ => ELog Info "WebChannel message delivered"
      | Thrown _ => ELog Warn "WebChannel failed to deliver message to claw-chat"
      end]
     (sent req (drew s))).
Proof.
  unfold WebEnv.sendMessage, bind, randomUUID, nowISO, inWorld, tryCatch. cbn -[WebEnv.request].
  rewrite WebEnv_request_run.
  destruct (WebEnv.requestOutcome _ _ _); reflexivity.
Qed.

Lemma WebEnv_setTyping_run jid b s :
  WebEnv.setTyping jid b s =
  (Returned tt,
   sent (WebEnv.requestOf (self s) POST "/api/internal/typing"
           (Some (JObj [("conversationId", JStr (slice 4 jid));
                        ("isTyping", JBool b)]))) s).
Proof.
  unfold WebEnv.setTyping, bind, tryCatch. rewrite WebEnv_request_run.
  destruct (WebEnv.requestOutcome _ _ _); reflexivity.
Qed.

Lemma WebEnv_connect_returns s : fst (WebEnv.connect s) = Returned tt.
Proof.
  unfold WebEnv.connect, bind, tryCatch. rewrite WebEnv_request_run.
  destruct (WebEnv.requestOutcome _ _ _); cbn -[WebEnv.schedulePoll];
    rewrite WebEnv_schedulePoll_run; reflexivity.
Qed.

Lemma WebEnv_disconnect_run s :
  fst (WebEnv.disconnect s) = Returned tt
  /\ WebEnv.connected (self (snd (WebEnv.disconnect s))) = false
  /\ WebEnv.pollTimer (self (snd (WebEnv.disconnect s))) = None
  /\ nextTimer (world (snd (WebEnv.disconnect s))) = nextTimer (world s)
  /\ incl (armed (world (snd (WebEnv.disconnect s)))) (armed (world s))
  /\ (forall t, WebEnv.pollTimer (self s) = Some t ->
        ~ In t (map timer_id (armed (world (snd (WebEnv.disconnect s)))))).
Proof.
  unfold WebEnv.disconnect, bind, getSelf, setSelf. cbn.
  destruct (WebEnv.pollTimer (self s)) as [t|] eqn:E; cbn.
  - repeat split; try reflexivity.
    + apply filter_incl.
    + intros t' [= <-]. apply cleared_not_armed.
  - repeat split; try reflexivity; try assumption; [apply incl_refl | discriminate].
Qed.

Lemma WebEnv_acknowledged_timers cids mids s :
  sameTimers s (WebEnv_acknowledged cids mids s).
Proof.
  unfold WebEnv_acknowledged. destruct (_ || _); [|apply sameTimers_refl].
  destruct (WebEnv.requestOutcome _ _ _); repeat split.
Qed.

Lemma WebEnv_poll_timers s : sameTimers s (snd (WebEnv.poll s)).
Proof.
  destruct (batchOf (nextAnswer s (pending s))) as [d|] eqn:E.
  - destruct (WebEnv_poll_fetched s d E) as (h2 & e2 & _ & _ & ->). cbn [snd].
    eapply sameTimers_trans; [|apply WebEnv_acknowledged_timers].
    unfold afterRegistrations, fetchedState.
    destruct (WebEnv_registrations_run (firstView s) (orEmpty (registrations d)) []
                (sent (pending s) s)) as (h1 & e1 & -> & _).
    repeat split.
  - destruct (requestOutcome_no_batch "/api/internal/pending" _ E) as [En|[e Ee]].
    + rewrite (WebEnv_poll_null s En). repeat split.
    + rewrite (WebEnv_poll_failed s e Ee). repeat split.
Qed.

(** The callback of the timer ends with [schedulePoll] in a state with the
    timers it began with, and never throws. *)
Lemma WebEnv_timerCallback_run s :
  exists s', sameTimers s s'
    /\ WebEnv.timerCallback s = (Returned tt, snd (WebEnv.schedulePoll s')).
Proof.
  unfold WebEnv.timerCallback, finally_, tryCatch.
  pose proof (WebEnv_poll_timers s) as T.
  destruct (WebEnv.poll s) as [[[]|e] s1]; cbn [snd] in T.
  - exists s1. split; [assumption|]. rewrite WebEnv_schedulePoll_run. reflexivity.
  - eexists. split; [|unfold logger_warn, emit, inWorld; cbn -[WebEnv.schedulePoll];
                      rewrite !WebEnv_schedulePoll_run; reflexivity].
    eapply sameTimers_trans; [exact T|]. repeat split.
Qed.

Lemma WebEnv_fireTimer_returns t s : fst (WebEnv.fireTimer t s) = Returned tt.
Proof.
  unfold WebEnv.fireTimer, bind, takeTimer, inWorld. cbn -[WebEnv.timerCallback].
  destruct (existsb _ _); [|reflexivity].
  match goal with |- fst (WebEnv.timerCallback ?x) = _ =>
    destruct (WebEnv_timerCallback_run x) as (s' & _ & ->) end.
  reflexivity.
Qed.

Lemma WebEnv_disconnect_tracked s :
  WebEnv_tracked s -> armed (world (snd (WebEnv.disconnect s))) = [].
Proof.
  unfold WebEnv_tracked, WebEnv.disconnect, bind, getSelf, setSelf. cbn.
  destruct (WebEnv.pollTimer (self s)) as [t|]; cbn; intros T.
  - now apply cleared_when_tracked.
  - now apply untracked_is_empty.
Qed.

Lemma WebEnv_quieter_same s s' :
  WebEnv.connected (self s) = false -> sameTimers s s' -> WebEnv_quieter s s'.
Proof.
  intros P (Es & Ea & En). unfold WebEnv_quieter. rewrite Es, Ea, En.
  repeat split; auto using incl_refl.
Qed.

Lemma WebEnv_perform_stopped c s :
  c <> WebEnv.CConnect -> WebEnv.connected (self s) = false ->
  WebEnv_quieter s (snd (WebEnv.perform c s)).
Proof.
  intros Hc P. destruct c; cbn [WebEnv.perform]; try congruence.
  - destruct (WebEnv_disconnect_run s) as (_ & A & B & C & D & _).
    repeat split; auto.
  - apply WebEnv_quieter_same; [assumption|].
    rewrite WebEnv_sendMessage_run. repeat split.
  - apply WebEnv_quieter_same; [assumption|].
    rewrite WebEnv_setTyping_run. repeat split.
  - apply WebEnv_quieter_same; [assumption | apply WebEnv_poll_timers].
  - apply WebEnv_quieter_same; [assumption|].
    destruct (WebEnv_timerCallback_run s) as (s' & (Es & Ea & En) & ->).
    cbn [snd]. rewrite WebEnv_schedulePoll_run. cbn [snd]. rewrite Es, P.
    repeat split; assumption.
  - unfold WebEnv.fireTimer, bind, takeTimer, inWorld. cbn -[WebEnv.timerCallback].
    destruct (existsb _ _).
    + match goal with |- WebEnv_quieter s (snd (WebEnv.timerCallback ?x)) =>
        destruct (WebEnv_timerCallback_run x) as (s' & (Es & Ea & En) & ->) end.
      cbn [snd]. rewrite WebEnv_schedulePoll_run. cbn [snd].
      cbn [self world armed nextTimer] in Es, Ea, En.
      rewrite Es, P. unfold WebEnv_quieter. rewrite Es, Ea, En.
      repeat split; auto. apply filter_incl.
    + cbn. repeat split; auto. apply filter_incl.
Qed.

Lemma WebEnv_performAll_stopped cs :
  forall s, Forall (fun c => c <> WebEnv.CConnect) cs ->
    WebEnv.connected (self s) = false ->
    WebEnv_quieter s (WebEnv.performAll cs s).
Proof.
  induction cs as [|c cs IH]; intros s Hcs P.
  - cbn. repeat split; auto using incl_refl.
  - inversion Hcs as [|? ? Hc Hrest]; subst.
    destruct (WebEnv_perform_stopped c s Hc P) as (P1 & T1 & N1 & A1).
    destruct (IH (snd (WebEnv.perform c s)) Hrest P1) as (P2 & T2 & N2 & A2).
    unfold WebEnv.performAll in *. cbn [fold_left].
    repeat split; auto; try congruence.
    eapply incl_tran; eassumption.
Qed.

End WebEnvLife.

(** ** The single-timer discipline *)

Section WebOrder.
Context {H G : Type} {hostOps : Host H G}.
Implicit Types s : Sys Web.WebChannel H.

Lemma Web_singleTimer_tracked s : Web_singleTimer s -> Web_tracked s.
Proof.
  intros [E|(t & d & E & P)] x Hx; rewrite E in Hx; [contradiction|].
  destruct Hx as [<-|[]]. exact P.
Qed.

Lemma Web_singleTimer_same s s' :
  sameTimers s s' -> Web_singleTimer s -> Web_singleTimer s'.
Proof.
  intros (Es & Ea & _). unfold Web_singleTimer. now rewrite Es, Ea.
Qed.

Lemma Web_schedulePoll_singleTimer s :
  armed (world s) = [] -> Web_singleTimer (snd (Web.schedulePoll s)).
Proof.
  intros E. rewrite Web_schedulePoll_run. cbn [snd].
  destruct (Web.polling (self s)); [|now left].
  right. exists (nextTimer (world s)), (Millis 2000). cbn. now rewrite E.
Qed.

Lemma Web_perform_singleTimer c s :
  Web_singleTimer s -> Web_orderly c s -> Web_singleTimer (snd (Web.perform c s)).
Proof.
  intros Inv Ord. destruct c; cbn [Web.perform Web_orderly] in *.
  - unfold Web.connect, bind, getSelf, setSelf, logger_info, emit, inWorld.
    cbn -[Web.schedulePoll].
    match goal with |- context [Web.schedulePoll ?x] =>
      pose proof (Web_schedulePoll_singleTimer x Ord) as S1;
      destruct (Web.schedulePoll x) as [[[]|e] s1] eqn:E1 end;
      cbn [snd] in *; exact S1.
  - left. apply Web_disconnect_tracked. now apply Web_singleTimer_tracked.
  - eapply Web_singleTimer_same; [apply Web_sendMessage_timers | exact Inv].
  - eapply Web_singleTimer_same; [apply Web_setTyping_timers | exact Inv].
  - eapply Web_singleTimer_same; [apply Web_pushContainerStatus_timers | exact Inv].
  - eapply Web_singleTimer_same; [apply Web_pushWorkspaceSnapshot_timers | exact Inv].
  - unfold Web.timerCallback.
    destruct (Web_poll_timers s) as (s' & (Es & Ea & En) & ->).
    cbn [snd]. apply Web_schedulePoll_singleTimer. now rewrite Ea.
  - unfold Web.fireTimer, bind, takeTimer, inWorld. cbn -[Web.timerCallback].
    destruct Inv as [E|(t0 & d & E & P)]; rewrite E; cbn [existsb filter].
    + now left.
    + cbn [timer_id orb negb]. destruct (Nat.eqb t0 t) eqn:Et; cbn [orb negb].
      * unfold Web.timerCallback.
        match goal with |- Web_singleTimer (snd (Web.poll ?x)) =>
          destruct (Web_poll_timers x) as (s' & (Es & Ea & En) & ->) end.
        cbn [snd]. apply Web_schedulePoll_singleTimer. exact Ea.
      * right. exists t0, d. cbn. auto.
Qed.

End WebOrder.

Section WebEnvOrder.
Context {H G : Type} {hostOps : Host H G}.
Implicit Types s : Sys WebEnv.WebChannel H.

Lemma WebEnv_singleTimer_tracked s : WebEnv_singleTimer s -> WebEnv_tracked s.
Proof.
  intros [E|(t & d & E & P)] x Hx; rewrite E in Hx; [contradiction|].
  destruct Hx as [<-|[]]. exact P.
Qed.

Lemma WebEnv_singleTimer_same s s' :
  sameTimers s s' -> WebEnv_singleTimer s -> WebEnv_singleTimer s'.
Proof.
  intros (Es & Ea & _). unfold WebEnv_singleTimer. now rewrite Es, Ea.
Qed.

Lemma WebEnv_schedulePoll_singleTimer s :
  armed (world s) = [] -> WebEnv_singleTimer (snd (WebEnv.schedulePoll s)).
Proof.
  intros E. rewrite WebEnv_schedulePoll_run. cbn [snd].
  destruct (WebEnv.connected (self s)); [|now left].
  right. exists (nextTimer (world s)), (WebEnv.pollIntervalMs (self s)).
  cbn. now rewrite E.
Qed.

Lemma WebEnv_perform_singleTimer c s :
  WebEnv_singleTimer s -> WebEnv_orderly c s ->
  WebEnv_singleTimer (snd (WebEnv.perform c s)).
Proof.
  intros Inv Ord. destruct c; cbn [WebEnv.perform WebEnv_orderly] in *.
  - unfold WebEnv.connect, bind, tryCatch. rewrite WebEnv_request_run.
    destruct (WebEnv.requestOutcome _ _ _); cbn -[WebEnv.schedulePoll];
      apply WebEnv_schedulePoll_singleTimer; exact Ord.
  - left. apply WebEnv_disconnect_tracked. now apply WebEnv_singleTimer_tracked.
  - eapply WebEnv_singleTimer_same; [|exact Inv].
    rewrite WebEnv_sendMessage_run. repeat split.
  - eapply WebEnv_singleTimer_same; [|exact Inv].
    rewrite WebEnv_setTyping_run. repeat split.
  - eapply WebEnv_singleTimer_same; [apply WebEnv_poll_timers | exact Inv].
  - destruct (WebEnv_timerCallback_run s) as (s' & (Es & Ea & En) & ->).
    cbn [snd]. apply WebEnv_schedulePoll_singleTimer. now rewrite Ea.
  - unfold WebEnv.fireTimer, bind, takeTimer, inWorld. cbn -[WebEnv.timerCallback].
    destruct Inv as [E|(t0 & d & E & P)]; rewrite E; cbn [existsb filter].
    + now left.
    + cbn [timer_id orb negb]. destruct (Nat.eqb t0 t) eqn:Et; cbn [orb negb].
      * match goal with |- WebEnv_singleTimer (snd (WebEnv.timerCallback ?x)) =>
          destruct (WebEnv_timerCallback_run x) as (s' & (Es & Ea & En) & ->) end.
        cbn [snd]. apply WebEnv_schedulePoll_singleTimer. exact Ea.
      * right. exists t0, d. cbn. auto.
Qed.

End WebEnvOrder.

(** ** One loop, when [connect] waits for its turn *)

Section WebLoop.
Context {H G : Type} {hostOps : Host H G}.
Implicit Types s : Sys Web.WebChannel H.

Lemma Web_perform_idle c s :
  c <> Web.CConnect -> c <> Web.CCycle -> armed (world s) = [] ->
  armed (world (snd (Web.perform c s))) = [].
Proof.
  intros C1 C2 E.
  destruct c as [| |jid text|jid isTyping|jid st err|jid tree| |t];
    cbn [Web.perform]; try congruence.
  - apply incl_l_nil. rewrite <- E. apply Web_disconnect_run.
  - destruct (Web_sendMessage_timers jid text s) as (_ & -> & _). exact E.
  - destruct (Web_setTyping_timers jid isTyping s) as (_ & -> & _). exact E.
  - destruct (Web_pushContainerStatus_timers jid st err s) as (_ & -> & _). exact E.
  - destruct (Web_pushWorkspaceSnapshot_timers jid tree s) as (_ & -> & _). exact E.
  - unfold Web.fireTimer, bind, takeTimer, inWorld. cbn -[Web.timerCallback].
    rewrite E. reflexivity.
Qed.

Lemma Web_moment_oneLoop m ns :
  Web_oneLoop ns -> Web_inTurn m ns -> Web_oneLoop (Web_moment m ns).
Proof.
  destruct ns as [n s]. unfold Web_oneLoop. cbn [fst snd].
  intros J T. destruct m as [c|t].
  - destruct J as [[-> S]|[-> E]].
    + assert (O : Web_orderly c s -> Web_singleTimer (snd (Web.perform c s)))
        by apply (Web_perform_singleTimer c s S).
      destruct c; cbn [Web_moment Web_inTurn fst snd Web_orderly] in *;
        left; split; try reflexivity; apply O; try exact I; solve [apply T | now destruct T].
    + destruct c; cbn [Web_moment Web_inTurn fst snd] in *;
        try (right; split; [reflexivity|]; apply Web_perform_idle;
             [discriminate|discriminate|exact E]).
      * destruct T as [_ T]. discriminate.
      * left. split; [reflexivity|].
        apply (Web_perform_singleTimer Web.CCycle s); [now left|exact E].
  - cbn [Web_moment fst snd]. unfold takeTimer, inWorld. cbn.
    destruct J as [[-> [E|(t0 & d & E & P)]]|[-> E]]; rewrite E; cbn.
    + left. split; [reflexivity|]. now left.
    + destruct (Nat.eqb t0 t); cbn.
      * right. split; reflexivity.
      * left. split; [reflexivity|]. right. exists t0, d. cbn. auto.
    + right. split; reflexivity.
Qed.

Lemma Web_moments_oneLoop ms :
  forall ns, Web_oneLoop ns -> Web_disciplined ms ns -> Web_oneLoop (Web_moments ms ns).
Proof.
  induction ms as [|m ms IH]; intros ns J D; [exact J|].
  destruct D as [T D]. unfold Web_moments. cbn [fold_left].
  apply IH; [now apply Web_moment_oneLoop | exact D].
Qed.

Lemma Web_oneLoop_tracked (ns : nat * Sys Web.WebChannel H) : Web_oneLoop ns -> Web_tracked (snd ns).
Proof.
  intros [[_ S]|[_ E]]; [now apply Web_singleTimer_tracked|].
  intros x Hx. rewrite E in Hx. contradiction.
Qed.

Lemma Web_oneLoop_count (ns : nat * Sys Web.WebChannel H) :
  Web_oneLoop ns -> (fst ns + List.length (armed (world (snd ns))) <= 1)%nat.
Proof.
  intros [[-> [->|(t & d & -> & _)]]|[-> ->]]; cbn; lia.
Qed.

End WebLoop.

Section WebEnvLoop.
Context {H G : Type} {hostOps : Host H G}.
Implicit Types s : Sys WebEnv.WebChannel H.

Lemma WebEnv_perform_idle c s :
  c <> WebEnv.CConnect -> c <> WebEnv.CCycle -> armed (world s) = [] ->
  armed (world (snd (WebEnv.perform c s))) = [].
Proof.
  intros C1 C2 E. destruct c; cbn [WebEnv.perform]; try congruence.
  - apply incl_l_nil. rewrite <- E. apply WebEnv_disconnect_run.
  - rewrite WebEnv_sendMessage_run. exact E.
  - rewrite WebEnv_setTyping_run. exact E.
  - destruct (WebEnv_poll_timers s) as (_ & -> & _). exact E.
  - unfold WebEnv.fireTimer, bind, takeTimer, inWorld. cbn -[WebEnv.timerCallback].
    rewrite E. reflexivity.
Qed.

Lemma WebEnv_moment_oneLoop m ns :
  WebEnv_oneLoop ns -> WebEnv_inTurn m ns -> WebEnv_oneLoop (WebEnv_moment m ns).
Proof.
  destruct ns as [n s]. unfold WebEnv_oneLoop. cbn [fst snd].
  intros J T. destruct m as [c|t].
  - destruct J as [[-> S]|[-> E]].
    + assert (O : WebEnv_orderly c s -> WebEnv_singleTimer (snd (WebEnv.perform c s)))
        by apply (WebEnv_perform_singleTimer c s S).
      destruct c; cbn [WebEnv_moment WebEnv_inTurn fst snd WebEnv_orderly] in *;
        left; split; try reflexivity; apply O; try exact I; solve [apply T | now destruct T].
    + destruct c; cbn [WebEnv_moment WebEnv_inTurn fst snd] in *;
        try (right; split; [reflexivity|]; apply WebEnv_perform_idle;
             [discriminate|discriminate|exact E]).
      * destruct T as [_ T]. discriminate.
      * left. split; [reflexivity|].
        apply (WebEnv_perform_singleTimer WebEnv.CCycle s); [now left|exact E].
  - cbn [WebEnv_moment fst snd]. unfold takeTimer, inWorld. cbn.
    destruct J as [[-> [E|(t0 & d & E & P)]]|[-> E]]; rewrite E; cbn.
    + left. split; [reflexivity|]. now left.
    + destruct (Nat.eqb t0 t); cbn.
      * right. split; reflexivity.
      * left. split; [reflexivity|]. right. exists t0, d. cbn. auto.
    + right. split; reflexivity.
Qed.

Lemma WebEnv_moments_oneLoop ms :
  forall ns, WebEnv_oneLoop ns -> WebEnv_disciplined ms ns ->
    WebEnv_oneLoop (WebEnv_moments ms ns).
Proof.
  induction ms as [|m ms IH]; intros ns J D; [exact J|].
  destruct D as [T D]. unfold WebEnv_moments. cbn [fold_left].
  apply IH; [now apply WebEnv_moment_oneLoop | exact D].
Qed.

Lemma WebEnv_oneLoop_tracked (ns : nat * Sys WebEnv.WebChannel H) : WebEnv_oneLoop ns -> WebEnv_tracked (snd ns).
Proof.
  intros [[_ S]|[_ E]]; [now apply WebEnv_singleTimer_tracked|].
  intros x Hx. rewrite E in Hx. contradiction.
Qed.

Lemma WebEnv_oneLoop_count (ns : nat * Sys WebEnv.WebChannel H) :
  WebEnv_oneLoop ns -> (fst ns + List.length (armed (world (snd ns))) <= 1)%nat.
Proof.
  intros [[-> [->|(t & d & -> & _)]]|[-> ->]]; cbn; lia.
Qed.

End WebEnvLoop.

(** ** What [sendMessage] settles with, and the secret of [WebEnv] *)

Section SendMessage.
Context {H : Type}.

Lemma WebEnv_sendMessage_never_raises (jid text : string) (s : Sys WebEnv.WebChannel H) :
  fst (WebEnv.sendMessage jid text s) = Returned tt.
Proof. rewrite WebEnv_sendMessage_run. reflexivity. Qed.

Lemma Web_sendMessage_outcome (jid text : string) (s : Sys Web.WebChannel H) :
  fst (Web.sendMessage jid text s)
  = Web.postOutcome "/api/internal/deliver"
      (nextAnswer (drew s)
         (Web.postRequest (self s) "/api/internal/deliver"
            (delivery (nextUUID s) (slice 4 jid) text (timeISO s)))).
Proof. rewrite Web_sendMessage_run, Web_post_run. reflexivity. Qed.

End SendMessage.

Lemma orElse_truthy (a : option string) (b : string) :
  truthy (orElse a b) = hasText a || truthy b.
Proof.
  unfold orElse, hasText. destruct a as [x|]; [|reflexivity].
  destruct (truthy x) eqn:E; [exact E | reflexivity].
Qed.

(** * Concrete runs

    The scenarios of the test-suite and of the specification, run on the
    model. *)

Section Runs.
Local Open Scope string_scope.

(** One new registration and no message, against an empty registry: one
    registration callback, then an acknowledgement of the conversation. *)
Example WebEnv_registers_new_conversation :
  WebEnv.poll (hostOps := MockHost) (envAt emptyRegistry registrationNetwork)
  = (Returned tt,
     observed emptyRegistry
       [EFetch (WebEnvStates.pending (envAt emptyRegistry registrationNetwork));
        ERegisterGroup "web:conv-abc"
          (mkRegisteredGroup "Main" "web-conv-abc" "web-conv-abc"
                             "2026-02-27T10:00:00.000Z" false);
        ELog Info "WebChannel registered conversation";
        EFetch (WebEnvStates.ack (envAt emptyRegistry registrationNetwork)
                  ["conv-abc"] [])]
       (mkSys envChannel
          (mkWorld emptyRegistry [] registrationNetwork 2 1772186400000
                   (fun n => Z.of_nat n) 0 [] 0))).
Proof. reflexivity. Qed.

(** A 2xx answer with an empty text makes [request] return [null], and the
    direct call of [poll] rejects on [data.registrations]. *)
Example WebEnv_poll_rejects_on_empty_answer :
  fst (WebEnv.poll (hostOps := MockHost) (envAt emptyRegistry (mockNetwork [])))
  = Thrown TypeError.
Proof. reflexivity. Qed.

(** The same conversation announced twice in one batch: a host that hands
    out its live object is asked to register it once, a host that hands out
    copies is asked twice, because [WebEnv] reads the object once before the
    loop. *)
Example WebEnv_duplicate_registration_live_host :
  callbacks
    (trace (world (snd (WebEnv.poll (hostOps := LiveHost)
       (envAt emptyRegistry
          (mockNetwork [(base ++ "/api/internal/pending",
                         answer 200 (batch [mainRegistration; mainRegistration]
                                           []))]))))))
  = [ERegisterGroup "web:conv-abc"
       (mkRegisteredGroup "Main" "web-conv-abc" "web-conv-abc"
                          "2026-02-27T10:00:00.000Z" false)].
Proof. reflexivity. Qed.

Example WebEnv_duplicate_registration_copying_host :
  List.length
    (callbacks
       (trace (world (snd (WebEnv.poll (hostOps := CopyingHost)
          (envAt emptyRegistry
             (mockNetwork [(base ++ "/api/internal/pending",
                            answer 200 (batch [mainRegistration; mainRegistration]
                                              []))])))))))
  = 2%nat.
Proof. reflexivity. Qed.

(** The constructor of [WebEnv] on the test-suite's [.env], and on none. *)
Example WebEnv_constructor_with_env :
  WebEnv.constructor envFile noEnv = Returned envChannel.
Proof. reflexivity. Qed.

Example WebEnv_constructor_without_env :
  WebEnv.constructor noEnv noEnv
  = Thrown (ConfigError "WEBUI_INTERNAL_SECRET must be set in .env").
Proof. reflexivity. Qed.

(** [connect] from a fresh adapter arms one timer and holds its handle;
    [disconnect] then leaves none. *)
Example Web_connect_then_disconnect :
  armed (world (snd (Web.connect (webAt emptyRegistry downNetwork))))
  = [mkTimer 0 (Millis 2000)]
  /\ Web.pollTimer (self (snd (Web.connect (webAt emptyRegistry downNetwork))))
     = Some 0%nat
  /\ armed (world (snd (Web.disconnect
                         (snd (Web.connect (webAt emptyRegistry downNetwork))))))
     = [].
Proof. repeat split. Qed.

(** A second [connect] while a timer is pending replaces the handle, and the
    first timer is then out of the reach of [disconnect]: the single-timer
    discipline is the host's to keep. *)
Example Web_second_connect_orphans_a_timer :
  armed (world (snd (Web.disconnect
                       (snd (Web.connect
                               (snd (Web.connect
                                       (webAt emptyRegistry downNetwork))))))))
  = [mkTimer 0 (Millis 2000)].
Proof. reflexivity. Qed.

End Runs.

(** * The claims *)

(** ** C1 *)

(** Against C1 as stated: [Web.poll] forwards a message whose conversation
    is in no registered-groups view, neither when the batch arrives nor
    after the registrations of the batch, and acknowledges its id. *)
Lemma Web_forwards_message_of_unregistered_conversation :
  WebStates.known (hostOps := MockHost) "web:unknown-conv"
    (WebStates.afterRegistrations (hostOps := MockHost) []
       (webAt emptyRegistry strayNetwork)) = false
  /\ trace (world (snd (Web.poll (hostOps := MockHost)
                          (webAt emptyRegistry strayNetwork))))
     = [EFetch (WebStates.pending (webAt emptyRegistry strayNetwork));
        EMessage "web:unknown-conv" (Web.newMessage strayMessage);
        EFetch (WebStates.ack (webAt emptyRegistry strayNetwork) [] ["msg-1"])].
Proof. split; reflexivity. Qed.

Section Claim1.
Context {H G : Type} {hostOps : Host H G}.

(** C1, amended.  In [WebEnv.poll], for every message [m2] of the fetched
    batch: with [view] the object that [registeredGroups()] returns after the
    registration loop, and [before2] the state in which the loop reaches
    [m2], the message is handed to [onChatMetadata] and [onMessage] and its
    id is appended to the acknowledged ids if [view] holds its jid
    [web:<conversationId>] then; otherwise one warning is logged, no
    callback is invoked and the acknowledged ids stay as they were.  In
    [Web.poll] no registry is consulted for messages: every message [m1] of
    the batch is handed to [onMessage] and its id is acknowledged. *)
Theorem message_forwarded_iff_known_where_the_registry_is_consulted
        (s1 : Sys Web.WebChannel H) (d1 : PendingResponse)
        (pre1 : list PendingMessage) (m1 : PendingMessage) (post1 : list PendingMessage)
        (s2 : Sys WebEnv.WebChannel H) (d2 : PendingResponse)
        (pre2 : list PendingMessage) (m2 : PendingMessage) (post2 : list PendingMessage) :
  batchOf (nextAnswer s1 (WebStates.pending s1)) = Some d1 ->
  orEmpty (messages d1) = pre1 ++ m1 :: post1 ->
  batchOf (nextAnswer s2 (WebEnvStates.pending s2)) = Some d2 ->
  orEmpty (messages d2) = pre2 ++ m2 :: post2 ->
  let regs1 := orEmpty (registrations d1) in
  let regs2 := orEmpty (registrations d2) in
  let before1 := WebStates.afterMessages regs1 pre1 s1 in
  let before2 := WebEnvStates.afterMessages regs2 pre2 s2 in
  let view := WebEnvStates.secondView regs2 s2 in
  let jid1 := ("web:" ++ msg_conversationId m1)%string in
  let jid2 := ("web:" ++ msg_conversationId m2)%string in
  (exists acked rest,
     forOf (WebEnv.messageStep view) pre2 [] (WebEnvStates.afterRegistrations regs2 s2)
     = (Returned acked, before2)
     /\ WebEnv.messageStep view m2 acked before2
        = (if WebEnvStates.known view jid2 before2
           then (Returned (acked ++ [msg_id m2]), WebEnvStates.forwarding m2 before2)
           else (Returned acked, WebEnvStates.skipping before2))
     /\ trace (world (snd (WebEnv.poll s2)))
        = trace (world before2)
          ++ (if WebEnvStates.known view jid2 before2
              then [EChatMetadata jid2 (msg_createdAt m2) None "web" false;
                    EMessage jid2 (WebEnv.newMessage m2)]
              else [ELog Warn
                      "WebChannel: message for unregistered conversation, skipping"])
          ++ rest)
  /\ (forOf Web.messageStep pre1 [] (WebStates.afterRegistrations regs1 s1)
      = (Returned (map msg_id pre1), before1)
      /\ Web.messageStep m1 (map msg_id pre1) before1
         = (Returned (map msg_id pre1 ++ [msg_id m1]), WebStates.forwarding m1 before1)
      /\ exists rest,
           trace (world (snd (Web.poll s1)))
           = trace (world before1) ++ [EMessage jid1 (Web.newMessage m1)] ++ rest
           /\ requests rest
              = [WebStates.ack s1 (map reg_conversationId regs1)
                   (map msg_id pre1 ++ msg_id m1 :: map msg_id post1)]).
Proof.
  intros E1 M1 E2 M2 regs1 regs2 before1 before2 view jid1 jid2. split.
  - apply (WebEnv_message_forwarded_iff_known s2 d2 pre2 m2 post2 E2 M2).
  - apply (Web_message_always_forwarded s1 d1 pre1 m1 post1 E1 M1).
Qed.

End Claim1.

(** C1, amended, on the batch of one message of an unregistered
    conversation: [WebEnv] skips it, [Web] forwards it. *)
Lemma message_forwarded_iff_known_where_the_registry_is_consulted_witness :
  batchOf (nextAnswer (webAt emptyRegistry strayNetwork)
             (WebStates.pending (webAt emptyRegistry strayNetwork)))
  = Some strayBatch
  /\ orEmpty (messages strayBatch) = [] ++ strayMessage :: []
  /\ batchOf (nextAnswer (envAt emptyRegistry strayNetwork)
                (WebEnvStates.pending (envAt emptyRegistry strayNetwork)))
     = Some strayBatch
  /\ Web.messageStep (hostOps := MockHost) strayMessage []
       (WebStates.afterMessages (hostOps := MockHost) [] []
          (webAt emptyRegistry strayNetwork))
     = (Returned ["msg-1"],
        WebStates.forwarding (hostOps := MockHost) strayMessage
          (WebStates.afterMessages (hostOps := MockHost) [] []
             (webAt emptyRegistry strayNetwork))).
Proof.
  split; [reflexivity|]. split; [reflexivity|]. split; [reflexivity|].
  destruct (message_forwarded_iff_known_where_the_registry_is_consulted
              (hostOps := MockHost)
              (webAt emptyRegistry strayNetwork) strayBatch [] strayMessage []
              (envAt emptyRegistry strayNetwork) strayBatch [] strayMessage []
              eq_refl eq_refl eq_refl eq_refl) as [_ [_ [Hstep _]]].
  exact Hstep.
Defined.

(** ** C2 *)

(** C2.  [Web.sendMessage] awaits [post] outside any [try] or [.catch]:
    when the deliver endpoint answers 500, the rejection reaches the
    caller.  ([setTyping] and the two pushes of the same file catch it, and
    so does [WebEnv.sendMessage]: lemma [WebEnv_sendMessage_never_raises].) *)
Theorem Web_sendMessage_raises_on_server_error :
  fst (Web.sendMessage "web:conv-123" "hello"
         (webAt emptyRegistry brokenDeliverNetwork))
  = Thrown (HttpError POST "/api/internal/deliver" 500).
Proof. reflexivity. Qed.

(** ** C3 *)

(** Against C3 as stated: the constructor of [Web] returns an instance for
    an empty secret. *)
Lemma Web_constructs_with_empty_secret :
  Web.constructor (Web.mkOpts "http://localhost:3000" "")
  = Returned (Web.mkWebChannel (Web.mkOpts "http://localhost:3000" "") false None).
Proof. reflexivity. Qed.

Section Claim3.
Context {H G : Type} {hostOps : Host H G}.

(** C3, amended.  The constructor of [WebEnv] fails with the configuration
    error, and returns no instance, exactly when neither [.env] nor
    [process.env] holds a non-empty [WEBUI_INTERNAL_SECRET]; [connect],
    [disconnect], [sendMessage], [setTyping] and every timer-driven poll
    cycle of [WebEnv] return normally.  The constructor of [Web] takes the
    secret as an option and never fails. *)
Theorem configuration_error_only_from_env_constructor
        (env processEnv : WebEnv.Env) (o : Web.WebChannelOpts)
        (s : Sys WebEnv.WebChannel H) (jid text : string) (isTyping : bool)
        (t : nat) :
  let configured :=
    hasText (WebEnv.WEBUI_INTERNAL_SECRET env)
    || hasText (WebEnv.WEBUI_INTERNAL_SECRET processEnv) in
  returned (WebEnv.constructor env processEnv) = configured
  /\ (WebEnv.constructor env processEnv
      = Thrown (ConfigError "WEBUI_INTERNAL_SECRET must be set in .env")
      <-> configured = false)
  /\ fst (WebEnv.connect s) = Returned tt
  /\ fst (WebEnv.disconnect s) = Returned tt
  /\ fst (WebEnv.sendMessage jid text s) = Returned tt
  /\ fst (WebEnv.setTyping jid isTyping s) = Returned tt
  /\ fst (WebEnv.fireTimer t s) = Returned tt
  /\ fst (WebEnv.timerCallback s) = Returned tt
  /\ Web.constructor o = Returned (Web.mkWebChannel o false None).
Proof.
  intros configured.
  assert (E : truthy (orElse (WebEnv.WEBUI_INTERNAL_SECRET env)
                        (orElse (WebEnv.WEBUI_INTERNAL_SECRET processEnv) ""))
              = configured).
  { rewrite !orElse_truthy. cbn [truthy]. now rewrite orb_false_r. }
  unfold WebEnv.constructor. rewrite E.
  split; [destruct configured; reflexivity|].
  split; [destruct configured; split; intros; try reflexivity; discriminate|].
  split; [apply WebEnv_connect_returns|].
  split; [apply WebEnv_disconnect_run|].
  split; [apply WebEnv_sendMessage_never_raises|].
  split; [rewrite WebEnv_setTyping_run; reflexivity|].
  split; [apply WebEnv_fireTimer_returns|].
  split; [|reflexivity].
  destruct (WebEnv_timerCallback_run s) as (s' & _ & ->). reflexivity.
Qed.

End Claim3.

(** ** C4 *)

Section Claim4.
Context {H G : Type} {hostOps : Host H G}.

(** C4.  When the fetch of the pending batch fails, by a network error or
    by an answer outside 2xx, [poll] of either adapter returns normally; all
    it leaves in the trace is the request and one warning, so that no
    callback fired and no acknowledgement was posted; the host is as it
    was. *)
Theorem poll_survives_failed_fetch
        (s1 : Sys Web.WebChannel H) (s2 : Sys WebEnv.WebChannel H) :
  fetchFails (nextAnswer s1 (WebStates.pending s1)) = true ->
  fetchFails (nextAnswer s2 (WebEnvStates.pending s2)) = true ->
  (exists evs,
     trace (world (snd (Web.poll s1))) = trace (world s1) ++ evs
     /\ evs = [EFetch (WebStates.pending s1); ELog Warn "WebChannel: poll error"]
     /\ callbacks evs = []
     /\ requests evs = [WebStates.pending s1]
     /\ host (world (snd (Web.poll s1))) = host (world s1)
     /\ fst (Web.poll s1) = Returned tt)
  /\ (exists evs,
        trace (world (snd (WebEnv.poll s2))) = trace (world s2) ++ evs
        /\ evs = [EFetch (WebEnvStates.pending s2);
                  ELog Warn "WebChannel /pending poll failed, retrying next cycle"]
        /\ callbacks evs = []
        /\ requests evs = [WebEnvStates.pending s2]
        /\ host (world (snd (WebEnv.poll s2))) = host (world s2)
        /\ fst (WebEnv.poll s2) = Returned tt).
Proof.
  intros F1 F2. split.
  - destruct (Web_poll_after_failed_fetch s1 F1) as (R & Hh & T).
    eexists. split; [exact T|]. repeat split; assumption.
  - destruct (WebEnv_poll_after_failed_fetch s2 F2) as (R & Hh & T).
    eexists. split; [exact T|]. repeat split; assumption.
Qed.

End Claim4.

(** C4 when claw-chat answers 503 to [/api/internal/pending]. *)
Lemma poll_survives_failed_fetch_witness :
  fetchFails (nextAnswer (webAt emptyRegistry downNetwork)
                (WebStates.pending (webAt emptyRegistry downNetwork))) = true
  /\ fetchFails (nextAnswer (envAt emptyRegistry downNetwork)
                   (WebEnvStates.pending (envAt emptyRegistry downNetwork))) = true
  /\ (exists evs,
        trace (world (snd (WebEnv.poll (hostOps := MockHost)
                             (envAt emptyRegistry downNetwork))))
        = trace (world (envAt emptyRegistry downNetwork)) ++ evs
        /\ evs = [EFetch (WebEnvStates.pending (envAt emptyRegistry downNetwork));
                  ELog Warn "WebChannel /pending poll failed, retrying next cycle"]
        /\ callbacks evs = []
        /\ requests evs = [WebEnvStates.pending (envAt emptyRegistry downNetwork)]
        /\ host (world (snd (WebEnv.poll (hostOps := MockHost)
                               (envAt emptyRegistry downNetwork))))
           = host (world (envAt emptyRegistry downNetwork))
        /\ fst (WebEnv.poll (hostOps := MockHost) (envAt emptyRegistry downNetwork))
           = Returned tt).
Proof.
  split; [reflexivity|]. split; [reflexivity|].
  apply (poll_survives_failed_fetch (hostOps := MockHost)
           (webAt emptyRegistry downNetwork) (envAt emptyRegistry downNetwork)
           eq_refl eq_refl).
Defined.

(** ** C5 *)

Section Claim5.
Context {H G : Type} {hostOps : Host H G}.


End Claim5.


(** ** C6 *)

Section Claim6.
Context {H G : Type} {hostOps : Host H G}.


End Claim6.

(** ** C7 *)

Section Claim7.
Context {H : Type}.

(** C7.  For a jid [web:X], [sendMessage] of either adapter sends exactly
    one request: a POST to the deliver endpoint under the base URL, with the
    bearer secret, whose body has [conversationId] equal to [X], [content]
    equal to the text, as [id] the UUID made from the next draw of the
    entropy source, which the call consumes, and as [createdAt] the ISO
    rendering of the clock, a well-formed timestamp.  The id has 36
    characters. *)
Theorem sendMessage_posts_one_delivery
        (X text : string) (s1 : Sys Web.WebChannel H) (s2 : Sys WebEnv.WebChannel H) :
  let jid := ("web:" ++ X)%string in
  let body1 := delivery (nextUUID s1) X text (timeISO s1) in
  let body2 := delivery (nextUUID s2) X text (timeISO s2) in
  (exists evs,
     trace (world (snd (Web.sendMessage jid text s1))) = trace (world s1) ++ evs
     /\ requests evs
        = [mkRequest POST
             (Web.url (Web.opts (self s1)) ++ "/api/internal/deliver")%string
             [("Content-Type", "application/json"%string);
              ("Authorization",
               ("Bearer " ++ Web.secret (Web.opts (self s1)))%string)]
             (Some body1)]
     /\ drawn (world (snd (Web.sendMessage jid text s1))) = S (drawn (world s1)))
  /\ (exists evs,
        trace (world (snd (WebEnv.sendMessage jid text s2))) = trace (world s2) ++ evs
        /\ requests evs
           = [mkRequest POST
                (WebEnv.baseUrl (self s2) ++ "/api/internal/deliver")%string
                [("Content-Type", "application/json"%string);
                 ("Authorization", ("Bearer " ++ WebEnv.secret (self s2))%string)]
                (Some body2)]
        /\ drawn (world (snd (WebEnv.sendMessage jid text s2))) = S (drawn (world s2)))
  /\ (forall u t,
        field "id" (delivery u X text t) = Some (JStr u)
        /\ field "conversationId" (delivery u X text t) = Some (JStr X)
        /\ field "content" (delivery u X text t) = Some (JStr text)
        /\ field "createdAt" (delivery u X text t) = Some (JStr t))
  /\ String.length (nextUUID s1) = 36%nat
  /\ String.length (nextUUID s2) = 36%nat
  /\ Platform.isIsoTimestamp (timeISO s1) = true
  /\ Platform.isIsoTimestamp (timeISO s2) = true.
Proof.
  intros jid body1 body2.
  assert (Hslice : slice 4 jid = X) by apply (slice_prefix "web:" X).
  repeat split.
  - rewrite Web_sendMessage_run, Web_post_run, Hslice. cbn [snd].
    eexists [EFetch _]. repeat split.
  - rewrite WebEnv_sendMessage_run, Hslice. cbn zeta. cbn [snd].
    eexists [EFetch _; _]. cbn. rewrite <- app_assoc. repeat split.
    destruct (WebEnv.requestOutcome _ _ _); reflexivity.
  - apply toISOString_wellformed.
  - apply toISOString_wellformed.
Qed.

End Claim7.

(** ** C8 *)

(** [connect] of [WebEnv] is its two halves, one after the other. *)
Lemma WebEnv_connect_halves {H} (s : Sys WebEnv.WebChannel H) :
  WebEnv.connect s = bind WebEnv_connectProbe (fun _ => WebEnv_connectResume) s.
Proof. reflexivity. Qed.

(** Against C8 as stated: [disconnect] clears the one timer whose handle
    the adapter holds.  In both adapters, when the host disconnects and
    connects again while a cycle is under way, the end of that cycle arms a
    second timer beside the one of the new [connect]; the next [disconnect]
    clears the timer armed last and leaves the other in the event loop,
    and when that one comes due a whole poll cycle runs on the disconnected
    adapter.  In [WebEnv], a [disconnect] that runs while [connect] awaits
    its health probe is followed by the rest of [connect]: the adapter ends
    up connected, with a timer armed.  And in either adapter a [connect]
    after [disconnect] schedules poll cycles again. *)
Lemma disconnect_leaves_the_timer_of_an_earlier_loop :
  (armed (world Web_twoLoops) = [mkTimer 1 (Millis 2000); mkTimer 2 (Millis 2000)]
   /\ Web.pollTimer (self Web_twoLoops) = Some 2%nat
   /\ Web.isConnected (self (snd (Web.disconnect Web_twoLoops))) = false
   /\ armed (world (snd (Web.disconnect Web_twoLoops))) = [mkTimer 1 (Millis 2000)]
   /\ requests (trace (world (snd (Web.fireTimer (hostOps := MockHost) 1
                                     (snd (Web.disconnect Web_twoLoops))))))
      = requests (trace (world (snd (Web.disconnect Web_twoLoops))))
        ++ [WebStates.pending Web_twoLoops;
            WebStates.ack Web_twoLoops [] ["msg-1"]])
  /\ (armed (world WebEnv_twoLoops)
      = [mkTimer 1 (ParseInt10 "50"); mkTimer 2 (ParseInt10 "50")]
      /\ WebEnv.isConnected (self (snd (WebEnv.disconnect WebEnv_twoLoops))) = false
      /\ armed (world (snd (WebEnv.disconnect WebEnv_twoLoops)))
         = [mkTimer 1 (ParseInt10 "50")]
      /\ requests (trace (world (snd (WebEnv.fireTimer (hostOps := MockHost) 1
                                        (snd (WebEnv.disconnect WebEnv_twoLoops))))))
         = requests (trace (world (snd (WebEnv.disconnect WebEnv_twoLoops))))
           ++ [WebEnvStates.pending WebEnv_twoLoops])
  /\ (WebEnv.isConnected (self WebEnv_disconnectedMidConnect) = true
      /\ armed (world WebEnv_disconnectedMidConnect) = [mkTimer 0 (ParseInt10 "50")])
  /\ (armed (world (snd (Web.connect
                           (snd (Web.disconnect
                                   (snd (Web.connect
                                           (webAt emptyRegistry strayNetwork))))))))
      = [mkTimer 1 (Millis 2000)]
      /\ armed (world (snd (WebEnv.connect
                              (snd (WebEnv.disconnect
                                      (snd (WebEnv.connect
                                              (envAt emptyRegistry strayNetwork))))))))
         = [mkTimer 1 (ParseInt10 "50")]).
Proof. repeat split. Qed.

Section Claim8.
Context {H G : Type} {hostOps : Host H G}.

(** C8, amended.  In either adapter [disconnect] returns normally in
    every state, so also when called twice or on an adapter that never
    connected; after it the adapter is not connected and holds no timer,
    and the timer it held is no longer in the event loop.  Whatever happens
    afterwards, short of [connect] (further calls of the host, timers that
    come due, cycles under way that run to their end), the adapter stays
    disconnected and no timer is created: no poll cycle is scheduled again.
    When the timers in the event loop were those the adapter held, none is
    left. *)
Theorem disconnect_stops_polling
        (s1 : Sys Web.WebChannel H) (cs1 : list Web.Call)
        (s2 : Sys WebEnv.WebChannel H) (cs2 : list WebEnv.Call) :
  Forall (fun c => c <> Web.CConnect) cs1 ->
  Forall (fun c => c <> WebEnv.CConnect) cs2 ->
  let d1 := snd (Web.disconnect s1) in
  let d2 := snd (WebEnv.disconnect s2) in
  let e1 := Web.performAll cs1 d1 in
  let e2 := WebEnv.performAll cs2 d2 in
  (fst (Web.disconnect s1) = Returned tt
   /\ fst (Web.disconnect d1) = Returned tt
   /\ Web.isConnected (self d1) = false
   /\ Web.pollTimer (self d1) = None
   /\ (forall t, Web.pollTimer (self s1) = Some t ->
         ~ In t (map timer_id (armed (world d1))))
   /\ Web.isConnected (self e1) = false
   /\ Web.pollTimer (self e1) = None
   /\ nextTimer (world e1) = nextTimer (world s1)
   /\ incl (armed (world e1)) (armed (world d1))
   /\ (Web_tracked s1 -> armed (world e1) = []))
  /\ (fst (WebEnv.disconnect s2) = Returned tt
      /\ fst (WebEnv.disconnect d2) = Returned tt
      /\ WebEnv.isConnected (self d2) = false
      /\ WebEnv.pollTimer (self d2) = None
      /\ (forall t, WebEnv.pollTimer (self s2) = Some t ->
            ~ In t (map timer_id (armed (world d2))))
      /\ WebEnv.isConnected (self e2) = false
      /\ WebEnv.pollTimer (self e2) = None
      /\ nextTimer (world e2) = nextTimer (world s2)
      /\ incl (armed (world e2)) (armed (world d2))
      /\ (WebEnv_tracked s2 -> armed (world e2) = [])).
Proof.
  intros C1 C2 d1 d2 e1 e2. split.
  - destruct (Web_disconnect_run s1) as (R & P & T & N & _ & A).
    destruct (Web_disconnect_run d1) as (R' & _).
    destruct (Web_performAll_stopped cs1 d1 C1 P) as (P' & T' & N' & A').
    fold d1 in P, T, N, A. fold e1 in P', T', N', A'.
    unfold Web.isConnected. repeat split; auto; try congruence.
    intros Tr. apply incl_l_nil. rewrite <- (Web_disconnect_tracked s1 Tr). exact A'.
  - destruct (WebEnv_disconnect_run s2) as (R & P & T & N & _ & A).
    destruct (WebEnv_disconnect_run d2) as (R' & _).
    destruct (WebEnv_performAll_stopped cs2 d2 C2 P) as (P' & T' & N' & A').
    fold d2 in P, T, N, A. fold e2 in P', T', N', A'.
    unfold WebEnv.isConnected. repeat split; auto; try congruence.
    intros Tr. apply incl_l_nil. rewrite <- (WebEnv_disconnect_tracked s2 Tr). exact A'.
Qed.

End Claim8.

(** C8 on adapters that connected, were disconnected, and then saw their
    first timer come due, a message sent and a cycle run to its end. *)
Lemma disconnect_stops_polling_witness :
  Forall (fun c => c <> Web.CConnect)
         [Web.CTimer 0; Web.CSendMessage "web:conv-abc" "hello"; Web.CCycle]
  /\ Forall (fun c => c <> WebEnv.CConnect)
            [WebEnv.CTimer 0; WebEnv.CSendMessage "web:conv-abc" "hello";
             WebEnv.CCycle; WebEnv.CPoll]
  /\ armed (world (snd (Web.connect (webAt emptyRegistry strayNetwork))))
     = [mkTimer 0 (Millis 2000)]
  /\ Web.isConnected
       (self (Web.performAll (hostOps := MockHost)
                [Web.CTimer 0; Web.CSendMessage "web:conv-abc" "hello"; Web.CCycle]
                (snd (Web.disconnect
                        (snd (Web.connect (webAt emptyRegistry strayNetwork)))))))
     = false.
Proof.
  assert (N1 : Forall (fun c => c <> Web.CConnect)
                 [Web.CTimer 0; Web.CSendMessage "web:conv-abc" "hello"; Web.CCycle])
    by (repeat constructor; discriminate).
  assert (N2 : Forall (fun c => c <> WebEnv.CConnect)
                 [WebEnv.CTimer 0; WebEnv.CSendMessage "web:conv-abc" "hello";
                  WebEnv.CCycle; WebEnv.CPoll])
    by (repeat constructor; discriminate).
  split; [exact N1|]. split; [exact N2|]. split; [reflexivity|].
  destruct (disconnect_stops_polling (hostOps := MockHost)
              (snd (Web.connect (webAt emptyRegistry strayNetwork))) _
              (snd (WebEnv.connect (envAt emptyRegistry strayNetwork))) _
              N1 N2) as [(_ & _ & _ & _ & _ & Hstopped & _) _].
  exact Hstopped.
Defined.

(** ** C9 *)

(** C9.  [ownsJid] of either adapter is a function of the jid alone, with
    no access to the adapter or the world; it is [true] exactly on the
    strings that start with [web:] and [false] on every other string. *)
Theorem ownsJid_iff_web_prefix (jid : string) :
  (Web.ownsJid jid = true <-> exists rest, jid = ("web:" ++ rest)%string)
  /\ (Web.ownsJid jid = false <-> ~ exists rest, jid = ("web:" ++ rest)%string)
  /\ (WebEnv.ownsJid jid = true <-> exists rest, jid = ("web:" ++ rest)%string)
  /\ (WebEnv.ownsJid jid = false <-> ~ exists rest, jid = ("web:" ++ rest)%string).
Proof.
  unfold Web.ownsJid, WebEnv.ownsJid.
  pose proof (startsWith_iff "web:" jid) as P.
  assert (N : startsWith "web:" jid = false
              <-> ~ exists rest, jid = ("web:" ++ rest)%string)
    by (rewrite <- Bool.not_true_iff_false, P; reflexivity).
  auto.
Qed.

(** The jids of the test-suite. *)
Example ownsJid_of_the_test_suite :
  Web.ownsJid "web:550e8400-e29b-41d4-a716-446655440000" = true
  /\ WebEnv.ownsJid "slack:C123456" = false
  /\ WebEnv.ownsJid "1234567890@g.us" = false
  /\ WebEnv.ownsJid "tg:12345" = false.
Proof. repeat split. Qed.

(** ** C10 *)

Section Claim10.
Context {H : Type}.

(** C10.  For a jid that does not start with [web:], [pushContainerStatus]
    and [pushWorkspaceSnapshot] of [Web] return at once and leave the
    adapter and the world as they were: no request, no log line, no error.
    [sendMessage] and [setTyping] do not look at the prefix: for the same
    jid each sends its POST, with the jid less its first four characters as
    conversation id. *)
Theorem foreign_jid_pushes_do_nothing
        (s : Sys Web.WebChannel H) (jid : string) (status : Web.ContainerStatus)
        (error : option string) (tree : list FileEntry) (text : string)
        (isTyping : bool) :
  Web.ownsJid jid = false ->
  Web.pushContainerStatus jid status error s = (Returned tt, s)
  /\ Web.pushWorkspaceSnapshot jid tree s = (Returned tt, s)
  /\ (exists evs,
        trace (world (snd (Web.sendMessage jid text s))) = trace (world s) ++ evs
        /\ requests evs
           = [Web.postRequest (self s) "/api/internal/deliver"
                (delivery (nextUUID s) (slice 4 jid) text (timeISO s))])
  /\ (exists evs,
        trace (world (snd (Web.setTyping jid isTyping s))) = trace (world s) ++ evs
        /\ requests evs
           = [Web.postRequest (self s) "/api/internal/typing"
                (JObj [("conversationId", JStr (slice 4 jid));
                       ("isTyping", JBool isTyping)])]).
Proof.
  intros Hforeign. unfold Web.ownsJid in Hforeign.
  unfold Web.pushContainerStatus, Web.pushWorkspaceSnapshot. rewrite Hforeign.
  cbn [negb]. split; [reflexivity|]. split; [reflexivity|]. split.
  - rewrite Web_sendMessage_run, Web_post_run. cbn [snd].
    eexists [EFetch _]. split; reflexivity.
  - unfold Web.setTyping, tryCatch. rewrite Web_post_run.
    destruct (Web.postOutcome _ _).
    + eexists [EFetch _]. split; reflexivity.
    + eexists [EFetch _; ELog Warn _]. cbn. rewrite <- app_assoc. split; reflexivity.
Qed.

End Claim10.

(** C10 on a Slack jid. *)
Lemma foreign_jid_pushes_do_nothing_witness :
  Web.ownsJid "slack:C123456" = false
  /\ Web.pushContainerStatus "slack:C123456" Web.Running None
       (webAt emptyRegistry downNetwork)
     = (Returned tt, webAt emptyRegistry downNetwork)
  /\ Web.pushWorkspaceSnapshot "slack:C123456" [Entry "notes.md" TFile None]
       (webAt emptyRegistry downNetwork)
     = (Returned tt, webAt emptyRegistry downNetwork).
Proof.
  split; [reflexivity|].
  destruct (foreign_jid_pushes_do_nothing (webAt emptyRegistry downNetwork)
              "slack:C123456" Web.Running None [Entry "notes.md" TFile None]
              "hello" true eq_refl) as (A & B & _).
  split; [exact A | exact B].
Defined.

(** * Further properties of the adapters *)

(** ** Connecting *)

Section Connect.
Context {H G : Type} {hostOps : Host H G}.

(** X1.  [connect] of either adapter returns normally in every state and
    leaves the adapter connected, with one more timer in the event loop, the
    one it now holds: after 2000 ms in [Web], after the configured interval
    in [WebEnv].  [Web] sends nothing and logs one line.  [WebEnv] first
    sends one GET to [/api/health], without body, and logs an info line when
    the answer is a 2xx that parses, a warning otherwise; it is connected
    either way.  The host and the configuration are as they were. *)
Theorem connect_starts_polling
        (s1 : Sys Web.WebChannel H) (s2 : Sys WebEnv.WebChannel H) :
  let c1 := snd (Web.connect s1) in
  let c2 := snd (WebEnv.connect s2) in
  let health := WebEnv.requestOf (self s2) GET "/api/health" None in
  (fst (Web.connect s1) = Returned tt
   /\ Web.isConnected (self c1) = true
   /\ Web.pollTimer (self c1) = Some (nextTimer (world s1))
   /\ armed (world c1)
      = armed (world s1) ++ [mkTimer (nextTimer (world s1)) (Millis 2000)]
   /\ trace (world c1)
      = trace (world s1) ++ [ELog Info "WebChannel started polling"]
   /\ host (world c1) = host (world s1)
   /\ Web.opts (self c1) = Web.opts (self s1))
  /\ (fst (WebEnv.connect s2) = Returned tt
      /\ WebEnv.isConnected (self c2) = true
      /\ WebEnv.pollTimer (self c2) = Some (nextTimer (world s2))
      /\ armed (world c2)
         = armed (world s2)
           ++ [mkTimer (nextTimer (world s2)) (WebEnv.pollIntervalMs (self s2))]
      /\ trace (world c2)
         = trace (world s2)
           ++ [EFetch health;
               if returned (WebEnv.requestOutcome GET "/api/health"
                              (nextAnswer s2 health))
               then ELog Info "WebChannel connected to claw-chat"
               else ELog Warn
                      "claw-chat not reachable at startup, will retry on next poll"]
      /\ host (world c2) = host (world s2)
      /\ WebEnv.baseUrl (self c2) = WebEnv.baseUrl (self s2)
      /\ WebEnv.secret (self c2) = WebEnv.secret (self s2)).
Proof.
  intros c1 c2 health. split.
  - subst c1. unfold Web.connect, bind, getSelf, setSelf.
    cbn -[Web.schedulePoll]. rewrite Web_schedulePoll_run. cbn.
    repeat split.
  - subst c2. unfold WebEnv.connect, bind, tryCatch.
    rewrite WebEnv_request_run. fold health.
    destruct (WebEnv.requestOutcome _ _ _) as [a|e]; cbn -[WebEnv.schedulePoll];
      rewrite WebEnv_schedulePoll_run; cbn; rewrite <- app_assoc; repeat split.
Qed.

End Connect.

(** ** Best-effort posts *)

Lemma postOutcome_returned path o :
  returned (Web.postOutcome path o) = negb (fetchFails o).
Proof.
  unfold Web.postOutcome, fetchFails. destruct o as [|r]; [reflexivity|].
  now destruct (ok r).
Qed.

Lemma postOutcome_fails path o :
  fetchFails o = true -> exists e, Web.postOutcome path o = Thrown e.
Proof.
  unfold Web.postOutcome, fetchFails. destruct o as [|r]; [eauto|].
  intros F. apply negb_true_iff in F. rewrite F. eauto.
Qed.

Section Caught.
Context {H : Type}.

(** A [post] of [Web] whose rejection is caught and logged. *)
Lemma Web_caught_post_run path body msg (s : Sys Web.WebChannel H) :
  tryCatch (Web.post path body) (fun _ => logger_warn msg) s
  = (Returned tt,
     if fetchFails (nextAnswer s (Web.postRequest (self s) path body))
     then observed (host (world s)) [ELog Warn msg]
                   (sent (Web.postRequest (self s) path body) s)
     else sent (Web.postRequest (self s) path body) s).
Proof.
  unfold tryCatch. rewrite Web_post_run.
  pose proof (postOutcome_returned path
                (nextAnswer s (Web.postRequest (self s) path body))) as R.
  destruct (Web.postOutcome _ _) as [[]|e]; cbn in R;
    destruct (fetchFails _); try discriminate; reflexivity.
Qed.

(** X2.  [setTyping] of either adapter returns normally for every jid and
    sends exactly one request: a POST to [/api/internal/typing] whose body
    holds the jid less its first four characters and the flag.  When the
    POST fails, by a network error or an answer outside 2xx, [Web] logs one
    warning and [WebEnv] logs nothing.  Nothing else changes: no callback,
    no timer, no change of the adapter. *)
Theorem setTyping_is_best_effort
        (jid : string) (isTyping : bool)
        (s1 : Sys Web.WebChannel H) (s2 : Sys WebEnv.WebChannel H) :
  let body := JObj [("conversationId", JStr (slice 4 jid));
                    ("isTyping", JBool isTyping)] in
  let req1 := Web.postRequest (self s1) "/api/internal/typing" body in
  let req2 := WebEnv.requestOf (self s2) POST "/api/internal/typing" (Some body) in
  Web.setTyping jid isTyping s1
  = (Returned tt,
     if fetchFails (nextAnswer s1 req1)
     then observed (host (world s1)) [ELog Warn "WebChannel: failed to set typing"]
                   (sent req1 s1)
     else sent req1 s1)
  /\ trace (world (snd (Web.setTyping jid isTyping s1)))
     = trace (world s1)
       ++ EFetch req1
          :: (if fetchFails (nextAnswer s1 req1)
              then [ELog Warn "WebChannel: failed to set typing"] else [])
  /\ WebEnv.setTyping jid isTyping s2 = (Returned tt, sent req2 s2)
  /\ trace (world (snd (WebEnv.setTyping jid isTyping s2)))
     = trace (world s2) ++ [EFetch req2].
Proof.
  intros body req1 req2.
  assert (E1 : Web.setTyping jid isTyping s1
               = (Returned tt,
                  if fetchFails (nextAnswer s1 req1)
                  then observed (host (world s1))
                         [ELog Warn "WebChannel: failed to set typing"] (sent req1 s1)
                  else sent req1 s1))
    by apply Web_caught_post_run.
  split; [exact E1|]. split.
  - rewrite E1. cbn [snd]. destruct (fetchFails _); cbn; [|reflexivity].
    now rewrite <- app_assoc.
  - rewrite WebEnv_setTyping_run. split; reflexivity.
Qed.

(** X3.  For a jid [web:X], [pushContainerStatus] and
    [pushWorkspaceSnapshot] of [Web] return normally and send exactly one
    POST each, to [/api/internal/container-status] and to
    [/api/internal/workspace-snapshot].  The status body holds [X] as
    [conversationId], the status as [running], [idle] or [error], an
    [error] field exactly when an error text is given and is not empty, and
    no other field; the snapshot body holds [X] and the tree.  A POST that fails leaves one
    warning in the log and nothing else. *)
Theorem pushes_post_once_for_an_owned_jid
        (X : string) (status : Web.ContainerStatus) (error : option string)
        (tree : list FileEntry) (s : Sys Web.WebChannel H) :
  let jid := ("web:" ++ X)%string in
  exists statusBody,
    let req1 := Web.postRequest (self s) "/api/internal/container-status" statusBody in
    let req2 := Web.postRequest (self s) "/api/internal/workspace-snapshot"
                  (JObj [("conversationId", JStr X);
                         ("tree", JArr (map fileEntryJson tree))]) in
    field "conversationId" statusBody = Some (JStr X)
    /\ field "status" statusBody = Some (JStr (Web.statusText status))
    /\ In (Web.statusText status) ["running"%string; "idle"%string; "error"%string]
    /\ field "error" statusBody
       = (if hasText error then option_map JStr error else None)
    /\ (exists fields,
          statusBody = JObj fields
          /\ List.length fields = if hasText error then 3%nat else 2%nat)
    /\ Web.pushContainerStatus jid status error s
       = (Returned tt,
          if fetchFails (nextAnswer s req1)
          then observed (host (world s))
                 [ELog Warn "WebChannel: failed to push container status"]
                 (sent req1 s)
          else sent req1 s)
    /\ Web.pushWorkspaceSnapshot jid tree s
       = (Returned tt,
          if fetchFails (nextAnswer s req2)
          then observed (host (world s))
                 [ELog Warn "WebChannel: failed to push workspace snapshot"]
                 (sent req2 s)
          else sent req2 s).
Proof.
  intros jid.
  assert (Hslice : slice 4 jid = X) by apply (slice_prefix "web:" X).
  assert (Hown : startsWith "web:" jid = true)
    by (apply startsWith_iff; now exists X).
  eexists. cbn zeta.
  split; [|split; [|split; [|split; [|split; [|split]]]]]; cycle 5.
  - unfold Web.pushContainerStatus. rewrite Hown, Hslice. cbn [negb].
    apply Web_caught_post_run.
  - unfold Web.pushWorkspaceSnapshot. rewrite Hown, Hslice. cbn [negb].
    apply Web_caught_post_run.
  - reflexivity.
  - reflexivity.
  - destruct status; cbn; auto.
  - destruct error as [[|c e]|]; reflexivity.
  - destruct error as [[|c e]|]; eexists; split; reflexivity.
Qed.

End Caught.

(** ** What the adapters leave in the trace *)

Lemma registeredJids_app (a b : list Event) :
  registeredJids (a ++ b) = registeredJids a ++ registeredJids b.
Proof.
  induction a as [|ev a IH]; [reflexivity|].
  destruct ev; cbn; now rewrite IH.
Qed.

Lemma web_jid_owned (x : string) : startsWith "web:" ("web:" ++ x)%string = true.
Proof. apply startsWith_iff. now exists x. Qed.

Lemma expected_requests base secret endpoints evs :
  Forall (expected base secret endpoints) evs ->
  Forall (addressed base secret endpoints) (requests evs).
Proof.
  induction 1 as [|ev evs Hev _ IH]; [constructor|].
  destruct ev; cbn; try assumption. now constructor.
Qed.

Lemma expected_callbacks base secret endpoints evs :
  Forall (expected base secret endpoints) evs ->
  forallb ownCallback (callbacks evs) = true.
Proof.
  induction 1 as [|ev evs Hev _ IH]; [reflexivity|].
  destruct ev; cbn in *; try assumption; now rewrite Hev.
Qed.

Ltac own_callback :=
  unfold Web_expected, WebEnv_expected, expected, ownCallback;
  rewrite ?web_jid_owned, ?String.eqb_refl; reflexivity.

Section WebExpected.
Context {H G : Type} {hostOps : Host H G}.
Implicit Types s : Sys Web.WebChannel H.
Import WebStates.

Lemma Web_get_addressed s path :
  In (GET, path) Web_endpoints -> Web_expected s (EFetch (Web.getRequest (self s) path)).
Proof.
  intros Hp. split; [now left|]. split; [|reflexivity]. now exists path.
Qed.

Lemma Web_post_addressed s path body :
  In (POST, path) Web_endpoints ->
  Web_expected s (EFetch (Web.postRequest (self s) path body)).
Proof.
  intros Hp. split; [right; now left|]. split; [|discriminate]. now exists path.
Qed.

Lemma Web_caught_post_expected s path body msg :
  In (POST, path) Web_endpoints ->
  exists evs,
    trace (world (snd (tryCatch (Web.post path body) (fun _ => logger_warn msg) s)))
    = trace (world s) ++ evs
    /\ Forall (Web_expected s) evs
    /\ Web.opts (self (snd (tryCatch (Web.post path body)
                                    (fun _ => logger_warn msg) s)))
       = Web.opts (self s).
Proof.
  intros Hp. rewrite Web_caught_post_run. cbn [snd].
  destruct (fetchFails _).
  - exists [EFetch (Web.postRequest (self s) path body); ELog Warn msg].
    cbn. rewrite <- app_assoc. repeat split.
    constructor; [now apply Web_post_addressed|]. constructor; [exact I|constructor].
  - exists [EFetch (Web.postRequest (self s) path body)]. repeat split.
    constructor; [now apply Web_post_addressed|constructor].
Qed.

Lemma Web_registrations_events regs :
  forall acc s, exists h evs,
    forOf Web.registrationStep regs acc s
    = (Returned (acc ++ map reg_conversationId regs), observed h evs s)
    /\ Forall (Web_expected s) evs.
Proof.
  induction regs as [|reg regs IH]; intros acc s.
  - exists (host (world s)), []. cbn. rewrite app_nil_r, observed_nothing. auto.
  - cbn [forOf map]. unfold bind. rewrite Web_registrationStep_run.
    destruct (known _ s).
    + destruct (IH (acc ++ [reg_conversationId reg]) s) as (h & evs & E & F).
      exists h, evs. rewrite E, <- app_assoc. auto.
    + destruct (IH (acc ++ [reg_conversationId reg]) (registering reg s))
        as (h & evs & E & F).
      unfold registering in *. rewrite observed_observed in E.
      eexists _, _. rewrite E, <- app_assoc. split; [reflexivity|].
      apply Forall_app. split; [|exact F].
      unfold registrationEvents.
      repeat (constructor; [own_callback|]). constructor.
Qed.

Lemma Web_messages_events msgs :
  forall acc s, exists h evs,
    forOf Web.messageStep msgs acc s
    = (Returned (acc ++ map msg_id msgs), observed h evs s)
    /\ Forall (Web_expected s) evs
    /\ registeredJids evs = [].
Proof.
  induction msgs as [|msg msgs IH]; intros acc s.
  - exists (host (world s)), []. cbn. rewrite app_nil_r, observed_nothing. auto.
  - cbn [forOf map]. unfold bind. rewrite Web_messageStep_run.
    destruct (IH (acc ++ [msg_id msg]) (forwarding msg s)) as (h & evs & E & F & R).
    unfold forwarding in *. rewrite observed_observed in E.
    eexists _, _. rewrite E, <- app_assoc. split; [reflexivity|].
    split; [constructor; [own_callback|exact F]|exact R].
Qed.

Lemma Web_acknowledged_events cids mids s :
  exists evs,
    trace (world (Web_acknowledged cids mids s)) = trace (world s) ++ evs
    /\ Forall (Web_expected s) evs
    /\ registeredJids evs = [].
Proof.
  unfold Web_acknowledged. destruct (nonEmpty cids || nonEmpty mids).
  - assert (A : Web_expected s (EFetch (ack s cids mids)))
      by (apply Web_post_addressed; right; now left).
    destruct (Web.postOutcome _ _).
    + exists [EFetch (ack s cids mids)]. split; [reflexivity|].
      split; [constructor; [exact A|constructor]|reflexivity].
    + exists [EFetch (ack s cids mids); ELog Warn "WebChannel: poll error"].
      cbn. rewrite <- app_assoc. split; [reflexivity|].
      split; [|reflexivity].
      constructor; [exact A|]. constructor; [exact I|constructor].
  - exists []. cbn. rewrite app_nil_r. split; [reflexivity|].
    split; [constructor|reflexivity].
Qed.

Lemma Web_afterRegistrations_self regs s : self (afterRegistrations regs s) = self s.
Proof.
  unfold afterRegistrations, fetchedState.
  destruct (Web_registrations_events regs [] (sent (pending s) s))
    as (h & evs & -> & _).
  reflexivity.
Qed.

Lemma Web_expected_same s s' : self s' = self s -> Web_expected s' = Web_expected s.
Proof. unfold Web_expected. now intros ->. Qed.

(** What follows the registration loop in a cycle of [Web]. *)
Lemma Web_poll_after_registrations s d :
  batchOf (nextAnswer s (pending s)) = Some d ->
  exists rest,
    trace (world (snd (Web.poll s)))
    = trace (world (afterRegistrations (orEmpty (registrations d)) s)) ++ rest
    /\ Forall (Web_expected s) rest
    /\ registeredJids rest = [].
Proof.
  intros E. rewrite (Web_poll_fetched s d E). cbn [snd].
  destruct (Web_messages_events (orEmpty (messages d)) []
              (afterRegistrations (orEmpty (registrations d)) s))
    as (h2 & e2 & E2 & F2 & R2).
  rewrite E2. cbn [snd app].
  set (sM := observed h2 e2 _).
  destruct (Web_acknowledged_events
              (map reg_conversationId (orEmpty (registrations d)))
              (map msg_id (orEmpty (messages d))) sM) as (e3 & E3 & F3 & R3).
  destruct (Web_schedulePoll_keeps
              (Web_acknowledged (map reg_conversationId (orEmpty (registrations d)))
                 (map msg_id (orEmpty (messages d))) sM)) as [-> _].
  rewrite E3. subst sM. cbn [trace world observed].
  pose proof (Web_afterRegistrations_self (orEmpty (registrations d)) s) as Hs.
  rewrite (Web_expected_same s _ Hs) in F2.
  rewrite (Web_expected_same s (observed h2 e2 _) Hs) in F3.
  exists (e2 ++ e3). split; [now rewrite <- app_assoc|]. split.
  - apply Forall_app. now split.
  - now rewrite registeredJids_app, R2, R3.
Qed.

Lemma Web_poll_keeps_opts s : Web.opts (self (snd (Web.poll s))) = Web.opts (self s).
Proof.
  destruct (Web_poll_timers s) as (s' & (Hs & _) & ->). cbn [snd].
  rewrite Web_schedulePoll_run. cbn [snd].
  destruct (Web.polling (self s')); cbn; now rewrite Hs.
Qed.

Lemma Web_poll_expected s :
  exists evs,
    trace (world (snd (Web.poll s))) = trace (world s) ++ evs
    /\ Forall (Web_expected s) evs
    /\ Web.opts (self (snd (Web.poll s))) = Web.opts (self s).
Proof.
  assert (P : Web_expected s (EFetch (pending s)))
    by (apply Web_get_addressed; now left).
  destruct (batchOf (nextAnswer s (pending s))) as [d|] eqn:E.
  - destruct (Web_poll_after_registrations s d E) as (rest & T & F & _).
    unfold afterRegistrations, fetchedState in T.
    destruct (Web_registrations_events (orEmpty (registrations d)) []
                (sent (pending s) s)) as (h1 & e1 & E1 & F1).
    rewrite E1 in T. cbn in T.
    exists ([EFetch (pending s)] ++ e1 ++ rest). split.
    + now rewrite T, <- !app_assoc.
    + split; [|apply Web_poll_keeps_opts].
      repeat (apply Forall_app; split); try assumption.
      constructor; [exact P|constructor].
  - destruct (getOutcome_no_batch "/api/internal/pending" _ E) as [e Ee].
    pose proof (Web_poll_keeps_opts s) as O.
    rewrite (Web_poll_failed s e Ee) in *. cbn [snd] in *.
    destruct (Web_schedulePoll_keeps
                (observed (host (world s)) [ELog Warn "WebChannel: poll error"]
                   (fetchedState s))) as [-> _].
    exists [EFetch (pending s); ELog Warn "WebChannel: poll error"]. split.
    + cbn. now rewrite <- app_assoc.
    + split; [|exact O]. constructor; [exact P|].
      constructor; [exact I|constructor].
Qed.

Lemma Web_perform_expected c s :
  exists evs,
    trace (world (snd (Web.perform c s))) = trace (world s) ++ evs
    /\ Forall (Web_expected s) evs
    /\ Web.opts (self (snd (Web.perform c s))) = Web.opts (self s).
Proof.
  destruct c as [| |jid text|jid b|jid st err|jid tree| |t]; cbn [Web.perform].
  - exists [ELog Info "WebChannel started polling"].
    unfold Web.connect, bind, getSelf, setSelf. cbn -[Web.schedulePoll].
    rewrite Web_schedulePoll_run. cbn. repeat split.
    constructor; [exact I|constructor].
  - exists []. unfold Web.disconnect, bind, getSelf, setSelf. cbn.
    destruct (Web.pollTimer (self s)); cbn;
      rewrite app_nil_r; repeat split; constructor.
  - rewrite Web_sendMessage_run, Web_post_run. cbn [snd].
    eexists [EFetch _]. repeat split. constructor; [|constructor].
    apply (Web_post_addressed (drew s)). do 2 right. now left.
  - apply (Web_caught_post_expected s). do 3 right. now left.
  - unfold Web.pushContainerStatus. destruct (negb _).
    + exists []. cbn. rewrite app_nil_r. repeat split. constructor.
    + apply Web_caught_post_expected. do 4 right. now left.
  - unfold Web.pushWorkspaceSnapshot. destruct (negb _).
    + exists []. cbn. rewrite app_nil_r. repeat split. constructor.
    + apply Web_caught_post_expected. do 5 right. now left.
  - apply Web_poll_expected.
  - unfold Web.fireTimer, bind, takeTimer, inWorld. cbn -[Web.timerCallback].
    destruct (existsb _ _).
    + unfold Web.timerCallback.
      match goal with
      | |- context [Web.poll ?x] => destruct (Web_poll_expected x) as (evs & T & A & O)
      end.
      exists evs. repeat split; assumption.
    + exists []. cbn. rewrite app_nil_r. repeat split. constructor.
Qed.

Lemma Web_performAll_expected cs :
  forall s, exists evs,
    trace (world (Web.performAll cs s)) = trace (world s) ++ evs
    /\ Forall (Web_expected s) evs
    /\ Web.opts (self (Web.performAll cs s)) = Web.opts (self s).
Proof.
  induction cs as [|c cs IH]; intros s.
  - exists []. cbn. rewrite app_nil_r. repeat split. constructor.
  - cbn [Web.performAll fold_left].
    destruct (Web_perform_expected c s) as (e1 & T1 & A1 & O1).
    destruct (IH (snd (Web.perform c s))) as (e2 & T2 & A2 & O2).
    exists (e1 ++ e2). unfold Web.performAll in *. rewrite T2, T1, O2, O1.
    split; [now rewrite app_assoc|]. split; [|reflexivity].
    apply Forall_app. split; [exact A1|].
    unfold Web_expected in *. now rewrite O1 in A2.
Qed.

End WebExpected.

Section WebEnvExpected.
Context {H G : Type} {hostOps : Host H G}.
Implicit Types s : Sys WebEnv.WebChannel H.
Import WebEnvStates.

Lemma WebEnv_request_addressed s m path body :
  In (m, path) WebEnv_endpoints -> (m = GET -> body = None) ->
  WebEnv_expected s (EFetch (WebEnv.requestOf (self s) m path body)).
Proof.
  intros Hp Hb. split; [right; now left|]. split; [|exact Hb]. now exists path.
Qed.

Lemma WebEnv_registrations_events g regs :
  forall acc s, exists h evs,
    forOf (WebEnv.registrationStep g) regs acc s
    = (Returned (acc ++ map reg_conversationId regs), observed h evs s)
    /\ Forall (WebEnv_expected s) evs.
Proof.
  induction regs as [|reg regs IH]; intros acc s.
  - exists (host (world s)), []. cbn. rewrite app_nil_r, observed_nothing. auto.
  - cbn [forOf map]. unfold bind. rewrite WebEnv_registrationStep_run.
    destruct (known g _ s).
    + destruct (IH (acc ++ [reg_conversationId reg]) s) as (h & evs & E & F).
      exists h, evs. rewrite E, <- app_assoc. auto.
    + destruct (IH (acc ++ [reg_conversationId reg]) (registering reg s))
        as (h & evs & E & F).
      unfold registering in *. rewrite observed_observed in E.
      eexists _, _. rewrite E, <- app_assoc. split; [reflexivity|].
      apply Forall_app. split; [|exact F].
      unfold registrationEvents.
      repeat (constructor; [own_callback|]). constructor.
Qed.

Lemma WebEnv_messages_events g msgs :
  forall acc s, exists h evs,
    forOf (WebEnv.messageStep g) msgs acc s
    = (Returned (acc ++ forwardedIds evs), observed h evs s)
    /\ Forall (WebEnv_expected s) evs
    /\ registeredJids evs = [].
Proof.
  induction msgs as [|msg msgs IH]; intros acc s.
  - exists (host (world s)), []. cbn. rewrite app_nil_r, observed_nothing. auto.
  - cbn [forOf map]. unfold bind. rewrite WebEnv_messageStep_run.
    destruct (known g _ s).
    + destruct (IH (acc ++ [msg_id msg]) (forwarding msg s)) as (h & evs & E & F & R).
      unfold forwarding in *. rewrite observed_observed in E.
      exists h, (forwardEvents msg ++ evs). rewrite E, <- app_assoc.
      split; [reflexivity|]. split.
      * apply Forall_app. split; [|exact F].
        unfold forwardEvents.
        repeat (constructor; [own_callback|]). constructor.
      * rewrite registeredJids_app, R. reflexivity.
    + destruct (IH acc (skipping s)) as (h & evs & E & F & R).
      unfold skipping in *. rewrite observed_observed in E.
      exists h, (skipEvents ++ evs). rewrite E. split; [reflexivity|]. split.
      * apply Forall_app. split; [|exact F]. constructor; [exact I|constructor].
      * rewrite registeredJids_app, R. reflexivity.
Qed.

Lemma WebEnv_acknowledged_events cids mids s :
  exists evs,
    trace (world (WebEnv_acknowledged cids mids s)) = trace (world s) ++ evs
    /\ Forall (WebEnv_expected s) evs
    /\ registeredJids evs = [].
Proof.
  unfold WebEnv_acknowledged. destruct (nonEmpty mids || nonEmpty cids).
  - assert (A : WebEnv_expected s (EFetch (ack s cids mids)))
      by (apply WebEnv_request_addressed; [do 2 right; now left|discriminate]).
    destruct (WebEnv.requestOutcome _ _ _).
    + exists [EFetch (ack s cids mids)]. split; [reflexivity|].
      split; [constructor; [exact A|constructor]|reflexivity].
    + eexists [EFetch (ack s cids mids); ELog Warn _].
      cbn. rewrite <- app_assoc. split; [reflexivity|]. split; [|reflexivity].
      constructor; [exact A|]. constructor; [exact I|constructor].
  - exists []. cbn. rewrite app_nil_r. split; [reflexivity|].
    split; [constructor|reflexivity].
Qed.

Lemma WebEnv_afterRegistrations_self regs s : self (afterRegistrations regs s) = self s.
Proof.
  unfold afterRegistrations, fetchedState.
  destruct (WebEnv_registrations_events (firstView s) regs [] (sent (pending s) s))
    as (h & evs & -> & _).
  reflexivity.
Qed.

Lemma WebEnv_expected_same s s' :
  self s' = self s -> WebEnv_expected s' = WebEnv_expected s.
Proof. unfold WebEnv_expected. now intros ->. Qed.

(** What follows the registration loop in a cycle of [WebEnv]. *)
Lemma WebEnv_poll_after_registrations s d :
  batchOf (nextAnswer s (pending s)) = Some d ->
  exists rest,
    trace (world (snd (WebEnv.poll s)))
    = trace (world (afterRegistrations (orEmpty (registrations d)) s)) ++ rest
    /\ Forall (WebEnv_expected s) rest
    /\ registeredJids rest = [].
Proof.
  intros E. destruct (WebEnv_poll_fetched s d E) as (h2 & e2 & E2 & _ & ->).
  cbn [snd].
  destruct (WebEnv_messages_events
              (secondView (orEmpty (registrations d)) s) (orEmpty (messages d)) []
              (afterRegistrations (orEmpty (registrations d)) s))
    as (h2' & e2' & E2' & F2 & R2).
  rewrite E2 in E2'. apply (f_equal snd) in E2'. cbn [snd] in E2'.
  apply (f_equal (fun x => trace (world x))) in E2'. cbn in E2'.
  apply app_inv_head in E2'. subst e2'.
  set (sM := observed h2 e2 _).
  destruct (WebEnv_acknowledged_events
              (map reg_conversationId (orEmpty (registrations d)))
              (forwardedIds e2) sM) as (e3 & E3 & F3 & R3).
  rewrite E3. subst sM. cbn [trace world observed].
  pose proof (WebEnv_afterRegistrations_self (orEmpty (registrations d)) s) as Hs.
  rewrite (WebEnv_expected_same s _ Hs) in F2.
  rewrite (WebEnv_expected_same s (observed h2 e2 _) Hs) in F3.
  exists (e2 ++ e3). split; [now rewrite <- app_assoc|]. split.
  - apply Forall_app. now split.
  - now rewrite registeredJids_app, R2, R3.
Qed.

Lemma WebEnv_poll_expected s :
  exists evs,
    trace (world (snd (WebEnv.poll s))) = trace (world s) ++ evs
    /\ Forall (WebEnv_expected s) evs
    /\ self (snd (WebEnv.poll s)) = self s.
Proof.
  assert (O : self (snd (WebEnv.poll s)) = self s) by apply WebEnv_poll_timers.
  assert (P : WebEnv_expected s (EFetch (pending s)))
    by (apply WebEnv_request_addressed; [right; now left|reflexivity]).
  destruct (batchOf (nextAnswer s (pending s))) as [d|] eqn:E.
  - destruct (WebEnv_poll_after_registrations s d E) as (rest & T & F & _).
    unfold afterRegistrations, fetchedState in T.
    destruct (WebEnv_registrations_events (firstView s) (orEmpty (registrations d)) []
                (sent (pending s) s)) as (h1 & e1 & E1 & F1).
    rewrite E1 in T. cbn in T.
    exists ([EFetch (pending s)] ++ e1 ++ rest). split.
    + now rewrite T, <- !app_assoc.
    + split; [|exact O]. repeat (apply Forall_app; split); try assumption.
      constructor; [exact P|constructor].
  - destruct (requestOutcome_no_batch "/api/internal/pending" _ E) as [En|[e Ee]].
    + rewrite (WebEnv_poll_null s En) in *. exists [EFetch (pending s)].
      split; [reflexivity|]. split; [|exact O]. constructor; [exact P|constructor].
    + rewrite (WebEnv_poll_failed s e Ee) in *.
      eexists [EFetch (pending s); ELog Warn _]. split.
      * cbn. now rewrite <- app_assoc.
      * split; [|exact O]. constructor; [exact P|].
        constructor; [exact I|constructor].
Qed.

(** The cycle that a timer starts: the poll, a warning if it rejected, and
    the next timer. *)
Lemma WebEnv_timerCallback_cycle s :
  WebEnv.timerCallback s
  = (Returned tt,
     snd (WebEnv.schedulePoll
            (if returned (fst (WebEnv.poll s)) then snd (WebEnv.poll s)
             else observed (host (world (snd (WebEnv.poll s))))
                           [ELog Warn "WebChannel poll error"]
                           (snd (WebEnv.poll s))))).
Proof.
  unfold WebEnv.timerCallback, finally_, tryCatch.
  destruct (WebEnv.poll s) as [[[]|e] s']; cbn -[WebEnv.schedulePoll];
    rewrite !WebEnv_schedulePoll_run; reflexivity.
Qed.

Lemma WebEnv_schedulePoll_same s :
  trace (world (snd (WebEnv.schedulePoll s))) = trace (world s)
  /\ WebEnv_sameConfig s (snd (WebEnv.schedulePoll s)).
Proof.
  rewrite WebEnv_schedulePoll_run. cbn [snd].
  destruct (WebEnv.connected (self s)); repeat split.
Qed.

Lemma WebEnv_timerCallback_expected s :
  exists evs,
    trace (world (snd (WebEnv.timerCallback s))) = trace (world s) ++ evs
    /\ Forall (WebEnv_expected s) evs
    /\ WebEnv_sameConfig s (snd (WebEnv.timerCallback s)).
Proof.
  rewrite WebEnv_timerCallback_cycle. cbn [snd].
  destruct (WebEnv_poll_expected s) as (evs & T & A & S).
  set (s' := if returned _ then _ else _).
  destruct (WebEnv_schedulePoll_same s') as (-> & C1 & C2 & C3).
  unfold WebEnv_sameConfig. rewrite C1, C2, C3. subst s'.
  destruct (returned _).
  - exists evs. rewrite S. repeat split; assumption.
  - exists (evs ++ [ELog Warn "WebChannel poll error"]). cbn. rewrite T, S.
    rewrite <- app_assoc. repeat split.
    apply Forall_app. split; [exact A|]. constructor; [exact I|constructor].
Qed.

Lemma WebEnv_perform_expected c s :
  exists evs,
    trace (world (snd (WebEnv.perform c s))) = trace (world s) ++ evs
    /\ Forall (WebEnv_expected s) evs
    /\ WebEnv_sameConfig s (snd (WebEnv.perform c s)).
Proof.
  destruct c as [| |jid text|jid b| | |t]; cbn [WebEnv.perform].
  - unfold WebEnv.connect, bind, tryCatch. rewrite WebEnv_request_run.
    assert (A : WebEnv_expected s
                  (EFetch (WebEnv.requestOf (self s) GET "/api/health" None)))
      by (apply WebEnv_request_addressed; [now left|reflexivity]).
    destruct (WebEnv.requestOutcome _ _ _) as [a|e]; cbn -[WebEnv.schedulePoll];
      rewrite WebEnv_schedulePoll_run; cbn; rewrite <- app_assoc;
      eexists [EFetch _; _].
    all: split; [reflexivity|]; split; [|repeat split].
    all: constructor; [exact A|]; constructor; [exact I|constructor].
  - exists [ELog Info "WebChannel disconnected"].
    unfold WebEnv.disconnect, bind, getSelf, setSelf. cbn.
    destruct (WebEnv.pollTimer (self s)); cbn;
      repeat split; (constructor; [exact I|constructor]).
  - rewrite WebEnv_sendMessage_run. cbn zeta. cbn [snd].
    cbn. rewrite <- app_assoc.
    assert (A : forall body,
               WebEnv_expected s
                 (EFetch (WebEnv.requestOf (self s) POST "/api/internal/deliver"
                            (Some body))))
      by (intros; apply WebEnv_request_addressed; [do 3 right; now left|discriminate]).
    destruct (WebEnv.requestOutcome _ _ _); eexists [EFetch _; _];
      (split; [reflexivity|]); (split; [|repeat split]);
      (constructor; [apply A|]; constructor; [exact I|constructor]).
  - rewrite WebEnv_setTyping_run. cbn [snd]. eexists [EFetch _].
    split; [reflexivity|]. split; [|repeat split].
    constructor; [|constructor].
    apply WebEnv_request_addressed; [do 4 right; now left|discriminate].
  - destruct (WebEnv_poll_expected s) as (evs & T & A & S). exists evs.
    unfold WebEnv_sameConfig. rewrite S. repeat split; assumption.
  - apply WebEnv_timerCallback_expected.
  - unfold WebEnv.fireTimer, bind, takeTimer, inWorld. cbn -[WebEnv.timerCallback].
    destruct (existsb _ _).
    + match goal with
      | |- context [WebEnv.timerCallback ?x] =>
          destruct (WebEnv_timerCallback_expected x) as (evs & T & A & O)
      end.
      exists evs. repeat split; try assumption; apply O.
    + exists []. cbn. rewrite app_nil_r. repeat split. constructor.
Qed.

Lemma WebEnv_performAll_expected cs :
  forall s, exists evs,
    trace (world (WebEnv.performAll cs s)) = trace (world s) ++ evs
    /\ Forall (WebEnv_expected s) evs
    /\ WebEnv_sameConfig s (WebEnv.performAll cs s).
Proof.
  induction cs as [|c cs IH]; intros s.
  - exists []. cbn. rewrite app_nil_r. repeat split. constructor.
  - cbn [WebEnv.performAll fold_left].
    destruct (WebEnv_perform_expected c s) as (e1 & T1 & A1 & C1 & C2 & C3).
    destruct (IH (snd (WebEnv.perform c s))) as (e2 & T2 & A2 & D1 & D2 & D3).
    exists (e1 ++ e2). unfold WebEnv.performAll, WebEnv_sameConfig in *.
    rewrite T2, T1, D1, D2, D3, C1, C2, C3.
    split; [now rewrite app_assoc|]. split; [|repeat split].
    apply Forall_app. split; [exact A1|].
    unfold WebEnv_expected in *. now rewrite C1, C2 in A2.
Qed.

End WebEnvExpected.

Section Traffic.
Context {H G : Type} {hostOps : Host H G}.

(** X4.  Whatever the host and the event loop do with an adapter (any
    sequence of [connect], [disconnect], [sendMessage], [setTyping], pushes,
    polls, due timers and cycles under way), the trace only grows, and every
    request in it goes to one of the adapter's endpoints under its base URL
    and carries its secret as bearer token; a GET carries no body.  The base
    URL and the secret never change. *)
Theorem every_request_is_authenticated
        (cs1 : list Web.Call) (s1 : Sys Web.WebChannel H)
        (cs2 : list WebEnv.Call) (s2 : Sys WebEnv.WebChannel H) :
  (exists evs,
     trace (world (Web.performAll cs1 s1)) = trace (world s1) ++ evs
     /\ Forall (addressed (Web.url (Web.opts (self s1)))
                          (Web.secret (Web.opts (self s1))) Web_endpoints)
               (requests evs)
     /\ Web.opts (self (Web.performAll cs1 s1)) = Web.opts (self s1))
  /\ (exists evs,
        trace (world (WebEnv.performAll cs2 s2)) = trace (world s2) ++ evs
        /\ Forall (addressed (WebEnv.baseUrl (self s2)) (WebEnv.secret (self s2))
                             WebEnv_endpoints)
                  (requests evs)
        /\ WebEnv.baseUrl (self (WebEnv.performAll cs2 s2)) = WebEnv.baseUrl (self s2)
        /\ WebEnv.secret (self (WebEnv.performAll cs2 s2)) = WebEnv.secret (self s2)).
Proof.
  split.
  - destruct (Web_performAll_expected cs1 s1) as (evs & T & F & O).
    exists evs. split; [exact T|]. split; [|exact O].
    now apply expected_requests.
  - destruct (WebEnv_performAll_expected cs2 s2) as (evs & T & F & C1 & C2 & _).
    exists evs. split; [exact T|]. split; [|now split].
    now apply expected_requests.
Qed.

(** X5.  Whatever the host and the event loop do with an adapter, every
    callback it invokes is for a jid that starts with [web:]: a group is
    registered with [requiresTrigger] false, chat metadata names the channel
    [web] and a chat that is not a group, and a message carries the jid it
    is handed over with as [chat_jid] and is not from the assistant. *)
Theorem every_callback_is_for_a_jid_of_the_channel
        (cs1 : list Web.Call) (s1 : Sys Web.WebChannel H)
        (cs2 : list WebEnv.Call) (s2 : Sys WebEnv.WebChannel H) :
  (exists evs,
     trace (world (Web.performAll cs1 s1)) = trace (world s1) ++ evs
     /\ forallb ownCallback (callbacks evs) = true)
  /\ (exists evs,
        trace (world (WebEnv.performAll cs2 s2)) = trace (world s2) ++ evs
        /\ forallb ownCallback (callbacks evs) = true).
Proof.
  split.
  - destruct (Web_performAll_expected cs1 s1) as (evs & T & F & _).
    exists evs. split; [exact T|]. eapply expected_callbacks, F.
  - destruct (WebEnv_performAll_expected cs2 s2) as (evs & T & F & _).
    exists evs. split; [exact T|]. eapply expected_callbacks, F.
Qed.

End Traffic.

(** ** The poll cycle *)

Lemma requestOutcome_empty path o :
  WebEnv.requestOutcome GET path o = Returned None <-> emptyAnswer o = true.
Proof.
  unfold WebEnv.requestOutcome, emptyAnswer. destruct o as [|r]; [split; discriminate|].
  destruct (ok r); [|split; discriminate].
  destruct (payload r); split; try discriminate; reflexivity.
Qed.

Section Cycle.
Context {H G : Type} {hostOps : Host H G}.

(** X6.  The cycle that a timer starts never raises in either adapter,
    whatever the network answers and also when [poll] of [WebEnv] rejects.
    While the adapter is connected the cycle ends by arming exactly one new
    timer, with 2000 ms in [Web] and the configured interval in [WebEnv],
    which the adapter then holds; when it is not connected, the event loop
    and the timer the adapter holds are as they were. *)
Theorem poll_cycle_arms_the_next_timer
        (s1 : Sys Web.WebChannel H) (s2 : Sys WebEnv.WebChannel H) :
  let e1 := snd (Web.timerCallback s1) in
  let e2 := snd (WebEnv.timerCallback s2) in
  (fst (Web.timerCallback s1) = Returned tt
   /\ Web.isConnected (self e1) = Web.isConnected (self s1)
   /\ armed (world e1)
      = armed (world s1)
        ++ (if Web.isConnected (self s1)
            then [mkTimer (nextTimer (world s1)) (Millis 2000)] else [])
   /\ Web.pollTimer (self e1)
      = (if Web.isConnected (self s1) then Some (nextTimer (world s1))
         else Web.pollTimer (self s1)))
  /\ (fst (WebEnv.timerCallback s2) = Returned tt
      /\ WebEnv.isConnected (self e2) = WebEnv.isConnected (self s2)
      /\ armed (world e2)
         = armed (world s2)
           ++ (if WebEnv.isConnected (self s2)
               then [mkTimer (nextTimer (world s2)) (WebEnv.pollIntervalMs (self s2))]
               else [])
      /\ WebEnv.pollTimer (self e2)
         = (if WebEnv.isConnected (self s2) then Some (nextTimer (world s2))
            else WebEnv.pollTimer (self s2))).
Proof.
  intros e1 e2. split.
  - subst e1. unfold Web.timerCallback, Web.isConnected.
    destruct (Web_poll_timers s1) as (s' & (Hs & Ha & Hn) & ->). cbn [fst snd].
    rewrite Web_schedulePoll_run. cbn [snd]. rewrite <- Hs, <- Ha, <- Hn.
    destruct (Web.polling (self s')) eqn:P; cbn; rewrite ?P, ?app_nil_r; repeat split.
  - subst e2. unfold WebEnv.isConnected.
    destruct (WebEnv_timerCallback_run s2) as (s' & (Hs & Ha & Hn) & ->). cbn [fst snd].
    rewrite WebEnv_schedulePoll_run. cbn [snd]. rewrite <- Hs, <- Ha, <- Hn.
    destruct (WebEnv.connected (self s')) eqn:P; cbn; rewrite ?P, ?app_nil_r; repeat split.
Qed.

(** X7.  On the answers to the fetch of the pending batch that are a
    network failure, a status outside 2xx, a 2xx text that is not JSON or a
    2xx batch of the declared type, [poll] of [WebEnv] returns normally, and
    so does the callback of the timer.  On a 2xx answer with an empty text,
    which [request] turns into [null], [poll] of [WebEnv] ends with a
    [TypeError] right after the request, with no callback and no
    acknowledgement; the callback of the timer catches that rejection, logs
    [WebChannel poll error] and goes on to schedule the next cycle.  [poll]
    of [Web] returns normally on all of these answers. *)
Theorem poll_rejects_on_an_empty_answer
        (s1 : Sys Web.WebChannel H) (s2 : Sys WebEnv.WebChannel H) :
  let answer2 := nextAnswer s2 (WebEnvStates.pending s2) in
  fst (Web.poll s1) = Returned tt
  /\ (emptyAnswer answer2 = true ->
      WebEnv.poll s2 = (Thrown TypeError, sent (WebEnvStates.pending s2) s2)
      /\ WebEnv.timerCallback s2
         = (Returned tt,
            snd (WebEnv.schedulePoll
                   (observed (host (world s2)) [ELog Warn "WebChannel poll error"]
                             (sent (WebEnvStates.pending s2) s2)))))
  /\ (fetchFails answer2 || unparsable answer2 || present (batchOf answer2) = true ->
      fst (WebEnv.poll s2) = Returned tt
      /\ WebEnv.timerCallback s2
         = (Returned tt, snd (WebEnv.schedulePoll (snd (WebEnv.poll s2))))).
Proof.
  intros answer2. split.
  { destruct (Web_poll_timers s1) as (s' & _ & ->). reflexivity. }
  split.
  - intros E. apply (requestOutcome_empty "/api/internal/pending") in E.
    assert (P := WebEnv_poll_null s2 E). split; [exact P|].
    rewrite WebEnv_timerCallback_cycle, P. reflexivity.
  - intros C.
    assert (P : fst (WebEnv.poll s2) = Returned tt).
    { destruct (batchOf answer2) as [d|] eqn:B.
      - destruct (WebEnv_poll_fetched s2 d B) as (h & evs & _ & _ & ->). reflexivity.
      - destruct (requestOutcome_no_batch "/api/internal/pending" _ B) as [N|[e Ee]].
        + apply requestOutcome_empty in N. fold answer2 in N.
          unfold fetchFails, unparsable, emptyAnswer in *.
          destruct answer2 as [|r]; [discriminate|].
          destruct (ok r); [|discriminate].
          destruct (payload r); discriminate.
        + now rewrite (WebEnv_poll_failed s2 e Ee). }
    split; [exact P|]. rewrite WebEnv_timerCallback_cycle.
    destruct (WebEnv.poll s2) as [[[]|e] s']; [reflexivity|discriminate].
Qed.

(** X8.  A 2xx answer to the fetch of the pending batch whose text is not
    JSON (in [Web] also one whose text is empty) is handled like a failed
    fetch: [poll] returns normally, logs one warning, invokes no callback
    and posts no acknowledgement. *)
Theorem garbled_answer_is_a_failed_poll
        (s1 : Sys Web.WebChannel H) (s2 : Sys WebEnv.WebChannel H) :
  (unparsable (nextAnswer s1 (WebStates.pending s1))
   || emptyAnswer (nextAnswer s1 (WebStates.pending s1))) = true ->
  unparsable (nextAnswer s2 (WebEnvStates.pending s2)) = true ->
  (fst (Web.poll s1) = Returned tt
   /\ trace (world (snd (Web.poll s1)))
      = trace (world s1)
        ++ [EFetch (WebStates.pending s1); ELog Warn "WebChannel: poll error"]
   /\ host (world (snd (Web.poll s1))) = host (world s1))
  /\ (fst (WebEnv.poll s2) = Returned tt
      /\ trace (world (snd (WebEnv.poll s2)))
         = trace (world s2)
           ++ [EFetch (WebEnvStates.pending s2);
               ELog Warn "WebChannel /pending poll failed, retrying next cycle"]
      /\ host (world (snd (WebEnv.poll s2))) = host (world s2)).
Proof.
  intros U1 U2. split.
  - assert (E : Web.getOutcome "/api/internal/pending"
                  (nextAnswer s1 (WebStates.pending s1)) = Thrown SyntaxError).
    { unfold Web.getOutcome, unparsable, emptyAnswer in *.
      destruct (nextAnswer s1 _) as [|r]; [discriminate|].
      destruct (ok r); [|discriminate]. now destruct (payload r). }
    rewrite (Web_poll_failed s1 _ E). cbn [fst snd].
    destruct (Web_schedulePoll_keeps
                (observed (host (world s1)) [ELog Warn "WebChannel: poll error"]
                   (WebStates.fetchedState s1))) as [-> ->].
    cbn. rewrite <- app_assoc. auto.
  - assert (E : WebEnv.requestOutcome GET "/api/internal/pending"
                  (nextAnswer s2 (WebEnvStates.pending s2)) = Thrown SyntaxError).
    { unfold WebEnv.requestOutcome, unparsable in *.
      destruct (nextAnswer s2 _) as [|r]; [discriminate|].
      destruct (ok r); [|discriminate]. now destruct (payload r). }
    rewrite (WebEnv_poll_failed s2 _ E). cbn. rewrite <- app_assoc. auto.
Qed.

End Cycle.

(** X8 when claw-chat answers 200 with no text to [Web] and with a text
    that is not JSON to [WebEnv]. *)
Lemma garbled_answer_is_a_failed_poll_witness :
  (unparsable (nextAnswer (webAt emptyRegistry silentNetwork)
                 (WebStates.pending (webAt emptyRegistry silentNetwork)))
   || emptyAnswer (nextAnswer (webAt emptyRegistry silentNetwork)
                     (WebStates.pending (webAt emptyRegistry silentNetwork)))) = true
  /\ unparsable (nextAnswer (envAt emptyRegistry garbledNetwork)
                   (WebEnvStates.pending (envAt emptyRegistry garbledNetwork))) = true
  /\ trace (world (snd (WebEnv.poll (hostOps := MockHost)
                          (envAt emptyRegistry garbledNetwork))))
     = [EFetch (WebEnvStates.pending (envAt emptyRegistry garbledNetwork));
        ELog Warn "WebChannel /pending poll failed, retrying next cycle"].
Proof.
  split; [reflexivity|]. split; [reflexivity|].
  destruct (garbled_answer_is_a_failed_poll (hostOps := MockHost)
              (webAt emptyRegistry silentNetwork) (envAt emptyRegistry garbledNetwork)
              eq_refl eq_refl) as [_ (_ & T & _)].
  exact T.
Defined.

(** ** Registrations *)

Section NewRegistration.
Context {H G : Type} {hostOps : Host H G}.




End NewRegistration.


(** The registry of the concrete hosts. *)
Lemma lookupGroup_storeGroup jid g r : lookupGroup jid (storeGroup jid g r) = Some g.
Proof.
  induction r as [|[k g'] r IH]; cbn.
  - now rewrite String.eqb_refl.
  - destruct (String.eqb jid k) eqn:E; cbn; rewrite E; [reflexivity|exact IH].
Qed.

Lemma lookupGroup_kept jid jid' g r :
  present (lookupGroup jid r) = true ->
  present (lookupGroup jid (storeGroup jid' g r)) = true.
Proof.
  induction r as [|[k g'] r IH]; cbn; [discriminate|].
  destruct (String.eqb jid' k) eqn:E'; cbn.
  - destruct (String.eqb jid k); auto.
  - destruct (String.eqb jid k); auto.
Qed.

Section SameBatch.
Context {H G : Type} {hostOps : Host H G}.
Implicit Types s : Sys WebEnv.WebChannel H.
Import WebEnvStates.

Hypothesis registered :
  forall jid g h, knownNow (registerGroup jid g h) jid = true.
Hypothesis kept_by_registerGroup :
  forall jid jid' g h,
    knownNow h jid = true -> knownNow (registerGroup jid' g h) jid = true.
Hypothesis kept_by_onChatMetadata :
  forall view jid jid' t n c b h,
    present (readGroup h view jid) = true ->
    present (readGroup (onChatMetadata jid' t n c b h) view jid) = true.
Hypothesis kept_by_onMessage :
  forall view jid jid' m h,
    present (readGroup h view jid) = true ->
    present (readGroup (onMessage jid' m h) view jid) = true.

Lemma WebEnv_registrations_keep g jid regs :
  forall acc s,
    knownNow (host (world s)) jid = true ->
    knownNow (host (world (snd (forOf (WebEnv.registrationStep g) regs acc s)))) jid
    = true.
Proof.
  induction regs as [|reg regs IH]; intros acc s K; [exact K|].
  cbn [forOf]. unfold bind. rewrite WebEnv_registrationStep_run.
  destruct (known g _ s); apply IH; [exact K|].
  unfold registering. cbn. now apply kept_by_registerGroup.
Qed.

Lemma WebEnv_messages_keep g view jid msgs :
  forall acc s,
    present (readGroup (host (world s)) view jid) = true ->
    present (readGroup (host (world (snd (forOf (WebEnv.messageStep g) msgs acc s))))
                       view jid) = true.
Proof.
  induction msgs as [|msg msgs IH]; intros acc s K; [exact K|].
  cbn [forOf]. unfold bind. rewrite WebEnv_messageStep_run.
  destruct (known g _ s); apply IH.
  - unfold forwarding. cbn. now apply kept_by_onMessage, kept_by_onChatMetadata.
  - exact K.
Qed.

(** X10.  [WebEnv.poll] runs the registrations of a batch before its
    messages and asks the host for its groups again in between.  With a host
    that shows a group once [registerGroup] was called for it, and whose
    callbacks remove no group, a message of a conversation that the same
    batch registers is therefore handed to [onChatMetadata] and [onMessage]
    in the same cycle. *)
Theorem message_of_a_conversation_registered_in_the_same_batch_is_forwarded
        s d preR r postR preM m postM :
  batchOf (nextAnswer s (pending s)) = Some d ->
  orEmpty (registrations d) = preR ++ r :: postR ->
  orEmpty (messages d) = preM ++ m :: postM ->
  msg_conversationId m = reg_conversationId r ->
  let regs := orEmpty (registrations d) in
  let jid := ("web:" ++ reg_conversationId r)%string in
  known (firstView s) jid (afterRegistrations preR s) = false ->
  exists rest,
    trace (world (snd (WebEnv.poll s)))
    = trace (world (afterMessages regs preM s))
      ++ [EChatMetadata jid (msg_createdAt m) None "web" false;
          EMessage jid (WebEnv.newMessage m)]
      ++ rest.
Proof.
  intros E HR HM Hc regs jid K.
  destruct (WebEnv_message_forwarded_iff_known s d preM m postM E HM)
    as (acked & rest & _ & _ & T).
  fold regs in T. rewrite Hc in T. fold jid in T.
  assert (Kv : known (secondView regs s) jid (afterMessages regs preM s) = true).
  { unfold known, afterMessages. apply WebEnv_messages_keep.
    unfold secondView. fold (knownNow (host (world (afterRegistrations regs s))) jid).
    unfold regs. rewrite HR. unfold afterRegistrations.
    rewrite forOf_app.
    destruct (WebEnv_registrations_run (firstView s) preR [] (fetchedState s))
      as (h1 & e1 & E1 & _).
    assert (Hb : afterRegistrations preR s = observed h1 e1 (fetchedState s))
      by (unfold afterRegistrations; now rewrite E1).
    rewrite E1. cbn [forOf]. unfold bind at 1.
    rewrite WebEnv_registrationStep_run. rewrite <- Hb. fold jid. rewrite K.
    apply WebEnv_registrations_keep. unfold registering. cbn. apply registered. }
  rewrite Kv in T. exists rest. rewrite T. unfold forwardEvents.
  rewrite Hc. reflexivity.
Qed.

End SameBatch.

(** X10 on the batch that announces [conv-abc] and carries its first
    message, with the host that stores into the object it hands out. *)
Lemma message_of_a_conversation_registered_in_the_same_batch_is_forwarded_witness :
  batchOf (nextAnswer (envAt emptyRegistry firstContactNetwork)
             (WebEnvStates.pending (envAt emptyRegistry firstContactNetwork)))
  = Some firstContactBatch
  /\ WebEnvStates.known (hostOps := LiveHost)
       (WebEnvStates.firstView (hostOps := LiveHost)
          (envAt emptyRegistry firstContactNetwork))
       "web:conv-abc"
       (WebEnvStates.afterRegistrations (hostOps := LiveHost) []
          (envAt emptyRegistry firstContactNetwork)) = false
  /\ exists rest,
       trace (world (snd (WebEnv.poll (hostOps := LiveHost)
                            (envAt emptyRegistry firstContactNetwork))))
       = trace (world (WebEnvStates.afterMessages (hostOps := LiveHost)
                         [mainRegistration] []
                         (envAt emptyRegistry firstContactNetwork)))
         ++ [EChatMetadata "web:conv-abc" "2026-02-27T10:00:01.000Z" None "web" false;
             EMessage "web:conv-abc" (WebEnv.newMessage mainMessage)]
         ++ rest.
Proof.
  split; [reflexivity|]. split; [reflexivity|].
  apply (message_of_a_conversation_registered_in_the_same_batch_is_forwarded
           (hostOps := LiveHost)
           (fun jid g h => f_equal present (lookupGroup_storeGroup jid g h))
           (fun jid jid' g h => lookupGroup_kept jid jid' g h)
           (fun view jid jid' t n c b h K => K)
           (fun view jid jid' m h K => K)
           (envAt emptyRegistry firstContactNetwork) firstContactBatch
           [] mainRegistration [] [] mainMessage []
           eq_refl eq_refl eq_refl eq_refl eq_refl).
Defined.

Section WebOnce.
Context {H G : Type} {hostOps : Host H G}.
Implicit Types s : Sys Web.WebChannel H.
Import WebStates.

Hypothesis registered :
  forall jid g h, knownNow (registerGroup jid g h) jid = true.
Hypothesis kept_by_registerGroup :
  forall jid jid' g h,
    knownNow h jid = true -> knownNow (registerGroup jid' g h) jid = true.
Hypothesis kept_by_onChatMetadata :
  forall jid jid' t n c b h,
    knownNow h jid = true -> knownNow (onChatMetadata jid' t n c b h) jid = true.

Lemma Web_registrations_once regs :
  forall acc s (J : list string),
    (forall j, In j J -> knownNow (host (world s)) j = true) ->
    exists h evs,
      forOf Web.registrationStep regs acc s
      = (Returned (acc ++ map reg_conversationId regs), observed h evs s)
      /\ NoDup (registeredJids evs)
      /\ (forall j, In j (registeredJids evs) -> ~ In j J).
Proof.
  induction regs as [|reg regs IH]; intros acc s J KJ.
  - exists (host (world s)), []. cbn. rewrite app_nil_r, observed_nothing.
    split; [reflexivity|]. split; [constructor|]. intros j [].
  - cbn [forOf map]. unfold bind. rewrite Web_registrationStep_run.
    destruct (known _ s) eqn:K.
    + destruct (IH (acc ++ [reg_conversationId reg]) s J KJ) as (h & evs & E & N & D).
      exists h, evs. rewrite E, <- app_assoc. auto.
    + set (jid := ("web:" ++ reg_conversationId reg)%string) in *.
      destruct (IH (acc ++ [reg_conversationId reg]) (registering reg s) (jid :: J))
        as (h & evs & E & N & D).
      { intros j [<-|Hj]; unfold registering; cbn; fold jid.
        - apply registered.
        - apply kept_by_registerGroup, kept_by_onChatMetadata, KJ, Hj. }
      unfold registering in *. rewrite observed_observed in E.
      eexists _, _. rewrite E, <- app_assoc. split; [reflexivity|].
      rewrite registeredJids_app. unfold registrationEvents. cbn. fold jid.
      split.
      * constructor; [|exact N]. intros Hin. apply (D jid Hin). now left.
      * intros j [<-|Hj] HJ.
        -- unfold known, knownNow in *. rewrite (KJ jid HJ) in K. discriminate.
        -- apply (D j Hj). now right.
Qed.

End WebOnce.

Section WebEnvOnce.
Context {H G : Type} {hostOps : Host H G}.
Implicit Types s : Sys WebEnv.WebChannel H.
Import WebEnvStates.

Hypothesis registered :
  forall jid g h, knownNow (registerGroup jid g h) jid = true.
Hypothesis kept_by_registerGroup :
  forall jid jid' g h,
    knownNow h jid = true -> knownNow (registerGroup jid' g h) jid = true.
Hypothesis live_view :
  forall h view jid, present (readGroup h view jid) = knownNow h jid.

Lemma WebEnv_registrations_once view regs :
  forall acc s (J : list string),
    (forall j, In j J -> knownNow (host (world s)) j = true) ->
    exists h evs,
      forOf (WebEnv.registrationStep view) regs acc s
      = (Returned (acc ++ map reg_conversationId regs), observed h evs s)
      /\ NoDup (registeredJids evs)
      /\ (forall j, In j (registeredJids evs) -> ~ In j J).
Proof.
  induction regs as [|reg regs IH]; intros acc s J KJ.
  - exists (host (world s)), []. cbn. rewrite app_nil_r, observed_nothing.
    split; [reflexivity|]. split; [constructor|]. intros j [].
  - cbn [forOf map]. unfold bind. rewrite WebEnv_registrationStep_run.
    destruct (known view _ s) eqn:K.
    + destruct (IH (acc ++ [reg_conversationId reg]) s J KJ) as (h & evs & E & N & D).
      exists h, evs. rewrite E, <- app_assoc. auto.
    + set (jid := ("web:" ++ reg_conversationId reg)%string) in *.
      destruct (IH (acc ++ [reg_conversationId reg]) (registering reg s) (jid :: J))
        as (h & evs & E & N & D).
      { intros j [<-|Hj]; unfold registering; cbn; fold jid.
        - apply registered.
        - apply kept_by_registerGroup, KJ, Hj. }
      unfold registering in *. rewrite observed_observed in E.
      eexists _, _. rewrite E, <- app_assoc. split; [reflexivity|].
      rewrite registeredJids_app. unfold registrationEvents. cbn. fold jid.
      split.
      * constructor; [|exact N]. intros Hin. apply (D jid Hin). now left.
      * intros j [<-|Hj] HJ.
        -- unfold known in K. rewrite live_view, (KJ jid HJ) in K. discriminate.
        -- apply (D j Hj). now right.
Qed.

End WebEnvOnce.

Section Once.
Context {H G : Type} {hostOps : Host H G}.

Hypothesis registered :
  forall jid g h, knownNow (registerGroup jid g h) jid = true.
Hypothesis kept_by_registerGroup :
  forall jid jid' g h,
    knownNow h jid = true -> knownNow (registerGroup jid' g h) jid = true.
Hypothesis kept_by_onChatMetadata :
  forall jid jid' t n c b h,
    knownNow h jid = true -> knownNow (onChatMetadata jid' t n c b h) jid = true.

(** X11.  With a host that shows a group once [registerGroup] was called
    for it and whose callbacks remove no group, a cycle of [Web] calls
    [registerGroup] at most once for a jid, also when the batch announces
    the conversation several times: [Web] asks the host for its groups at
    every registration.  [WebEnv] reads the object it obtained before the
    loop, so the same holds for it when that object shows what the host
    registers meanwhile, as the object of a host that stores into the object
    it hands out does. *)
Theorem no_conversation_is_registered_twice_in_a_cycle
        (s1 : Sys Web.WebChannel H) (s2 : Sys WebEnv.WebChannel H) :
  (exists evs,
     trace (world (snd (Web.poll s1))) = trace (world s1) ++ evs
     /\ NoDup (registeredJids evs))
  /\ ((forall h view jid, present (readGroup h view jid) = knownNow h jid) ->
      exists evs,
        trace (world (snd (WebEnv.poll s2))) = trace (world s2) ++ evs
        /\ NoDup (registeredJids evs)).
Proof.
  split.
  - destruct (batchOf (nextAnswer s1 (WebStates.pending s1))) as [d|] eqn:E.
    + destruct (Web_poll_after_registrations s1 d E) as (rest & T & _ & R).
      unfold WebStates.afterRegistrations, WebStates.fetchedState in T.
      destruct (Web_registrations_once registered kept_by_registerGroup
                  kept_by_onChatMetadata (orEmpty (registrations d)) []
                  (sent (WebStates.pending s1) s1) [])
        as (h & evs & L & N & _); [intros j []|].
      rewrite L in T. cbn in T.
      exists ([EFetch (WebStates.pending s1)] ++ evs ++ rest).
      split; [now rewrite T, <- !app_assoc|].
      rewrite !registeredJids_app, R, app_nil_r. exact N.
    + destruct (getOutcome_no_batch "/api/internal/pending" _ E) as [e Ee].
      rewrite (Web_poll_failed s1 e Ee). cbn [snd].
      destruct (Web_schedulePoll_keeps
                  (observed (host (world s1)) [ELog Warn "WebChannel: poll error"]
                     (WebStates.fetchedState s1))) as [-> _].
      exists [EFetch (WebStates.pending s1); ELog Warn "WebChannel: poll error"].
      split; [cbn; now rewrite <- app_assoc|constructor].
  - intros live_view.
    destruct (batchOf (nextAnswer s2 (WebEnvStates.pending s2))) as [d|] eqn:E.
    + destruct (WebEnv_poll_after_registrations s2 d E) as (rest & T & _ & R).
      unfold WebEnvStates.afterRegistrations, WebEnvStates.fetchedState in T.
      destruct (WebEnv_registrations_once registered kept_by_registerGroup live_view
                  (WebEnvStates.firstView s2) (orEmpty (registrations d)) []
                  (sent (WebEnvStates.pending s2) s2) [])
        as (h & evs & L & N & _); [intros j []|].
      rewrite L in T. cbn in T.
      exists ([EFetch (WebEnvStates.pending s2)] ++ evs ++ rest).
      split; [now rewrite T, <- !app_assoc|].
      rewrite !registeredJids_app, R, app_nil_r. exact N.
    + destruct (requestOutcome_no_batch "/api/internal/pending" _ E) as [En|[e Ee]].
      * rewrite (WebEnv_poll_null s2 En). exists [EFetch (WebEnvStates.pending s2)].
        split; [reflexivity|constructor].
      * rewrite (WebEnv_poll_failed s2 e Ee).
        eexists [EFetch (WebEnvStates.pending s2); ELog Warn _].
        split; [cbn; now rewrite <- app_assoc|constructor].
Qed.

End Once.

(** X11 on a batch that announces [conv-abc] twice: [Web] registers it
    once; [WebEnv] registers it twice with a host that hands out copies of
    its groups. *)
Lemma no_conversation_is_registered_twice_in_a_cycle_witness :
  registeredJids
    (trace (world (snd (Web.poll (hostOps := LiveHost)
                          (webAt emptyRegistry twiceNetwork)))))
  = ["web:conv-abc"%string]
  /\ registeredJids
       (trace (world (snd (WebEnv.poll (hostOps := CopyingHost)
                             (envAt emptyRegistry twiceNetwork)))))
     = ["web:conv-abc"%string; "web:conv-abc"%string]
  /\ exists evs,
       trace (world (snd (Web.poll (hostOps := LiveHost)
                            (webAt emptyRegistry twiceNetwork))))
       = trace (world (webAt emptyRegistry twiceNetwork)) ++ evs
       /\ NoDup (registeredJids evs).
Proof.
  split; [reflexivity|]. split; [reflexivity|].
  destruct (no_conversation_is_registered_twice_in_a_cycle (hostOps := LiveHost)
              (fun jid g h => f_equal present (lookupGroup_storeGroup jid g h))
              (fun jid jid' g h => lookupGroup_kept jid jid' g h)
              (fun jid jid' t n c b h K => K)
              (webAt emptyRegistry twiceNetwork) (envAt emptyRegistry twiceNetwork))
    as [W _].
  exact W.
Defined.

(** ** The acknowledgement *)

Section LostAck.
Context {H G : Type} {hostOps : Host H G}.

(** X12.  When the POST to the ack endpoint fails, by a network error or an
    answer outside 2xx, [poll] of either adapter still returns normally: it
    logs one warning after the request and nothing else happens.  The
    callbacks of the cycle have been made and the host keeps their effect,
    so that claw-chat hands out the same items again. *)
Theorem failed_acknowledgement_is_logged_not_raised
        (s1 : Sys Web.WebChannel H) (d1 : PendingResponse)
        (s2 : Sys WebEnv.WebChannel H) (d2 : PendingResponse) :
  batchOf (nextAnswer s1 (WebStates.pending s1)) = Some d1 ->
  batchOf (nextAnswer s2 (WebEnvStates.pending s2)) = Some d2 ->
  let regs1 := orEmpty (registrations d1) in
  let msgs1 := orEmpty (messages d1) in
  let regs2 := orEmpty (registrations d2) in
  let msgs2 := orEmpty (messages d2) in
  let b1 := WebStates.afterMessages regs1 msgs1 s1 in
  let b2 := WebEnvStates.afterMessages regs2 msgs2 s2 in
  let ack1 := WebStates.ack s1 (map reg_conversationId regs1) (map msg_id msgs1) in
  let ack2 := WebEnvStates.ack s2 (map reg_conversationId regs2)
                (WebEnv_ackedMessageIds regs2 msgs2 s2) in
  nonEmpty regs1 || nonEmpty msgs1 = true ->
  nonEmpty (WebEnv_ackedMessageIds regs2 msgs2 s2) || nonEmpty regs2 = true ->
  fetchFails (nextAnswer b1 ack1) = true ->
  fetchFails (nextAnswer b2 ack2) = true ->
  (fst (Web.poll s1) = Returned tt
   /\ trace (world (snd (Web.poll s1)))
      = trace (world b1) ++ [EFetch ack1; ELog Warn "WebChannel: poll error"]
   /\ host (world (snd (Web.poll s1))) = host (world b1))
  /\ (fst (WebEnv.poll s2) = Returned tt
      /\ trace (world (snd (WebEnv.poll s2)))
         = trace (world b2)
           ++ [EFetch ack2;
               ELog Warn
                 "WebChannel ack failed — items may be redelivered on next poll"]
      /\ host (world (snd (WebEnv.poll s2))) = host (world b2)).
Proof.
  intros E1 E2 regs1 msgs1 regs2 msgs2 b1 b2 ack1 ack2 N1 N2 F1 F2. split.
  - rewrite (Web_poll_fetched s1 d1 E1). cbn [fst snd]. fold regs1 msgs1.
    change (snd (forOf Web.messageStep msgs1 [] (WebStates.afterRegistrations regs1 s1)))
      with b1.
    assert (Hself : self b1 = self s1).
    { unfold b1, WebStates.afterMessages, WebStates.afterRegistrations,
        WebStates.fetchedState.
      destruct (Web_registrations_run regs1 [] (sent (WebStates.pending s1) s1))
        as (h & evs & -> & _). cbn [snd].
      destruct (Web_messages_run msgs1 []
                  (observed h evs (sent (WebStates.pending s1) s1)))
        as (h' & evs' & -> & _). reflexivity. }
    set (a := Web_acknowledged _ _ b1).
    destruct (Web_schedulePoll_keeps a) as [-> ->]. subst a.
    unfold Web_acknowledged.
    assert (N : nonEmpty (map reg_conversationId regs1) || nonEmpty (map msg_id msgs1)
                = true)
      by (destruct regs1, msgs1; cbn in *; congruence).
    rewrite N.
    assert (A : WebStates.ack b1 (map reg_conversationId regs1) (map msg_id msgs1) = ack1)
      by (unfold ack1, WebStates.ack; now rewrite Hself).
    rewrite A. destruct (postOutcome_fails "/api/internal/ack" _ F1) as [e ->].
    cbn. rewrite <- app_assoc. auto.
  - destruct (WebEnv_poll_fetched s2 d2 E2) as (h & evs & L & _ & ->).
    fold regs2 msgs2 in L. cbn [fst snd]. fold regs2.
    assert (Hb : b2 = observed h evs (WebEnvStates.afterRegistrations regs2 s2))
      by (unfold b2, WebEnvStates.afterMessages; now rewrite L).
    assert (Hm : WebEnv_ackedMessageIds regs2 msgs2 s2 = forwardedIds evs)
      by (unfold WebEnv_ackedMessageIds; now rewrite L).
    rewrite <- Hb. rewrite Hm in *.
    assert (Hself : self b2 = self s2).
    { rewrite Hb. unfold WebEnvStates.afterRegistrations, WebEnvStates.fetchedState.
      destruct (WebEnv_registrations_run (WebEnvStates.firstView s2) regs2 []
                  (sent (WebEnvStates.pending s2) s2)) as (h' & evs' & -> & _).
      reflexivity. }
    unfold WebEnv_acknowledged.
    assert (N : nonEmpty (forwardedIds evs) || nonEmpty (map reg_conversationId regs2)
                = true)
      by (destruct (forwardedIds evs), regs2; cbn in *; congruence).
    rewrite N.
    assert (A : WebEnvStates.ack b2 (map reg_conversationId regs2) (forwardedIds evs)
                = ack2)
      by (unfold ack2, WebEnvStates.ack; now rewrite Hself, Hm).
    rewrite A.
    destruct (requestOutcome_fails POST "/api/internal/ack" _ F2) as [e ->].
    cbn. rewrite <- app_assoc. auto.
Qed.

End LostAck.

(** X12 when claw-chat answers 500 to the acknowledgement of a first
    contact. *)
Lemma failed_acknowledgement_is_logged_not_raised_witness :
  fetchFails (nextAnswer
                (WebStates.afterMessages (hostOps := LiveHost)
                   [mainRegistration] [mainMessage]
                   (webAt emptyRegistry lostAckNetwork))
                (WebStates.ack (webAt emptyRegistry lostAckNetwork)
                   ["conv-abc"%string] ["msg-2"%string])) = true
  /\ WebEnv_ackedMessageIds (hostOps := LiveHost) [mainRegistration] [mainMessage]
       (envAt emptyRegistry lostAckNetwork) = ["msg-2"%string]
  /\ fst (WebEnv.poll (hostOps := LiveHost) (envAt emptyRegistry lostAckNetwork))
     = Returned tt
  /\ callbacks (trace (world (snd (WebEnv.poll (hostOps := LiveHost)
                                     (envAt emptyRegistry lostAckNetwork)))))
     = callbacks (trace (world (WebEnvStates.afterMessages (hostOps := LiveHost)
                                  [mainRegistration] [mainMessage]
                                  (envAt emptyRegistry lostAckNetwork)))).
Proof.
  split; [reflexivity|]. split; [reflexivity|].
  destruct (failed_acknowledgement_is_logged_not_raised (hostOps := LiveHost)
              (webAt emptyRegistry lostAckNetwork) firstContactBatch
              (envAt emptyRegistry lostAckNetwork) firstContactBatch
              eq_refl eq_refl eq_refl eq_refl eq_refl eq_refl) as [_ (R & T & _)].
  split; [exact R|]. rewrite T. reflexivity.
Defined.

(** ** One poll loop *)

Section OneLoop.
Context {H G : Type} {hostOps : Host H G}.

(** X13.  An adapter that starts with no timer pending and no cycle under
    way, and on which [connect] is called only while no timer is pending
    and no cycle is under way, never has two poll loops.  After any such
    run of calls, timers that come due and cycles that end, at most one
    timer is pending or one cycle is under way, never both; a pending timer
    is the one the adapter holds; [disconnect] leaves no timer, and a cycle
    still under way then ends without arming one.  ([connect] of [WebEnv]
    is taken to have run to its end before the next moment.) *)
Theorem one_poll_loop_at_a_time
        (ms1 : list Web_Moment) (s1 : Sys Web.WebChannel H)
        (ms2 : list WebEnv_Moment) (s2 : Sys WebEnv.WebChannel H) :
  armed (world s1) = [] -> Web_disciplined ms1 (0%nat, s1) ->
  armed (world s2) = [] -> WebEnv_disciplined ms2 (0%nat, s2) ->
  let n1 := fst (Web_moments ms1 (0%nat, s1)) in
  let e1 := snd (Web_moments ms1 (0%nat, s1)) in
  let n2 := fst (WebEnv_moments ms2 (0%nat, s2)) in
  let e2 := snd (WebEnv_moments ms2 (0%nat, s2)) in
  ((n1 + List.length (armed (world e1)) <= 1)%nat
   /\ (forall x, In x (armed (world e1)) -> Web.pollTimer (self e1) = Some (timer_id x))
   /\ armed (world (snd (Web.disconnect e1))) = []
   /\ armed (world (snd (Web.timerCallback (snd (Web.disconnect e1))))) = [])
  /\ ((n2 + List.length (armed (world e2)) <= 1)%nat
      /\ (forall x, In x (armed (world e2)) ->
                    WebEnv.pollTimer (self e2) = Some (timer_id x))
      /\ armed (world (snd (WebEnv.disconnect e2))) = []
      /\ armed (world (snd (WebEnv.timerCallback (snd (WebEnv.disconnect e2))))) = []).
Proof.
  intros A1 D1 A2 D2 n1 e1 n2 e2. split.
  - assert (J : Web_oneLoop (Web_moments ms1 (0%nat, s1))).
    { apply Web_moments_oneLoop; [|exact D1]. left. split; [reflexivity|now left]. }
    assert (D : armed (world (snd (Web.disconnect e1))) = [])
      by (apply Web_disconnect_tracked; now apply (Web_oneLoop_tracked _ J)).
    split; [now apply (Web_oneLoop_count _ J)|].
    split; [now apply (Web_oneLoop_tracked _ J)|].
    split; [exact D|].
    destruct (Web_disconnect_run e1) as (_ & P & _).
    unfold Web.timerCallback.
    destruct (Web_poll_stopped _ P) as (_ & _ & -> & _). exact D.
  - assert (J : WebEnv_oneLoop (WebEnv_moments ms2 (0%nat, s2))).
    { apply WebEnv_moments_oneLoop; [|exact D2]. left. split; [reflexivity|now left]. }
    assert (D : armed (world (snd (WebEnv.disconnect e2))) = [])
      by (apply WebEnv_disconnect_tracked; now apply (WebEnv_oneLoop_tracked _ J)).
    split; [now apply (WebEnv_oneLoop_count _ J)|].
    split; [now apply (WebEnv_oneLoop_tracked _ J)|].
    split; [exact D|].
    destruct (WebEnv_disconnect_run e2) as (_ & P & _).
    destruct (WebEnv_timerCallback_run (snd (WebEnv.disconnect e2)))
      as (s' & (Es & Ea & En) & ->).
    cbn [snd]. rewrite WebEnv_schedulePoll_run. cbn [snd]. rewrite Es, P. cbn.
    now rewrite Ea.
Qed.

End OneLoop.

(** X13 on an adapter that is connected, sees its timer come due, is
    disconnected while the cycle is under way, and is connected again once
    the cycle has ended. *)
Lemma one_poll_loop_at_a_time_witness :
  Web_disciplined (hostOps := MockHost)
    [WNow Web.CConnect; WDue 0; WNow (Web.CSendMessage "web:conv-abc" "hello");
     WNow Web.CDisconnect; WNow Web.CCycle; WNow Web.CConnect; WDue 1;
     WNow Web.CCycle]
    (0%nat, webAt emptyRegistry strayNetwork)
  /\ WebEnv_disciplined (hostOps := MockHost)
       [ENow WebEnv.CConnect; EDue 0; ENow WebEnv.CPoll; ENow WebEnv.CDisconnect;
        ENow WebEnv.CCycle; ENow WebEnv.CConnect; EDue 1; ENow WebEnv.CCycle]
       (0%nat, envAt emptyRegistry strayNetwork)
  /\ armed (world (snd (Web_moments (hostOps := MockHost)
                          [WNow Web.CConnect; WDue 0;
                           WNow (Web.CSendMessage "web:conv-abc" "hello");
                           WNow Web.CDisconnect; WNow Web.CCycle;
                           WNow Web.CConnect; WDue 1; WNow Web.CCycle]
                          (0%nat, webAt emptyRegistry strayNetwork))))
     = [mkTimer 2 (Millis 2000)]
  /\ armed (world (snd (Web.disconnect
                          (snd (Web_moments (hostOps := MockHost)
                                  [WNow Web.CConnect; WDue 0;
                                   WNow (Web.CSendMessage "web:conv-abc" "hello");
                                   WNow Web.CDisconnect; WNow Web.CCycle;
                                   WNow Web.CConnect; WDue 1; WNow Web.CCycle]
                                  (0%nat, webAt emptyRegistry strayNetwork))))))
     = [].
Proof.
  assert (O1 : Web_disciplined (hostOps := MockHost)
                 [WNow Web.CConnect; WDue 0;
                  WNow (Web.CSendMessage "web:conv-abc" "hello");
                  WNow Web.CDisconnect; WNow Web.CCycle; WNow Web.CConnect; WDue 1;
                  WNow Web.CCycle]
                 (0%nat, webAt emptyRegistry strayNetwork))
    by (cbn; repeat split; discriminate).
  assert (O2 : WebEnv_disciplined (hostOps := MockHost)
                 [ENow WebEnv.CConnect; EDue 0; ENow WebEnv.CPoll;
                  ENow WebEnv.CDisconnect; ENow WebEnv.CCycle; ENow WebEnv.CConnect;
                  EDue 1; ENow WebEnv.CCycle]
                 (0%nat, envAt emptyRegistry strayNetwork))
    by (cbn; repeat split; discriminate).
  split; [exact O1|]. split; [exact O2|]. split; [reflexivity|].
  destruct (one_poll_loop_at_a_time (hostOps := MockHost)
              _ (webAt emptyRegistry strayNetwork)
              _ (envAt emptyRegistry strayNetwork)
              eq_refl O1 eq_refl O2) as [(_ & _ & D & _) _].
  exact D.
Defined.

(** ** The configuration of [WebEnv] *)

Section Configuration.

Lemma stripTrailingSlash_slash (u : string) : stripTrailingSlash (u ++ "/")%string = u.
Proof.
  induction u as [|c u IH]; [reflexivity|].
  cbn [append stripTrailingSlash]. rewrite IH.
  destruct u; reflexivity.
Qed.

Lemma stripTrailingSlash_none (u : string) :
  endsWithSlash u = false -> stripTrailingSlash u = u.
Proof.
  induction u as [|c u IH]; [reflexivity|].
  cbn [endsWithSlash stripTrailingSlash]. destruct u as [|c' u].
  - now intros ->.
  - intros E. now rewrite (IH E).
Qed.

Lemma truthy_slash (u : string) : truthy (u ++ "/")%string = true.
Proof. destruct u; reflexivity. Qed.

(** X14.  The constructor of [WebEnv] drops one trailing slash of the
    configured URL: for a URL [u] that is not empty and does not end with a
    slash, configuring [u/] gives the same adapter, or the same error, as
    configuring [u], and every request of that adapter goes to [u] followed
    by the path. *)
Theorem WebEnv_base_url_ignores_one_trailing_slash
        (u : string) (sec int : option string) (processEnv : WebEnv.Env) :
  truthy u = true ->
  endsWithSlash u = false ->
  WebEnv.constructor (WebEnv.mkEnv (Some (u ++ "/")%string) sec int) processEnv
  = WebEnv.constructor (WebEnv.mkEnv (Some u) sec int) processEnv
  /\ forall ch,
       WebEnv.constructor (WebEnv.mkEnv (Some u) sec int) processEnv = Returned ch ->
       WebEnv.baseUrl ch = u
       /\ forall m path body,
            req_url (WebEnv.requestOf ch m path body) = (u ++ path)%string.
Proof.
  intros Tu Eu. unfold WebEnv.constructor. cbn [WebEnv.WEBUI_URL orElse].
  rewrite truthy_slash, Tu, stripTrailingSlash_slash, (stripTrailingSlash_none u Eu).
  split; [reflexivity|]. intros ch.
  destruct (negb _); [discriminate|]. intros [= <-]. split; reflexivity.
Qed.

(** [a || b || d] is the value the three sources resolve to, and the only
    one. *)
Lemma orElse_resolves (a b : option string) (d : string) :
  resolvesTo a b d (orElse a (orElse b d)).
Proof.
  unfold resolvesTo, orElse, hasText.
  destruct a as [x|]; [destruct (truthy x) eqn:Tx|];
    (destruct b as [y|]; [destruct (truthy y) eqn:Ty|]);
    repeat split; intros; congruence.
Qed.

Lemma resolvesTo_unique (a b : option string) (d v v' : string) :
  resolvesTo a b d v -> resolvesTo a b d v' -> v = v'.
Proof.
  intros (A1 & A2 & A3) (B1 & B2 & B3).
  destruct (hasText a) eqn:Ha.
  - specialize (A1 eq_refl). specialize (B1 eq_refl). congruence.
  - destruct (hasText b) eqn:Hb.
    + specialize (A2 eq_refl eq_refl). specialize (B2 eq_refl eq_refl). congruence.
    + rewrite (A3 eq_refl eq_refl), (B3 eq_refl eq_refl). reflexivity.
Qed.

(** X15.  The constructor of [WebEnv] resolves each of its three settings
    on its own: from [.env] when it holds a non-empty value, otherwise from
    [process.env] when that holds a non-empty value, otherwise from the
    default ([http://localhost:3000], the empty secret, [2000]).  With [u],
    [k] and [i] the values so resolved, it throws the configuration error
    when [k] is empty, and otherwise returns an adapter whose base URL is
    [u] without one trailing slash, whose secret is [k] and whose interval
    is [parseInt(i, 10)], disconnected and holding no timer. *)
Theorem WebEnv_configuration_precedence
        (env processEnv : WebEnv.Env) (u k i : string) :
  resolvesTo (WebEnv.WEBUI_URL env) (WebEnv.WEBUI_URL processEnv)
             "http://localhost:3000" u ->
  resolvesTo (WebEnv.WEBUI_INTERNAL_SECRET env)
             (WebEnv.WEBUI_INTERNAL_SECRET processEnv) "" k ->
  resolvesTo (WebEnv.WEBUI_POLL_INTERVAL_MS env)
             (WebEnv.WEBUI_POLL_INTERVAL_MS processEnv) "2000" i ->
  WebEnv.constructor env processEnv
  = (if truthy k
     then Returned (WebEnv.mkWebChannel false None (stripTrailingSlash u) k
                                        (ParseInt10 i))
     else Thrown (ConfigError "WEBUI_INTERNAL_SECRET must be set in .env")).
Proof.
  intros Ru Rk Ri. unfold WebEnv.constructor.
  rewrite (resolvesTo_unique _ _ _ _ _ Ru (orElse_resolves _ _ _)).
  rewrite (resolvesTo_unique _ _ _ _ _ Rk (orElse_resolves _ _ _)).
  rewrite (resolvesTo_unique _ _ _ _ _ Ri (orElse_resolves _ _ _)).
  destruct (truthy _); reflexivity.
Qed.

End Configuration.

(** X15 where [.env] holds an empty URL and a secret, and [process.env] a
    URL and another secret: the URL is that of [process.env], the secret
    that of [.env], the interval the default. *)
Lemma WebEnv_configuration_precedence_witness :
  resolvesTo (Some "") (Some "http://chat.local/") "http://localhost:3000"
             "http://chat.local/"
  /\ resolvesTo (Some "s1") (Some "s2") "" "s1"
  /\ resolvesTo None None "2000" "2000"
  /\ WebEnv.constructor (WebEnv.mkEnv (Some "") (Some "s1") None)
                        (WebEnv.mkEnv (Some "http://chat.local/") (Some "s2") None)
     = Returned (WebEnv.mkWebChannel false None "http://chat.local" "s1"
                                     (ParseInt10 "2000")).
Proof.
  assert (Ru : resolvesTo (Some "") (Some "http://chat.local/")
                          "http://localhost:3000" "http://chat.local/")
    by (repeat split; intros; try reflexivity; discriminate).
  assert (Rk : resolvesTo (Some "s1") (Some "s2") "" "s1")
    by (repeat split; intros; try reflexivity; discriminate).
  assert (Ri : resolvesTo None None "2000" "2000")
    by (repeat split; intros; try reflexivity; discriminate).
  split; [exact Ru|]. split; [exact Rk|]. split; [exact Ri|].
  exact (WebEnv_configuration_precedence
           (WebEnv.mkEnv (Some "") (Some "s1") None)
           (WebEnv.mkEnv (Some "http://chat.local/") (Some "s2") None)
           _ _ _ Ru Rk Ri).
Defined.

(** X14 on the URL of the test-suite. *)
Lemma WebEnv_base_url_ignores_one_trailing_slash_witness :
  truthy base = true
  /\ endsWithSlash base = false
  /\ WebEnv.constructor
       (WebEnv.mkEnv (Some "http://localhost:3000/"%string)
                     (Some "test-secret-abc"%string) (Some "50"%string))
       noEnv
     = WebEnv.constructor envFile noEnv.
Proof.
  split; [reflexivity|]. split; [reflexivity|].
  destruct (WebEnv_base_url_ignores_one_trailing_slash
              base (Some "test-secret-abc"%string) (Some "50"%string) noEnv
              eq_refl eq_refl) as [E _].
  exact E.
Defined.

(** * Properties of [buildFileTree] *)

(** The tree of the group folder of the concrete runs: [private] cannot be
    read, [.git], [.env] and [logs] are left out, [latest] is neither a file
    nor a directory, and [c] lies at the depth cap. *)
Example buildFileTree_of_a_group_folder :
  Workspace.buildFileTree groupNode "/groups/web-1" 0 = groupTree.
Proof. reflexivity. Qed.

Lemma codeUnitCompare_total a : forall b,
  codeUnitCompare a b <= 0 \/ codeUnitCompare b a <= 0.
Proof.
  induction a as [|x a IH]; intros [|y b]; cbn; try lia.
  destruct (Z.eqb_spec (Z.of_nat (nat_of_ascii x) - Z.of_nat (nat_of_ascii y)) 0) as [E|E];
    destruct (Z.eqb_spec (Z.of_nat (nat_of_ascii y) - Z.of_nat (nat_of_ascii x)) 0) as [E'|E'];
    try lia.
  apply IH.
Qed.

Lemma codeUnitCompare_trans a : forall b c,
  codeUnitCompare a b <= 0 -> codeUnitCompare b c <= 0 -> codeUnitCompare a c <= 0.
Proof.
  induction a as [|x a IH]; intros [|y b] [|z c]; cbn; try lia.
  destruct (Z.eqb_spec (Z.of_nat (nat_of_ascii x) - Z.of_nat (nat_of_ascii y)) 0) as [E|E];
    destruct (Z.eqb_spec (Z.of_nat (nat_of_ascii y) - Z.of_nat (nat_of_ascii z)) 0) as [E'|E'];
    destruct (Z.eqb_spec (Z.of_nat (nat_of_ascii x) - Z.of_nat (nat_of_ascii z)) 0) as [E''|E''];
    try lia.
  apply IH.
Qed.

(** ** The sort *)

Section Sorting.
Import Workspace.

Lemma insertSorted_perm {A} (compare : A -> A -> Z) x l :
  Permutation (insertSorted compare x l) (x :: l).
Proof.
  induction l as [|y rest IH]; cbn; [reflexivity|].
  destruct (compare x y <=? 0); [reflexivity|].
  rewrite IH. apply perm_swap.
Qed.

Lemma sort_perm {A} (compare : A -> A -> Z) l : Permutation (sort compare l) l.
Proof.
  induction l as [|x rest IH]; cbn; [reflexivity|].
  rewrite insertSorted_perm. now constructor.
Qed.

Lemma filter_perm {A} (f : A -> bool) l l' :
  Permutation l l' -> Permutation (filter f l) (filter f l').
Proof.
  induction 1; cbn.
  - reflexivity.
  - destruct (f x); [now constructor|assumption].
  - destruct (f x), (f y); try reflexivity. apply perm_swap.
  - etransitivity; eassumption.
Qed.

Section Ordered.
Context {A : Type} (compare : A -> A -> Z).
Hypothesis total : forall a b, compare a b <= 0 \/ compare b a <= 0.
Hypothesis transitive :
  forall a b c, compare a b <= 0 -> compare b c <= 0 -> compare a c <= 0.

Lemma insertSorted_sorted x l :
  StronglySorted (fun a b => compare a b <= 0) l ->
  StronglySorted (fun a b => compare a b <= 0) (insertSorted compare x l).
Proof.
  induction 1 as [|y rest S IH F]; cbn.
  - repeat constructor.
  - destruct (compare x y <=? 0) eqn:E.
    + apply Z.leb_le in E. constructor; [now constructor|].
      constructor; [assumption|].
      rewrite Forall_forall in *. intros z Hz. eauto.
    + apply Z.leb_gt in E. constructor; [assumption|].
      assert (Hyx : compare y x <= 0) by (destruct (total x y); [lia|assumption]).
      rewrite Forall_forall in *. intros z Hz.
      apply (Permutation_in _ (insertSorted_perm compare x rest)) in Hz.
      destruct Hz as [<-|Hz]; auto.
Qed.

Lemma sort_sorted l : StronglySorted (fun a b => compare a b <= 0) (sort compare l).
Proof.
  induction l as [|x rest IH]; cbn; [constructor|now apply insertSorted_sorted].
Qed.

End Ordered.

Lemma sorted_filter {A} (R : A -> A -> Prop) (f : A -> bool) l :
  StronglySorted R l -> StronglySorted R (filter f l).
Proof.
  induction 1 as [|x rest S IH F]; cbn; [constructor|].
  destruct (f x); [|assumption]. constructor; [assumption|].
  rewrite Forall_forall in *. intros y Hy. apply filter_In in Hy. now apply F.
Qed.

Lemma sorted_map {A B} (R : B -> B -> Prop) (g : A -> B) l :
  StronglySorted (fun a b => R (g a) (g b)) l -> StronglySorted R (map g l).
Proof.
  induction 1 as [|x rest S IH F]; cbn; constructor; [assumption|].
  rewrite Forall_forall in *. intros y Hy. apply in_map_iff in Hy.
  destruct Hy as (z & <- & Hz). now apply F.
Qed.

End Sorting.

(** ** One level of the tree *)

Section WorkspaceLevels.
Import Workspace.
Variable node : Node.

Lemma visit_pushed subtree dir result entry :
  visit node subtree dir result entry = result ++ pushed node subtree dir entry.
Proof.
  unfold pushed, visit. destruct (skipped _); [now rewrite app_nil_r|].
  destruct (dirent_kind entry); cbn; now rewrite ?app_nil_r.
Qed.

Lemma loop_pushed subtree dir entries :
  forall result,
    fold_left (visit node subtree dir) entries result
    = result ++ flat_map (pushed node subtree dir) entries.
Proof.
  induction entries as [|e rest IH]; intros result; cbn [fold_left flat_map].
  - now rewrite app_nil_r.
  - rewrite IH, visit_pushed. now rewrite app_assoc.
Qed.

Lemma buildLevels_step below dir :
  buildLevels node (S below) dir =
  match readdirSync node dir with
  | None => []
  | Some entries =>
      flat_map (pushed node (buildLevels node below) dir) (sort (byName node) entries)
  end.
Proof.
  cbn [buildLevels]. destruct (readdirSync node dir); [apply loop_pushed|reflexivity].
Qed.

(** The recursion of the source: [buildFileTree] calls itself one level
    deeper for every directory it lists. *)
Lemma buildFileTree_unfold dir depth :
  buildFileTree node dir depth =
  if MAX_DEPTH <=? depth then []
  else match readdirSync node dir with
       | None => []
       | Some entries =>
           fold_left (visit node (fun sub => buildFileTree node sub (depth + 1)) dir)
                     (sort (byName node) entries) []
       end.
Proof.
  unfold buildFileTree. destruct (MAX_DEPTH <=? depth) eqn:E.
  - apply Z.leb_le in E. replace (Z.to_nat (MAX_DEPTH - depth)) with 0%nat by lia.
    reflexivity.
  - apply Z.leb_gt in E.
    replace (Z.to_nat (MAX_DEPTH - depth))
      with (S (Z.to_nat (MAX_DEPTH - (depth + 1)))) by lia.
    reflexivity.
Qed.

Lemma buildFileTree_deeper dir depth :
  depth < MAX_DEPTH ->
  buildFileTree node dir depth
  = match readdirSync node dir with
    | None => []
    | Some entries =>
        flat_map (pushed node (fun sub => buildFileTree node sub (depth + 1)) dir)
                 (sort (byName node) entries)
    end.
Proof.
  intros Hd. rewrite buildFileTree_unfold.
  destruct (Z.leb_spec MAX_DEPTH depth); [lia|].
  destruct (readdirSync node dir); [apply loop_pushed|reflexivity].
Qed.

Lemma pushed_cases subtree dir entry :
  pushed node subtree dir entry =
  if listed entry then
    [Entry (dirent_name entry) (typeOfDirent entry)
           match dirent_kind entry with
           | IsDirectory => Some (subtree (path_join node dir (dirent_name entry)))
           | _ => None
           end]
  else [].
Proof.
  unfold pushed, visit, listed, typeOfDirent.
  destruct (skipped _); [reflexivity|]. now destruct (dirent_kind entry).
Qed.

Lemma level_names subtree dir entries :
  map nameOf (flat_map (pushed node subtree dir) entries)
  = map dirent_name (filter listed entries).
Proof.
  induction entries as [|e rest IH]; cbn [flat_map filter map]; [reflexivity|].
  rewrite map_app, IH, pushed_cases. now destruct (listed e).
Qed.

Lemma level_shallow subtree dir entries :
  map (fun e => (nameOf e, typeOf e)) (flat_map (pushed node subtree dir) entries)
  = map (fun d => (dirent_name d, typeOfDirent d)) (filter listed entries).
Proof.
  induction entries as [|e rest IH]; cbn [flat_map filter map]; [reflexivity|].
  rewrite map_app, IH, pushed_cases. now destruct (listed e).
Qed.

Lemma level_member subtree dir entries e :
  In e (flat_map (pushed node subtree dir) entries) <->
  exists d, In d entries /\ listed d = true
            /\ e = Entry (dirent_name d) (typeOfDirent d)
                     match dirent_kind d with
                     | IsDirectory => Some (subtree (path_join node dir (dirent_name d)))
                     | _ => None
                     end.
Proof.
  rewrite in_flat_map. split.
  - intros (d & Hd & He). rewrite pushed_cases in He.
    destruct (listed d) eqn:L; [|contradiction].
    destruct He as [<-|[]]. eauto.
  - intros (d & Hd & L & ->). exists d. split; [assumption|].
    rewrite pushed_cases, L. now left.
Qed.

Lemma skipped_false entryName :
  skipped entryName = false ->
  startsWith "." entryName = false /\ ~ In entryName EXCLUDED.
Proof.
  unfold skipped. intros Hs. apply orb_false_elim in Hs. destruct Hs as [Hd Hx].
  split; [assumption|]. intros Hin.
  assert (has EXCLUDED entryName = true); [|congruence].
  apply existsb_exists. exists entryName. split; [assumption|apply String.eqb_refl].
Qed.

Lemma listed_true d :
  listed d = true -> skipped (dirent_name d) = false /\ dirent_kind d <> IsOther.
Proof.
  unfold listed. intros L. apply andb_prop in L. destruct L as [L1 L2].
  split; [now apply negb_true_iff|]. intros E. rewrite E in L2. discriminate.
Qed.

(** ** The whole tree *)

Lemma buildLevels_height n : forall dir,
  Forall (fun e => (height e <= n)%nat) (buildLevels node n dir).
Proof.
  induction n as [|n IH]; intros dir; [constructor|].
  rewrite buildLevels_step. destruct (readdirSync node dir) as [entries|]; [|constructor].
  apply Forall_forall. intros e He. apply level_member in He.
  destruct He as (d & _ & _ & ->). cbn [height].
  destruct (dirent_kind d); try lia.
  apply le_n_S, list_max_le, Forall_map, IH.
Qed.

(** X16.  The tree that [buildFileTree] returns has at most
    [MAX_DEPTH - depth] levels, four for the default depth [0]; from
    [MAX_DEPTH] on it is empty. *)
Theorem buildFileTree_depth_is_capped (dir : string) (depth : Z) :
  (levelsOf (buildFileTree node dir depth) <= Z.to_nat (MAX_DEPTH - depth))%nat
  /\ (levelsOf (buildFileTree node dir 0) <= 4)%nat
  /\ (MAX_DEPTH <= depth -> buildFileTree node dir depth = []).
Proof.
  assert (B : forall n d, (levelsOf (buildLevels node n d) <= n)%nat).
  { intros n d. apply list_max_le, Forall_map, buildLevels_height. }
  split; [apply B|]. split; [apply (B 4%nat)|].
  intros Hd. unfold buildFileTree.
  now replace (Z.to_nat (MAX_DEPTH - depth)) with 0%nat by lia.
Qed.

Lemma buildLevels_entries (P : FileEntry -> Prop) :
  (forall name t c, skipped name = false -> P (Entry name t c)) ->
  forall n dir, Forall P (entriesOf (buildLevels node n dir)).
Proof.
  intros HP. induction n as [|n IH]; intros dir; [constructor|].
  rewrite buildLevels_step. destruct (readdirSync node dir) as [entries|]; [|constructor].
  apply Forall_forall. intros e He. apply in_flat_map in He.
  destruct He as (top & Htop & He). apply level_member in Htop.
  destruct Htop as (d & _ & L & ->). apply listed_true in L. destruct L as [L _].
  cbn [withDescendants] in He. destruct He as [<-|He]; [now apply HP|].
  destruct (dirent_kind d); try contradiction.
  specialize (IH (path_join node dir (dirent_name d))).
  rewrite Forall_forall in IH. now apply IH.
Qed.

(** X17.  No entry of the tree, at any level, has a name that starts with
    a dot or is one of [logs], [.git], [node_modules], [__pycache__],
    [.claude] and [conversations]: such an entry of a directory is left out
    together with everything below it. *)
Theorem buildFileTree_never_lists_hidden_or_excluded (dir : string) (depth : Z) :
  Forall (fun e => startsWith "." (nameOf e) = false /\ ~ In (nameOf e) EXCLUDED)
         (entriesOf (buildFileTree node dir depth)).
Proof.
  apply buildLevels_entries. intros name t c Hs. now apply skipped_false.
Qed.

Lemma buildLevels_shaped n : forall dir,
  forallb wellShaped (buildLevels node n dir) = true.
Proof.
  induction n as [|n IH]; intros dir; [reflexivity|].
  rewrite buildLevels_step. destruct (readdirSync node dir) as [entries|]; [|reflexivity].
  apply forallb_forall. intros e He. apply level_member in He.
  destruct He as (d & _ & L & ->). apply listed_true in L. destruct L as [_ L].
  unfold typeOfDirent. destruct (dirent_kind d); cbn; try reflexivity. apply IH.
Qed.

(** X18.  Every entry that [buildFileTree] lists is a file without
    [children] or a directory whose [children] are the tree of that
    directory, built one level deeper from the joined path; the children
    are the empty array when the directory cannot be read and when it lies
    at the depth cap.  The same shape holds at every level below. *)
Theorem buildFileTree_children (dir : string) (depth : Z) (e : FileEntry) :
  In e (buildFileTree node dir depth) ->
  let sub := path_join node dir (nameOf e) in
  ((typeOf e = TFile /\ childrenOf e = None)
   \/ (typeOf e = TDir
       /\ childrenOf e = Some (buildFileTree node sub (depth + 1))
       /\ (readdirSync node sub = None -> childrenOf e = Some [])
       /\ (MAX_DEPTH <= depth + 1 -> childrenOf e = Some [])))
  /\ wellShaped e = true.
Proof.
  intros He sub.
  assert (W : wellShaped e = true).
  { pose proof (buildLevels_shaped (Z.to_nat (MAX_DEPTH - depth)) dir) as S.
    rewrite forallb_forall in S. now apply S. }
  split; [|exact W].
  destruct (Z.leb_spec MAX_DEPTH depth) as [Hd|Hd].
  { rewrite buildFileTree_unfold in He.
    destruct (Z.leb_spec MAX_DEPTH depth); [contradiction|lia]. }
  rewrite (buildFileTree_deeper dir depth Hd) in He.
  destruct (readdirSync node dir) as [entries|]; [|contradiction].
  apply level_member in He. destruct He as (d & _ & L & ->).
  apply listed_true in L. destruct L as [_ L]. subst sub.
  unfold typeOfDirent. cbn [nameOf typeOf childrenOf].
  destruct (dirent_kind d); [left; now split| |congruence].
  right. split; [reflexivity|]. split; [reflexivity|]. split.
  - intros Hn. f_equal. rewrite buildFileTree_unfold, Hn. now destruct (_ <=? _).
  - intros Hm. f_equal. rewrite buildFileTree_unfold.
    destruct (Z.leb_spec MAX_DEPTH (depth + 1)); [reflexivity|lia].
Qed.

(** X19.  Above the depth cap, the top level of the tree lists exactly the
    entries of the directory that are files or directories and whose names
    are neither hidden nor excluded, each once and with its kind; symbolic
    links and other special entries are left out.  For a directory that
    cannot be read the tree is empty: the error is not raised. *)
Theorem buildFileTree_lists_the_directory (dir : string) (depth : Z) :
  depth < MAX_DEPTH ->
  match readdirSync node dir with
  | Some entries =>
      Permutation
        (map (fun e => (nameOf e, typeOf e)) (buildFileTree node dir depth))
        (map (fun d => (dirent_name d, typeOfDirent d)) (filter listed entries))
  | None => buildFileTree node dir depth = []
  end.
Proof.
  intros Hd. rewrite (buildFileTree_deeper dir depth Hd).
  destruct (readdirSync node dir) as [entries|]; [|reflexivity].
  rewrite level_shallow. apply Permutation_map, filter_perm, sort_perm.
Qed.

(** X20.  When [localeCompare] orders the names (any two names compare one
    way or the other, and transitively), the entries that [buildFileTree]
    returns for a directory come in that order; the children of a
    directory, being the tree of that directory, do so too. *)
Theorem buildFileTree_is_sorted (dir : string) (depth : Z) :
  (forall a b, localeCompare node a b <= 0 \/ localeCompare node b a <= 0) ->
  (forall a b c, localeCompare node a b <= 0 -> localeCompare node b c <= 0 ->
                 localeCompare node a c <= 0) ->
  StronglySorted (fun a b => localeCompare node a b <= 0)
                 (map nameOf (buildFileTree node dir depth)).
Proof.
  intros total transitive.
  destruct (Z.leb_spec MAX_DEPTH depth) as [Hd|Hd].
  { rewrite buildFileTree_unfold. destruct (Z.leb_spec MAX_DEPTH depth); [constructor|lia]. }
  rewrite (buildFileTree_deeper dir depth Hd).
  destruct (readdirSync node dir) as [entries|]; [|constructor].
  rewrite level_names. apply sorted_map, sorted_filter.
  apply (sort_sorted (byName node)); unfold byName; eauto.
Qed.

Lemma buildLevels_cut n m : forall dir,
  buildLevels node n dir = cut n (buildLevels node (n + m) dir).
Proof.
  induction n as [|n IH]; intros dir; [reflexivity|].
  cbn [Nat.add cut]. rewrite !buildLevels_step.
  destruct (readdirSync node dir) as [entries|]; [|reflexivity].
  induction (sort (byName node) entries) as [|d rest IHr]; [reflexivity|].
  cbn [flat_map]. rewrite map_app, <- IHr. f_equal.
  rewrite !pushed_cases. destruct (listed d); [|reflexivity].
  cbn [map cutEntry]. do 2 f_equal.
  destruct (dirent_kind d); try reflexivity.
  f_equal. apply (IH (path_join node dir (dirent_name d))).
Qed.

(** X21.  The depth only cuts the tree: the tree built from a greater
    depth is the tree built from a smaller one, cut below the levels that
    are left; which entries appear above the cut does not depend on the
    depth. *)
Theorem buildFileTree_depth_only_cuts (dir : string) (depth depth' : Z) :
  depth <= depth' ->
  buildFileTree node dir depth'
  = cut (Z.to_nat (MAX_DEPTH - depth')) (buildFileTree node dir depth).
Proof.
  intros Hd. unfold buildFileTree.
  replace (Z.to_nat (MAX_DEPTH - depth))
    with (Z.to_nat (MAX_DEPTH - depth')
          + (Z.to_nat (MAX_DEPTH - depth) - Z.to_nat (MAX_DEPTH - depth')))%nat
    by lia.
  apply buildLevels_cut.
Qed.

End WorkspaceLevels.

(** X18 on the directory of the group folder that cannot be read. *)
Lemma buildFileTree_children_witness :
  In (Entry "private" TDir (Some []))
     (Workspace.buildFileTree groupNode "/groups/web-1" 0)
  /\ Workspace.readdirSync groupNode "/groups/web-1/private" = None
  /\ Workspace.wellShaped (Entry "private" TDir (Some [])) = true.
Proof.
  assert (I : In (Entry "private" TDir (Some []))
                 (Workspace.buildFileTree groupNode "/groups/web-1" 0))
    by (do 2 right; left; reflexivity).
  split; [exact I|]. split; [reflexivity|].
  destruct (buildFileTree_children groupNode "/groups/web-1" 0 _ I) as [_ W].
  exact W.
Defined.

(** X19 on the group folder. *)
Lemma buildFileTree_lists_the_directory_witness :
  0 < Workspace.MAX_DEPTH
  /\ Workspace.readdirSync groupNode "/groups/web-1" = Some groupEntries
  /\ Permutation
       [("CLAUDE.md"%string, TFile); ("notes.md"%string, TFile);
        ("private"%string, TDir); ("src"%string, TDir)]
       [("notes.md"%string, TFile); ("src"%string, TDir);
        ("CLAUDE.md"%string, TFile); ("private"%string, TDir)].
Proof.
  split; [reflexivity|]. split; [reflexivity|].
  apply (buildFileTree_lists_the_directory groupNode "/groups/web-1" 0 eq_refl).
Defined.

(** X20 on the group folder, with names ordered by code units. *)
Lemma buildFileTree_is_sorted_witness :
  StronglySorted (fun a b => codeUnitCompare a b <= 0)
                 ["CLAUDE.md"%string; "notes.md"%string; "private"%string;
                  "src"%string].
Proof.
  apply (buildFileTree_is_sorted groupNode "/groups/web-1" 0
           codeUnitCompare_total codeUnitCompare_trans).
Defined.

(** X21 on the group folder, built from depth [2]. *)
Lemma buildFileTree_depth_only_cuts_witness :
  0 <= 2
  /\ Workspace.buildFileTree groupNode "/groups/web-1" 2
     = [Entry "CLAUDE.md" TFile None;
        Entry "notes.md" TFile None;
        Entry "private" TDir (Some []);
        Entry "src" TDir
          (Some [Entry "a" TDir (Some []); Entry "main.ts" TFile None])]
  /\ Workspace.cut 2 groupTree
     = Workspace.buildFileTree groupNode "/groups/web-1" 2.
Proof.
  split; [lia|]. split; [reflexivity|].
  symmetry.
  apply (buildFileTree_depth_only_cuts groupNode "/groups/web-1" 0 2).
  lia.
Defined.
